(** * The feed store of the bookmarks service: a shallow embedding

    The development follows [storage/feeds.go] (the [Feed] value and its
    methods [Fetch] and [DeleteItem], and the store operations [FeedList],
    [FeedPersist] and [FeedDelete]) and the SQL schema of the storage
    package (the [feeds] table and the triggers that maintain the full-text
    tables of [bookmarks] and [thoughts]).

    Conventions of the embedding:
    - a [time.Time] is an integer count of nanoseconds since Go's zero time,
      so [IsZero], [Before] and [After] are comparisons on [Z];
    - a pointer receiver ([feed *Feed]) becomes an argument and a result;
    - [time.Now()] and [generateUUID()] read from a [World] that holds the
      successive answers of the clock and of the generator;
    - a nil-pointer dereference is the outcome [Panicked];
    - the database is the list of rows of the [feeds] table together with
      the journal of the statements issued so far; a statement fails when
      the schema rejects it (unknown column, violated uniqueness), not for
      reasons of the environment (no disk or connection failures). *)

From stdpp Require Import base option list strings gmap sorting.
From Stdlib Require Import ZArith Lia Permutation.

Local Open Scope Z_scope.

(** ** Time *)

Definition Time := Z.

Definition IsZero (t : Time) : bool := t =? 0.
Definition Before (t u : Time) : bool := t <? u.
Definition After (t u : Time) : bool := u <? t.

(** [time.Hour], in nanoseconds. *)
Definition Hour : Z := 3600 * 1000000000.

Definition Add (t : Time) (d : Z) : Time := t + d.

(** ** Errors *)

Inductive error :=
| ErrNoFeedURL
| ErrNoFeedKey
| ErrNotExistingFeedItem
| ErrExternal (msg : string).

#[global] Instance error_eq_dec : EqDecision error.
Proof. solve_decision. Defined.

(** What a call does: it returns (with an error or with [nil]) or the
    goroutine panics. *)
Inductive Outcome :=
| Returned (err : option error)
| Panicked.

(** ** The world: clock and identifier generator

    Modelled from the spec: [generateUUID] is not among the sources; it
    yields a fresh unique ID, here the next answer of the generator held by
    the world.  Whether an answer is unused is stated where it matters. *)

Record World := mkWorld {
  wall : nat -> Time;
  reads : nat;
  uuids : nat -> string;
  drawn : nat
}.

Definition time_Now (w : World) : Time * World :=
  (wall w (reads w),
   {| wall := wall w; reads := S (reads w); uuids := uuids w; drawn := drawn w |}).

Definition generateUUID (w : World) : string * World :=
  (uuids w (drawn w),
   {| wall := wall w; reads := reads w; uuids := uuids w; drawn := S (drawn w) |}).

(** ** Feed items and feeds

    Modelled from the spec: the declarations of [FeedItem], [FeedItems] and
    [Tags] are not among the sources; a [FeedItem] has the fields that
    [Fetch] sets and that the row format lists (id, created, updated, title,
    url, date, content), [FeedItems] is a slice of pointers to them and
    [Tags] a slice of strings. *)

Module FeedItem.
Record t := mk {
  ID : string;
  Created : Time;
  Updated : Time;
  Title : string;
  URL : string;
  Date : Time;
  Content : string
}.
Definition with_Content (v : string) (i : t) : t :=
  mk (ID i) (Created i) (Updated i) (Title i) (URL i) (Date i) v.
Definition with_Date (v : Time) (i : t) : t :=
  mk (ID i) (Created i) (Updated i) (Title i) (URL i) v (Content i).
End FeedItem.
Abbreviation FeedItem := FeedItem.t.

(** [Tags] is a slice of strings; [None] is the nil slice. *)
Definition Tags := option (list string).

Definition tag_list (tags : Tags) : list string := default [] tags.

Module Feed.
Record t := mk {
  ID : string;
  Created : Time;
  Updated : Time;
  Refreshed : Time;
  LastAuthored : Time;
  Title : string;
  URL : string;
  Etag : string;
  Tags : Tags;
  Items : list FeedItem
}.
Definition with_ID (v : string) (f : t) : t :=
  mk v (Created f) (Updated f) (Refreshed f) (LastAuthored f) (Title f) (URL f)
     (Etag f) (Tags f) (Items f).
Definition with_Created (v : Time) (f : t) : t :=
  mk (ID f) v (Updated f) (Refreshed f) (LastAuthored f) (Title f) (URL f)
     (Etag f) (Tags f) (Items f).
Definition with_Updated (v : Time) (f : t) : t :=
  mk (ID f) (Created f) v (Refreshed f) (LastAuthored f) (Title f) (URL f)
     (Etag f) (Tags f) (Items f).
Definition with_Refreshed (v : Time) (f : t) : t :=
  mk (ID f) (Created f) (Updated f) v (LastAuthored f) (Title f) (URL f)
     (Etag f) (Tags f) (Items f).
Definition with_LastAuthored (v : Time) (f : t) : t :=
  mk (ID f) (Created f) (Updated f) (Refreshed f) v (Title f) (URL f)
     (Etag f) (Tags f) (Items f).
Definition with_Title (v : string) (f : t) : t :=
  mk (ID f) (Created f) (Updated f) (Refreshed f) (LastAuthored f) v (URL f)
     (Etag f) (Tags f) (Items f).
Definition with_Etag (v : string) (f : t) : t :=
  mk (ID f) (Created f) (Updated f) (Refreshed f) (LastAuthored f) (Title f) (URL f)
     v (Tags f) (Items f).
Definition with_Tags (v : option (list string)) (f : t) : t :=
  mk (ID f) (Created f) (Updated f) (Refreshed f) (LastAuthored f) (Title f) (URL f)
     (Etag f) v (Items f).
Definition with_Items (v : list FeedItem) (f : t) : t :=
  mk (ID f) (Created f) (Updated f) (Refreshed f) (LastAuthored f) (Title f) (URL f)
     (Etag f) (Tags f) v.
End Feed.
Abbreviation Feed := Feed.t.

(** ** [DeleteItem]

    The loop [for i, item := range feed.Items]: [i] is the index reached,
    [rest] what is left to visit.  The items are held by pointer in the
    source; no path of the program stores a nil pointer in the slice, so the
    model holds the items themselves. *)

Fixpoint DeleteItem_range (feed : Feed) (ID : string) (i : nat) (rest : list FeedItem)
  : option error * Feed :=
  match rest with
  | [] => (Some ErrNotExistingFeedItem, feed)
  | item :: rest' =>
      if bool_decide (ID ≠ FeedItem.ID item) then DeleteItem_range feed ID (S i) rest'
      else (None,
            Feed.with_Items (take i (Feed.Items feed) ++ drop (S i) (Feed.Items feed)) feed)
  end.

Definition DeleteItem (feed : Feed) (ID : string) : option error * Feed :=
  DeleteItem_range feed ID 0 (Feed.Items feed).

(** ** [GetItem]

    The loop [for _, item := range feed.Items] that returns the first item
    with the ID, or nil. *)

Fixpoint GetItem_range (ID : string) (rest : list FeedItem) : option FeedItem :=
  match rest with
  | [] => None
  | item :: rest' =>
      if bool_decide (ID = FeedItem.ID item) then Some item else GetItem_range ID rest'
  end.

Definition GetItem (feed : Feed) (ID : string) : option FeedItem :=
  GetItem_range ID (Feed.Items feed).

(** ** The collaborators of [Fetch]: HTTP and the feed parser *)

Module http.
Record Request := mkRequest {
  Method : string;
  URL : string;
  Header : gmap string string
}.
Record Response := mkResponse {
  StatusCode : Z;
  RespHeader : gmap string string;
  Body : string
}.
Definition Header_Set (key value : string) (r : Request) : Request :=
  mkRequest (Method r) (URL r) (<[key := value]> (Header r)).
Definition Header_Get (key : string) (h : gmap string string) : string :=
  default ""%string (h !! key).
End http.

Module gofeed.
Module Item.
Record t := mk {
  Title : string;
  Description : string;
  Content : string;
  Link : string;
  UpdatedParsed : option Time;
  PublishedParsed : option Time
}.
End Item.
Module Feed.
Record t := mk {
  Title : string;
  Updated : string;
  UpdatedParsed : option Time;
  Items : list Item.t
}.
End Feed.
End gofeed.

(** [sort.SliceStable]: a stable sort, here by insertion.  [less a b] says
    that [a] must come before [b]. *)

Fixpoint SliceStable_insert {A} (less : A -> A -> bool) (x : A) (l : list A) : list A :=
  match l with
  | [] => [x]
  | y :: l' => if less y x then y :: SliceStable_insert less x l' else x :: l
  end.

Fixpoint SliceStable {A} (less : A -> A -> bool) (l : list A) : list A :=
  match l with
  | [] => []
  | x :: l' => SliceStable_insert less x (SliceStable less l')
  end.

Section Fetcher.

(** The fixed User-Agent of the storage package. *)
Variable defaultUserAgent : string.

(** What [http.NewRequest] answers on a URL it cannot parse. *)
Variable url_error : string -> option error.

(** [client.Do]: the response and the error.  A transport error (DNS,
    connect, timeout) comes with a nil response; a response next to an
    error only occurs for a refused redirect. *)
Variable client_Do : http.Request -> option http.Response * option error.

(** [gofeed.NewParser().Parse] on the body of the response. *)
Variable gofeed_Parse : string -> error + gofeed.Feed.t.

(** [bluemonday.StrictPolicy().Sanitize]. *)
Variable Sanitize : string -> string.

(** [t.UTC().Format(time.RFC1123)]. *)
Variable Format_RFC1123 : Time -> string.

Definition http_NewRequest (method url : string) : error + http.Request :=
  match url_error url with
  | Some err => inl err
  | None => inr (http.mkRequest method url ∅)
  end.

(** The request [Fetch] sends: lines 53 to 67. *)
Definition Fetch_request (feed : Feed) : error + http.Request :=
  match http_NewRequest "GET" (Feed.URL feed) with
  | inl err => inl err
  | inr request =>
      let request := http.Header_Set "User-Agent" defaultUserAgent request in
      if bool_decide (Feed.Etag feed ≠ ""%string) then
        inr (http.Header_Set "If-None-Match" (Feed.Etag feed) request)
      else if negb (IsZero (Feed.Refreshed feed)) then
        inr (http.Header_Set "If-Modified-Since" (Format_RFC1123 (Feed.Refreshed feed)) request)
      else inr request
  end.

(** The item built from one parsed entry: lines 94 to 114. *)
Definition new_feedItem (item : gofeed.Item.t) (w : World) : FeedItem * World :=
  let '(id, w) := generateUUID w in
  let '(created, w) := time_Now w in
  let '(updated, w) := time_Now w in
  let feedItem :=
    FeedItem.mk id created updated (gofeed.Item.Title item) (gofeed.Item.Link item) 0 "" in
  let feedItem :=
    if bool_decide (gofeed.Item.Content item ≠ ""%string)
    then FeedItem.with_Content (Sanitize (gofeed.Item.Content item)) feedItem
    else FeedItem.with_Content (Sanitize (gofeed.Item.Description item)) feedItem in
  match gofeed.Item.PublishedParsed item with
  | Some t => (FeedItem.with_Date t feedItem, w)
  | None =>
      match gofeed.Item.UpdatedParsed item with
      | Some t => (FeedItem.with_Date t feedItem, w)
      | None => let '(now, w) := time_Now w in (FeedItem.with_Date now feedItem, w)
      end
  end.

(** One turn of the loop over [parsedFeed.Items]: lines 93 to 123. *)
Definition Fetch_entry (feed : Feed) (item : gofeed.Item.t) (w : World) : Feed * World :=
  let '(feedItem, w) := new_feedItem item w in
  if Before (FeedItem.Date feedItem) (Feed.Refreshed feed) then (feed, w)
  else
    let '(now, w) := time_Now w in
    if After (FeedItem.Date feedItem) now then (feed, w)
    else (Feed.with_Items (Feed.Items feed ++ [feedItem]) feed, w).

Fixpoint Fetch_range (feed : Feed) (entries : list gofeed.Item.t) (w : World) : Feed * World :=
  match entries with
  | [] => (feed, w)
  | item :: rest => let '(feed, w) := Fetch_entry feed item w in Fetch_range feed rest w
  end.

(** What follows the loop: lines 125 to 140. *)
Definition Fetch_finish (feed : Feed) (response : http.Response) (parsedFeed : gofeed.Feed.t)
  (w : World) : Outcome * Feed * World :=
  let authored :=
    if bool_decide (gofeed.Feed.Updated parsedFeed ≠ ""%string) then
      match gofeed.Feed.UpdatedParsed parsedFeed with
      | Some t => Some (Feed.with_LastAuthored t feed)
      | None => None
      end
    else Some feed in
  match authored with
  | None => (Panicked, feed, w)
  | Some feed =>
      let feed := Feed.with_Etag (http.Header_Get "Etag" (http.RespHeader response)) feed in
      let '(now, w) := time_Now w in
      let feed := Feed.with_Refreshed now feed in
      let feed :=
        if bool_decide (Feed.Title feed = ""%string)
        then Feed.with_Title (gofeed.Feed.Title parsedFeed) feed else feed in
      let feed :=
        Feed.with_Items
          (SliceStable (fun a b => After (FeedItem.Date a) (FeedItem.Date b)) (Feed.Items feed))
          feed in
      (Returned None, feed, w)
  end.

Definition Fetch (feed : Feed) (w : World) : Outcome * Feed * World :=
  if bool_decide (Feed.URL feed = ""%string) then (Returned (Some ErrNoFeedURL), feed, w)
  else
    match Fetch_request feed with
    | inl err => (Returned (Some err), feed, w)
    | inr request =>
        match client_Do request with
        | (response, Some err) =>
            (* the warning logs [response.StatusCode] before returning *)
            match response with
            | None => (Panicked, feed, w)
            | Some _ => (Returned (Some err), feed, w)
            end
        | (None, None) => (Panicked, feed, w)
        | (Some response, None) =>
            if 304 =? http.StatusCode response then (Returned None, feed, w)
            else
              match gofeed_Parse (http.Body response) with
              | inl err => (Returned (Some err), feed, w)
              | inr parsedFeed =>
                  let '(feed, w) := Fetch_range feed (gofeed.Feed.Items parsedFeed) w in
                  Fetch_finish feed response parsedFeed w
              end
        end
    end.

(** The acceptance rule in the words of the specification: the date is not
    strictly before the cutoff and not strictly after now. *)
Definition accepts (refreshed now date : Time) : bool :=
  negb (date <? refreshed) && negb (now <? date).

(** The world once the loop is done with one entry: the clock is read for
    the second test only when the first one lets the entry through. *)
Definition after_entry (refreshed : Time) (item : gofeed.Item.t) (w : World) : World :=
  let '(feedItem, w) := new_feedItem item w in
  if Before (FeedItem.Date feedItem) refreshed then w else snd (time_Now w).

(** The items of the entries that the rule accepts, each judged against the
    reading that the clock gives at its turn. *)
Fixpoint accepted (refreshed : Time) (entries : list gofeed.Item.t) (w : World)
  : list FeedItem :=
  match entries with
  | [] => []
  | item :: rest =>
      let '(feedItem, w1) := new_feedItem item w in
      (if accepts refreshed (wall w1 (reads w1)) (FeedItem.Date feedItem)
       then [feedItem] else [])
      ++ accepted refreshed rest (after_entry refreshed item w)
  end.

End Fetcher.

(** ** The [feeds] table and the statements of the query builder *)

(** The conditions that [feeds.go] hands to [Where], one constructor per
    SQL text.  The two conditions on tags name the table whose [tags]
    column [json_each] reads. *)
Inductive Cond :=
| TitleOrUrlLike (title_pattern url_pattern : string)
| RefreshedBefore (t : Time)
| TagsContain (table value : string)
| TagsLack (table value : string)
| IdIs (value : string)
| UrlIs (value : string).

Inductive Stmt :=
| SelectStmt (columns : list string) (conds : list Cond)
| InsertStmt (columns : list string) (record : Feed)
| UpdateStmt (columns : list string) (record : Feed) (conds : list Cond)
| DeleteStmt (conds : list Cond).

Record Store := mkStore {
  feeds : list Feed;
  journal : list Stmt
}.

Definition issue (s : Stmt) (store : Store) : Store :=
  mkStore (feeds store) (journal store ++ [s]).

Definition with_feeds (rows : list Feed) (store : Store) : Store :=
  mkStore rows (journal store).

(** [strings.HasPrefix] and [strings.TrimPrefix]. *)
Definition HasPrefix (s prefix : string) : bool := String.prefix prefix s.

Definition TrimPrefix (s prefix : string) : string :=
  if HasPrefix s prefix
  then String.substring (String.length prefix) (String.length s - String.length prefix) s
  else s.

(** The filters of [FeedList]. *)
Module FeedListOptions.
Record t := mk {
  Search : string;
  Tags : Tags;
  NotRefreshedSince : Time;
  Limit : Z;
  Offset : Z
}.
End FeedListOptions.
Abbreviation FeedListOptions := FeedListOptions.t.

Section Database.

(** SQLite's [value LIKE pattern]. *)
Variable sql_like : string -> string -> bool.

(** SQLite's [refreshed < ?] on a row: the driver stores a time as the
    text of its date and clock reading followed by its zone offset, and the
    comparison is the one of the text stored in the row with the text of the
    bound time, not of the instants; it agrees with the order of the
    instants when both texts carry the same offset.  The first argument is
    the row, the second the bound time. *)
Variable sql_refreshed_before : Feed -> Time -> bool.

(** The rows that [LIMIT limit OFFSET offset] keep, as the query builder
    renders the two numbers. *)
Variable sql_page : Z -> Z -> list Feed -> list Feed.

(** The rows in the order of [ORDER BY last_authored DESC]: the database
    sorts on the stored text of the column, and leaves open the order of
    rows that tie. *)
Variable sql_order : list Feed -> list Feed.

(** A condition can be prepared on a statement over [table] when the
    columns it names exist there: the unqualified ones are columns of
    [feeds], a qualified one needs its table to be the one queried. *)
Definition Cond_resolves (table : string) (c : Cond) : bool :=
  match c with
  | TagsContain t _ | TagsLack t _ => bool_decide (t = table)
  | _ => true
  end.

Definition Cond_holds (c : Cond) (row : Feed) : bool :=
  match c with
  | TitleOrUrlLike p q => sql_like (Feed.Title row) p || sql_like (Feed.URL row) q
  | RefreshedBefore t => sql_refreshed_before row t
  | TagsContain _ v => bool_decide (v ∈ tag_list (Feed.Tags row))
  | TagsLack _ v => negb (bool_decide (v ∈ tag_list (Feed.Tags row)))
  | IdIs v => bool_decide (Feed.ID row = v)
  | UrlIs v => bool_decide (Feed.URL row = v)
  end.

(** Modelled from the spec: the query builder of the repository is not
    among the sources; successive [Where] calls are combined with logical
    AND, and a statement without any has no WHERE clause. *)
Definition Where (conds : list Cond) (row : Feed) : bool :=
  forallb (fun c => Cond_holds c row) conds.

Definition no_such_column : error := ErrExternal "no such column".

Definition exec_select (conds : list Cond) (rows : list Feed) : error + list Feed :=
  if forallb (Cond_resolves "feeds") conds then inr (filter (fun r => Where conds r) rows)
  else inl no_such_column.

(** [id] is the primary key and [url] is UNIQUE. *)
Definition exec_insert (record : Feed) (rows : list Feed) : error + list Feed :=
  if existsb (fun r => bool_decide (Feed.ID r = Feed.ID record)) rows then
    inl (ErrExternal "UNIQUE constraint failed: feeds.id")
  else if existsb (fun r => bool_decide (Feed.URL r = Feed.URL record)) rows then
    inl (ErrExternal "UNIQUE constraint failed: feeds.url")
  else inr (rows ++ [record]).

(** The row after [SET etag, items, last_authored, refreshed, tags, title,
    updated, url]: [id] and [created] stay. *)
Definition set_columns (feed row : Feed) : Feed :=
  Feed.mk (Feed.ID row) (Feed.Created row) (Feed.Updated feed) (Feed.Refreshed feed)
    (Feed.LastAuthored feed) (Feed.Title feed) (Feed.URL feed) (Feed.Etag feed)
    (Feed.Tags feed) (Feed.Items feed).

Definition exec_update (feed : Feed) (conds : list Cond) (rows : list Feed)
  : error + list Feed :=
  if forallb (Cond_resolves "feeds") conds then
    let rows' := map (fun r => if Where conds r then set_columns feed r else r) rows in
    if bool_decide (NoDup (Feed.URL <$> rows')) then inr rows'
    else inl (ErrExternal "UNIQUE constraint failed: feeds.url")
  else inl no_such_column.

Definition exec_delete (conds : list Cond) (rows : list Feed) : error + list Feed :=
  if forallb (Cond_resolves "feeds") conds
  then inr (filter (fun r => negb (Where conds r)) rows)
  else inl no_such_column.

(** ** [FeedList] *)

(** The condition one entry of [options.Tags] adds: lines 190 to 198. *)
Definition FeedList_tag (tag : string) : list Cond :=
  if bool_decide (tag = ""%string) then []
  else if HasPrefix tag "-" then [TagsLack "thoughts" (TrimPrefix tag "-")]
  else [TagsContain "thoughts" tag].

Definition FeedList_where (options : FeedListOptions) : list Cond :=
  (if bool_decide (FeedListOptions.Search options ≠ ""%string)
   then [TitleOrUrlLike ("%" +:+ FeedListOptions.Search options +:+ "%")
                        ("%" +:+ FeedListOptions.Search options +:+ "%")]
   else [])
  ++ (if negb (IsZero (FeedListOptions.NotRefreshedSince options))
      then [RefreshedBefore (FeedListOptions.NotRefreshedSince options)] else [])
  ++ concat (map FeedList_tag (tag_list (FeedListOptions.Tags options))).

Definition FeedList (store : Store) (options : FeedListOptions)
  : list Feed * Z * Store :=
  let conds := FeedList_where options in
  let store := issue (SelectStmt ["COUNT(id)"%string] conds) store in
  match exec_select conds (feeds store) with
  | inl _ => ([], 0, store)
  | inr rows =>
      let totalCount := Z.of_nat (length rows) in
      let store := issue (SelectStmt ["*"%string] conds) store in
      match exec_select conds (feeds store) with
      | inl _ => ([], 0, store)
      | inr rows =>
          (sql_page (FeedListOptions.Limit options) (FeedListOptions.Offset options)
             (sql_order rows),
           totalCount, store)
      end
  end.

(** ** [FeedPersist] *)

(** [LoadValue(&feed)] of the columns [id] and [created] of the first row
    with the feed's URL; without such a row the feed stays as it is (the
    error of the lookup is dropped). *)
Definition FeedPersist_lookup (rows : list Feed) (feed : Feed) : Feed :=
  match exec_select [UrlIs (Feed.URL feed)] rows with
  | inr (row :: _) => Feed.with_Created (Feed.Created row) (Feed.with_ID (Feed.ID row) feed)
  | _ => feed
  end.

Definition feeds_columns : list string :=
  ["id"; "created"; "etag"; "items"; "last_authored"; "refreshed"; "tags"; "title";
   "updated"; "url"]%string.

Definition update_columns : list string :=
  ["etag"; "items"; "last_authored"; "refreshed"; "tags"; "title"; "updated"; "url"]%string.

(** The defaults of lines 247 to 263. *)
Definition FeedPersist_defaults (feed : Feed) (w : World) : Feed * World :=
  let feed :=
    if bool_decide (Feed.Title feed = ""%string)
    then Feed.with_Title (Feed.URL feed) feed else feed in
  let '(feed, w) :=
    if IsZero (Feed.Created feed)
    then let '(now, w) := time_Now w in (Feed.with_Created now feed, w)
    else (feed, w) in
  let '(feed, w) :=
    if IsZero (Feed.Refreshed feed)
    then let '(now, w) := time_Now w in
         (Feed.with_Refreshed (Add now (Hour * 24 * 7 * -1)) feed, w)
    else (feed, w) in
  let feed :=
    match Feed.Tags feed with
    | None => Feed.with_Tags (Some []) feed
    | Some _ => feed
    end in
  let '(now, w) := time_Now w in
  (Feed.with_Updated now feed, w).

Definition FeedPersist (store : Store) (feed : Feed) (w : World)
  : option error * Feed * Store * World :=
  if bool_decide (Feed.URL feed = ""%string) then (Some ErrNoFeedURL, feed, store, w)
  else
    let '(feed, w) := FeedPersist_defaults feed w in
    let store := issue (SelectStmt ["id"; "created"]%string [UrlIs (Feed.URL feed)]) store in
    let feed := FeedPersist_lookup (feeds store) feed in
    if bool_decide (Feed.ID feed = ""%string) then
      let '(id, w) := generateUUID w in
      let feed := Feed.with_ID id feed in
      let store := issue (InsertStmt feeds_columns feed) store in
      match exec_insert feed (feeds store) with
      | inl err => (Some err, feed, store, w)
      | inr rows => (None, feed, with_feeds rows store, w)
      end
    else
      let conds := [IdIs (Feed.ID feed)] in
      let store := issue (UpdateStmt update_columns feed conds) store in
      match exec_update feed conds (feeds store) with
      | inl err => (Some err, feed, store, w)
      | inr rows => (None, feed, with_feeds rows store, w)
      end.

(** ** [FeedDelete] *)

Definition FeedDelete_where (feed : Feed) : list Cond :=
  (if bool_decide (Feed.ID feed ≠ ""%string) then [IdIs (Feed.ID feed)] else [])
  ++ (if bool_decide (Feed.Title feed ≠ ""%string) then [UrlIs (Feed.URL feed)] else []).

Definition FeedDelete (store : Store) (feed : Feed) : option error * Store :=
  if bool_decide (Feed.ID feed = ""%string) && bool_decide (Feed.URL feed = ""%string)
  then (Some ErrNoFeedKey, store)
  else
    let conds := FeedDelete_where feed in
    let store := issue (DeleteStmt conds) store in
    match exec_delete conds (feeds store) with
    | inl err => (Some err, store)
    | inr rows => (None, with_feeds rows store)
    end.

(** ** [FeedGet] *)

(** What the lookup answers when no row matches. *)
Definition ErrNoRows : error := ErrExternal "sql: no rows in result set".

(** Modelled from the spec: [LoadValue] of the query builder is not among
    the sources; on a statement limited to one row it loads the columns of
    the first matching row into the feed and fails with not-found when no
    row matches.  [FeedGet] names no column, so every column of the row is
    loaded. *)
Definition LoadValue (result : error + list Feed) (feed : Feed) : option error * Feed :=
  match result with
  | inl err => (Some err, feed)
  | inr [] => (Some ErrNoRows, feed)
  | inr (row :: _) => (None, row)
  end.

Definition FeedGet (store : Store) (feed : Feed) : option error * Feed * Store :=
  let key :=
    if bool_decide (Feed.ID feed ≠ ""%string) then Some [IdIs (Feed.ID feed)]
    else if bool_decide (Feed.URL feed ≠ ""%string) then Some [UrlIs (Feed.URL feed)]
    else None in
  match key with
  | None => (Some ErrNoFeedKey, feed, store)
  | Some conds =>
      let store := issue (SelectStmt [] conds) store in
      let '(err, feed) := LoadValue (exec_select conds (feeds store)) feed in
      (err, feed, store)
  end.

End Database.

(** ** [FeedRefresh] *)

Section Refresher.

Variable defaultUserAgent : string.
Variable url_error : string -> option error.
Variable client_Do : http.Request -> option http.Response * option error.
Variable gofeed_Parse : string -> error + gofeed.Feed.t.
Variable Sanitize : string -> string.
Variable Format_RFC1123 : Time -> string.
Variable sql_like : string -> string -> bool.
Variable sql_refreshed_before : Feed -> Time -> bool.

Definition FeedRefresh (store : Store) (feed : Feed) (w : World)
  : Outcome * Feed * Store * World :=
  match Fetch defaultUserAgent url_error client_Do gofeed_Parse Sanitize Format_RFC1123
          feed w with
  | (Returned None, feed, w) =>
      match FeedPersist sql_like sql_refreshed_before store feed w with
      | (Some err, feed, store, w) => (Returned (Some err), feed, store, w)
      | (None, feed, store, w) => (Returned None, feed, store, w)
      end
  | (failure, feed, w) => (failure, feed, store, w)
  end.

End Refresher.

(** ** The schema: the indexed tables and their full-text shadow tables

    [bookmarks] and [thoughts] are rowid tables; [bookmarks_fts] and
    [thoughts_fts] are external-content FTS5 tables keyed by the rowid of
    the base row.  A table is the finite map from rowids to rows; an index
    is the finite map from rowids to the column values it has indexed. *)

Module Bookmark.
Record t := mk {
  id : string;
  created : Time;
  updated : Time;
  title : string;
  url : string;
  excerpt : string;
  content : string;
  tags : list string;
  archived : bool
}.
End Bookmark.

Module Thought.
Record t := mk {
  id : string;
  created : Time;
  updated : Time;
  title : string;
  tags : list string;
  content : string
}.
End Thought.

Abbreviation Index := (gmap Z (list string)).

(** [INSERT INTO t_fts(rowid, ...) VALUES (rowid, ...)]. *)
Definition fts_insert (rowid : Z) (values : list string) (index : Index) : Index :=
  <[rowid := values]> index.

(** [INSERT INTO t_fts(t_fts, rowid, ...) VALUES ('delete', rowid, ...)]:
    the entry of [rowid] goes when the values are the ones indexed. *)
Definition fts_delete (rowid : Z) (values : list string) (index : Index) : Index :=
  if bool_decide (index !! rowid = Some values) then delete rowid index else index.

Definition bookmarks_ai (new_rowid : Z) (new : Bookmark.t) (bookmarks_fts : Index) : Index :=
  fts_insert new_rowid [Bookmark.title new; Bookmark.url new; Bookmark.content new]
    bookmarks_fts.

Definition bookmarks_ad (old_rowid : Z) (old : Bookmark.t) (bookmarks_fts : Index) : Index :=
  fts_delete old_rowid [Bookmark.title old; Bookmark.url old; Bookmark.content old]
    bookmarks_fts.

Definition bookmarks_au (old_rowid : Z) (old : Bookmark.t) (new_rowid : Z) (new : Bookmark.t)
  (bookmarks_fts : Index) : Index :=
  fts_insert new_rowid [Bookmark.title new; Bookmark.url new; Bookmark.content new]
    (fts_delete old_rowid [Bookmark.title old; Bookmark.url old; Bookmark.content old]
       bookmarks_fts).

Definition thoughts_ai (new_rowid : Z) (new : Thought.t) (thoughts_fts : Index) : Index :=
  fts_insert new_rowid [Thought.title new; Thought.content new] thoughts_fts.

Definition thoughts_ad (old_rowid : Z) (old : Thought.t) (thoughts_fts : Index) : Index :=
  fts_delete old_rowid [Thought.title old; Thought.content old] thoughts_fts.

Definition thoughts_au (old_rowid : Z) (old : Thought.t) (new_rowid : Z) (new : Thought.t)
  (thoughts_fts : Index) : Index :=
  fts_insert new_rowid [Thought.title new; Thought.content new]
    (fts_delete old_rowid [Thought.title old; Thought.content old] thoughts_fts).

(** A write to one row of a base table. *)
Inductive Write (Row : Type) :=
| InsertRow (rowid : Z) (new : Row)
| UpdateRow (rowid : Z) (new : Row)
| DeleteRow (rowid : Z).
Arguments InsertRow {Row}.
Arguments UpdateRow {Row}.
Arguments DeleteRow {Row}.

(** The AFTER triggers of one base table. *)
Record Triggers (Row : Type) := mkTriggers {
  after_insert : Z -> Row -> Index -> Index;
  after_delete : Z -> Row -> Index -> Index;
  after_update : Z -> Row -> Z -> Row -> Index -> Index
}.
Arguments after_insert {Row}.
Arguments after_delete {Row}.
Arguments after_update {Row}.

Definition bookmarks_triggers : Triggers Bookmark.t :=
  mkTriggers Bookmark.t bookmarks_ai bookmarks_ad bookmarks_au.

Definition thoughts_triggers : Triggers Thought.t :=
  mkTriggers Thought.t thoughts_ai thoughts_ad thoughts_au.

(** One write and the trigger it fires, as one step: an insert takes a
    rowid not in use, an update or a delete of an absent row changes
    nothing and fires nothing. *)
Definition write_row {Row} (tr : Triggers Row) (op : Write Row)
  (state : gmap Z Row * Index) : gmap Z Row * Index :=
  let '(base, index) := state in
  match op with
  | InsertRow rowid new =>
      match base !! rowid with
      | Some _ => state
      | None => (<[rowid := new]> base, after_insert tr rowid new index)
      end
  | UpdateRow rowid new =>
      match base !! rowid with
      | Some old => (<[rowid := new]> base, after_update tr rowid old rowid new index)
      | None => state
      end
  | DeleteRow rowid =>
      match base !! rowid with
      | Some old => (delete rowid base, after_delete tr rowid old index)
      | None => state
      end
  end.

Definition write_rows {Row} (tr : Triggers Row) (ops : list (Write Row))
  (state : gmap Z Row * Index) : gmap Z Row * Index :=
  foldl (fun st op => write_row tr op st) state ops.

(** What the index of a table must hold for a row. *)
Definition bookmark_text (b : Bookmark.t) : list string :=
  [Bookmark.title b; Bookmark.url b; Bookmark.content b].

Definition thought_text (t : Thought.t) : list string :=
  [Thought.title t; Thought.content t].

(** The index mirrors the base table: same rowids, and for each the text
    columns of the current row. *)
Definition mirrors {Row} (text : Row -> list string) (state : gmap Z Row * Index) : Prop :=
  snd state = text <$> fst state.

(** ** The API: the handler of the embedded assets

    An [http.ResponseWriter]: the header map the handler fills, what has
    been sent once [WriteHeader] has run (the status and the headers as they
    were then), and the body written so far.  The first [WriteHeader] wins;
    a [Write] before any [WriteHeader] sends status 200; no body goes with
    the statuses 1xx, 204 and 304. *)

Module ResponseWriter.
Record t := mk {
  Header : gmap string string;
  Sent : option (Z * gmap string string);
  Body : string
}.
Definition fresh : t := mk ∅ None "".
Definition Header_Set (key value : string) (w : t) : t :=
  mk (<[key := value]> (Header w)) (Sent w) (Body w).
Definition WriteHeader (code : Z) (w : t) : t :=
  match Sent w with
  | Some _ => w
  | None => mk (Header w) (Some (code, Header w)) (Body w)
  end.
Definition bodyAllowedForStatus (status : Z) : bool :=
  if (100 <=? status) && (status <=? 199) then false
  else if status =? 204 then false
  else if status =? 304 then false
  else true.
Definition Write (data : string) (w : t) : t :=
  let w := WriteHeader 200 w in
  match Sent w with
  | Some (status, _) =>
      if bodyAllowedForStatus status then mk (Header w) (Sent w) (Body w +:+ data) else w
  | None => w
  end.
End ResponseWriter.

Section Assets.

(** [Asset] of the generated bindata: the bytes of an embedded file, or
    nothing when no file has the name. *)
Variable Asset : string -> option string.

(** [mime.TypeByExtension] and [filepath.Ext]. *)
Variable TypeByExtension : string -> string.
Variable Ext : string -> string.

(** [bindataAssetHandler], on the path of the request. *)
Definition bindataAssetHandler (w : ResponseWriter.t) (path : string) : ResponseWriter.t :=
  let file := TrimPrefix path "/" in
  let file := if bool_decide (file = ""%string) then "index.html"%string else file in
  match Asset file with
  | None => ResponseWriter.WriteHeader 404 w
  | Some asset =>
      let mimetype := TypeByExtension (Ext file) in
      let w :=
        if bool_decide (mimetype ≠ ""%string)
        then ResponseWriter.Header_Set "Content-Type" mimetype w else w in
      let w := ResponseWriter.WriteHeader 200 w in
      ResponseWriter.Write asset w
  end.

End Assets.

(** ** What the schema keeps true of the [feeds] table

    [id] is the primary key, [url] is UNIQUE, and no row has an empty id
    (ids come from the generator). *)
Definition feeds_ok (rows : list Feed) : Prop :=
  NoDup (Feed.ID <$> rows) /\ NoDup (Feed.URL <$> rows) /\
  forall r, r ∈ rows -> Feed.ID r ≠ ""%string.

(** The row after an UPDATE keyed by the id of the feed. *)
Definition updated_row (feed row : Feed) : Feed :=
  if bool_decide (Feed.ID row = Feed.ID feed) then set_columns feed row else row.

(** The rows of the table with a given URL. *)
Definition rows_with_url (url : string) (rows : list Feed) : list Feed :=
  filter (fun r => Feed.URL r = url) rows.

(** ** Sample values used by the examples *)

Definition sample_world : World :=
  mkWorld (fun n => 1000 + Z.of_nat n) 0
          (fun n => String (Ascii.ascii_of_nat (97 + n)) EmptyString) 0.

Definition sample_item (id : string) (date : Time) : FeedItem :=
  FeedItem.mk id 0 0 "title" "http://a/1" date "text".

Definition sample_feed (id url title : string) (items : list FeedItem) : Feed :=
  Feed.mk id 0 0 0 0 title url "" None items.

Definition sample_entry (title : string) (published updated : option Time) : gofeed.Item.t :=
  gofeed.Item.mk title "description" "" "http://a/entry" updated published.

(** A document with entries dated before the cutoff, after it, exactly at
    it, in the future, and not dated at all. *)
Definition sample_parsed : gofeed.Feed.t :=
  gofeed.Feed.mk "A feed" "" None
    [sample_entry "old" (Some 400) None; sample_entry "new" (Some 600) None;
     sample_entry "edge" None (Some 500); sample_entry "future" (Some 5000) None;
     sample_entry "undated" None None].

Definition sample_cutoff_feed : Feed :=
  Feed.mk "f" 100 100 500 0 "" "http://a/feed.xml" "abc" None [].

Definition sample_response (status : Z) : http.Response :=
  http.mkResponse status {[ "Etag"%string := "def"%string ]} "<rss/>".

Definition sample_Do (status : Z) (request : http.Request)
  : option http.Response * option error :=
  (Some (sample_response status), None).

Definition sample_Do_unreachable (request : http.Request)
  : option http.Response * option error :=
  (None, Some (ErrExternal "dial tcp: lookup a: no such host")).

Definition sample_Parse (body : string) : error + gofeed.Feed.t := inr sample_parsed.

Definition sample_Fetch (client_Do : http.Request -> option http.Response * option error)
  (feed : Feed) : Outcome * Feed * World :=
  Fetch "bookmarks" (fun _ => None) client_Do sample_Parse (fun text => text)
    (fun _ => "Mon, 01 Jan 0001 00:00:00 UTC"%string) feed sample_world.

Definition sample_request : http.Request :=
  http.mkRequest "GET" "http://a/feed.xml"
    (<["If-None-Match"%string := "abc"%string]>
       (<["User-Agent"%string := "bookmarks"%string]> ∅)).

Definition sample_like (value pattern : string) : bool := false.

Definition sample_page (limit offset : Z) (rows : list Feed) : list Feed := rows.

(** A database whose times were all written with one zone offset: the
    stored texts compare, and sort, as the instants do. *)
Definition sample_refreshed_before (row : Feed) (bound : Time) : bool :=
  Feed.Refreshed row <? bound.

Definition sample_order (rows : list Feed) : list Feed :=
  SliceStable (fun a b => After (Feed.LastAuthored a) (Feed.LastAuthored b)) rows.

Definition sample_row (id url : string) (tags : list string) : Feed :=
  Feed.mk id 100 100 100 100 "A title" url "" (Some tags) [].

Definition sample_store : Store :=
  mkStore
    [sample_row "r1" "http://a/feed.xml" ["tech"];
     sample_row "r2" "http://b/feed.xml" ["tech"; "muted"];
     sample_row "r3" "http://c/feed.xml" []]%string
    [].

Definition empty_store : Store := mkStore [] [].

Definition sample_bookmark (title url : string) : Bookmark.t :=
  Bookmark.mk "b" 0 0 title url "" "body" [] false.

Definition sample_thought (title content : string) : Thought.t :=
  Thought.mk "t" 0 0 title [] content.

Definition sample_bookmark_writes : list (Write Bookmark.t) :=
  [InsertRow 1 (sample_bookmark "one" "http://a/1");
   InsertRow 2 (sample_bookmark "two" "http://a/2");
   UpdateRow 1 (sample_bookmark "uno" "http://a/1");
   DeleteRow 2;
   DeleteRow 7;
   UpdateRow 9 (sample_bookmark "nine" "http://a/9");
   InsertRow 3 (sample_bookmark "three" "http://a/3")].

Definition sample_thought_writes : list (Write Thought.t) :=
  [InsertRow 1 (sample_thought "idea" "first");
   UpdateRow 1 (sample_thought "idea" "second");
   InsertRow 2 (sample_thought "plan" "third");
   DeleteRow 1].

(** A document whose date of update could not be parsed. *)
Definition sample_parsed_undated : gofeed.Feed.t :=
  gofeed.Feed.mk "A feed" "yesterday" None
    [sample_entry "old" (Some 400) None; sample_entry "new" (Some 600) None].

Definition sample_Fetch_undated (feed : Feed) : Outcome * Feed * World :=
  Fetch "bookmarks" (fun _ => None) (sample_Do 200) (fun _ => inr sample_parsed_undated)
    (fun text => text) (fun _ => "Mon, 01 Jan 0001 00:00:00 UTC"%string) feed sample_world.

Definition sample_Asset (name : string) : option string :=
  if bool_decide (name = "index.html"%string) then Some "<html></html>"%string
  else if bool_decide (name = "js/app.js"%string) then Some "app()"%string
  else if bool_decide (name = "LICENSE"%string) then Some "MIT"%string
  else None.

Definition sample_Ext (name : string) : string :=
  if bool_decide (name = "index.html"%string) then ".html"%string
  else if bool_decide (name = "js/app.js"%string) then ".js"%string
  else ""%string.

Definition sample_TypeByExtension (ext : string) : string :=
  if bool_decide (ext = ".html"%string) then "text/html; charset=utf-8"%string
  else if bool_decide (ext = ".js"%string) then "application/javascript"%string
  else ""%string.

(** A LIKE for patterns of the shape [%text%]: the value contains the
    text. *)
Fixpoint contains (needle s : string) : bool :=
  String.prefix needle s
  || match s with
     | EmptyString => false
     | String _ rest => contains needle rest
     end.

Definition sample_contains (value pattern : string) : bool :=
  contains (String.substring 1 (String.length pattern - 2) pattern) value.

Definition sample_window (limit offset : Z) (rows : list Feed) : list Feed :=
  take (Z.to_nat limit) (drop (Z.to_nat offset) rows).

Definition sample_news_row (id title url : string) (refreshed authored : Time) : Feed :=
  Feed.mk id 10 10 refreshed authored title url "" (Some []) [].

Definition sample_news_store : Store :=
  mkStore
    [sample_news_row "n1" "go news" "http://a/feed.xml" 100 300;
     sample_news_row "n2" "rust news" "http://b/feed.xml" 200 500;
     sample_news_row "n3" "cooking" "http://c/feed.xml" 50 400;
     sample_news_row "n4" "old" "http://d/news.xml" 900 600]
    [].

(** * Properties *)

(** ** [DeleteItem] *)

Lemma DeleteItem_range_found (feed : Feed) (ID : string) (pre rest : list FeedItem) :
  Feed.Items feed = pre ++ rest ->
  Forall (fun y => FeedItem.ID y ≠ ID) pre ->
  (exists l1 x l2,
      Feed.Items feed = l1 ++ x :: l2 /\ FeedItem.ID x = ID /\
      Forall (fun y => FeedItem.ID y ≠ ID) l1 /\
      DeleteItem_range feed ID (length pre) rest = (None, Feed.with_Items (l1 ++ l2) feed))
  \/ (Forall (fun y => FeedItem.ID y ≠ ID) (Feed.Items feed) /\
      DeleteItem_range feed ID (length pre) rest = (Some ErrNotExistingFeedItem, feed)).
Proof.
  revert pre. induction rest as [|item rest IH]; intros pre Hsplit Hpre.
  - right. rewrite app_nil_r in Hsplit. rewrite Hsplit. split; [assumption|reflexivity].
  - cbn [DeleteItem_range]. case_bool_decide as Hid.
    + specialize (IH (pre ++ [item])).
      rewrite length_app in IH. cbn [length] in IH.
      replace (length pre + 1)%nat with (S (length pre)) in IH by lia.
      apply IH.
      * rewrite <- app_assoc. exact Hsplit.
      * apply Forall_app. split; [assumption|]. constructor; [congruence|constructor].
    + left. exists pre, item, rest. repeat split; try assumption.
      * congruence.
      * rewrite Hsplit, take_app_length.
        rewrite (cons_middle item pre rest), app_assoc.
        rewrite drop_app_length' by (rewrite length_app; cbn; lia).
        reflexivity.
Qed.

(** C10: [DeleteItem] removes the first item whose ID is the argument and
    keeps the others in their order, returning nil; with no such item it
    returns [ErrNotExistingFeedItem] and the feed is unchanged. *)
Theorem DeleteItem_first_match (feed : Feed) (ID : string) :
  (exists l1 x l2,
      Feed.Items feed = l1 ++ x :: l2 /\ FeedItem.ID x = ID /\
      Forall (fun y => FeedItem.ID y ≠ ID) l1 /\
      DeleteItem feed ID = (None, Feed.with_Items (l1 ++ l2) feed))
  \/ (Forall (fun y => FeedItem.ID y ≠ ID) (Feed.Items feed) /\
      DeleteItem feed ID = (Some ErrNotExistingFeedItem, feed)).
Proof.
  unfold DeleteItem.
  apply (DeleteItem_range_found feed ID [] (Feed.Items feed)); [reflexivity|constructor].
Qed.

Example DeleteItem_second_of_three :
  DeleteItem
    (sample_feed "f" "http://a" "A"
       [sample_item "x" 1; sample_item "y" 2; sample_item "x" 3; sample_item "y" 4]) "y"
  = (None,
     sample_feed "f" "http://a" "A" [sample_item "x" 1; sample_item "x" 3; sample_item "y" 4]).
Proof. reflexivity. Qed.

Example DeleteItem_absent :
  DeleteItem (sample_feed "f" "http://a" "A" [sample_item "x" 1]) "z"
  = (Some ErrNotExistingFeedItem, sample_feed "f" "http://a" "A" [sample_item "x" 1]).
Proof. reflexivity. Qed.

(** ** [sort.SliceStable] rearranges, nothing more *)

Lemma SliceStable_insert_Permutation {A} (less : A -> A -> bool) (x : A) (l : list A) :
  Permutation (SliceStable_insert less x l) (x :: l).
Proof.
  induction l as [|y l IH]; cbn; [reflexivity|].
  destruct (less y x); [|reflexivity].
  rewrite IH. apply perm_swap.
Qed.

Lemma SliceStable_Permutation {A} (less : A -> A -> bool) (l : list A) :
  Permutation (SliceStable less l) l.
Proof.
  induction l as [|x l IH]; cbn; [reflexivity|].
  rewrite SliceStable_insert_Permutation. now rewrite IH.
Qed.

(** ** [Fetch] *)

Lemma with_Items_same (feed : Feed) : Feed.with_Items (Feed.Items feed) feed = feed.
Proof. now destruct feed. Qed.

Lemma accepts_iff (refreshed now date : Time) :
  accepts refreshed now date = true <-> ~ date < refreshed /\ ~ now < date.
Proof. unfold accepts. rewrite andb_true_iff, !negb_true_iff, !Z.ltb_ge. lia. Qed.

Section FetchFacts.

Variable defaultUserAgent : string.
Variable url_error : string -> option error.
Variable client_Do : http.Request -> option http.Response * option error.
Variable gofeed_Parse : string -> error + gofeed.Feed.t.
Variable Sanitize : string -> string.
Variable Format_RFC1123 : Time -> string.

Local Abbreviation Fetch' :=
  (Fetch defaultUserAgent url_error client_Do gofeed_Parse Sanitize Format_RFC1123).
Local Abbreviation Fetch_request' := (Fetch_request defaultUserAgent url_error Format_RFC1123).

Lemma Fetch_entry_accepts (feed : Feed) (item : gofeed.Item.t) (w : World) :
  Fetch_entry Sanitize feed item w =
  (Feed.with_Items
     (Feed.Items feed ++
      (if accepts (Feed.Refreshed feed)
            (wall (snd (new_feedItem Sanitize item w)) (reads (snd (new_feedItem Sanitize item w))))
            (FeedItem.Date (fst (new_feedItem Sanitize item w)))
       then [fst (new_feedItem Sanitize item w)] else [])) feed,
   after_entry Sanitize (Feed.Refreshed feed) item w).
Proof.
  unfold Fetch_entry, after_entry, accepts, Before, After.
  destruct (new_feedItem Sanitize item w) as [feedItem w1]. cbn [fst snd].
  destruct (FeedItem.Date feedItem <? Feed.Refreshed feed); cbn [negb andb].
  - now rewrite app_nil_r, with_Items_same.
  - cbn [time_Now snd].
    destruct (wall w1 (reads w1) <? FeedItem.Date feedItem); cbn [negb].
    + now rewrite app_nil_r, with_Items_same.
    + reflexivity.
Qed.

Lemma Fetch_range_accepted (entries : list gofeed.Item.t) (feed : Feed) (w : World) :
  fst (Fetch_range Sanitize feed entries w) =
  Feed.with_Items (Feed.Items feed ++ accepted Sanitize (Feed.Refreshed feed) entries w) feed.
Proof.
  revert feed w. induction entries as [|item rest IH]; intros feed w.
  - cbn. now rewrite app_nil_r, with_Items_same.
  - cbn [Fetch_range accepted]. rewrite Fetch_entry_accepts.
    rewrite IH. destruct (new_feedItem Sanitize item w) as [feedItem w1]. cbn [fst snd].
    destruct feed; cbn. now rewrite <- app_assoc.
Qed.

Lemma Fetch_finish_Items (feed feed' : Feed) (response : http.Response)
  (parsedFeed : gofeed.Feed.t) (w w' : World) :
  Fetch_finish feed response parsedFeed w = (Returned None, feed', w') ->
  Permutation (Feed.Items feed') (Feed.Items feed).
Proof.
  unfold Fetch_finish.
  destruct (bool_decide (gofeed.Feed.Updated parsedFeed ≠ ""%string));
    [destruct (gofeed.Feed.UpdatedParsed parsedFeed); [|discriminate]|];
    cbn [time_Now]; intros [= <- _]; cbn [Feed.with_Items Feed.Items];
    rewrite SliceStable_Permutation;
    match goal with |- context [bool_decide ?P] => destruct (bool_decide P) end;
    reflexivity.
Qed.

(** A transport error leaves no response to read the status code from:
    the warning that precedes [return err] dereferences nil. *)
Lemma Fetch_transport_error (feed : Feed) (w : World) (request : http.Request) (err : error) :
  Feed.URL feed ≠ ""%string ->
  Fetch_request' feed = inr request ->
  client_Do request = (None, Some err) ->
  Fetch' feed w = (Panicked, feed, w).
Proof.
  intros Hurl Hreq Hdo. unfold Fetch.
  rewrite bool_decide_eq_false_2 by assumption.
  now rewrite Hreq, Hdo.
Qed.

(** C6: when the server answers 304 Not Modified, [Fetch] returns nil and
    the feed is the one it was given, every field included; the clock
    and the generator have not been consulted either. *)
Theorem Fetch_not_modified (feed : Feed) (w : World)
  (request : http.Request) (response : http.Response) :
  Feed.URL feed ≠ ""%string ->
  Fetch_request' feed = inr request ->
  client_Do request = (Some response, None) ->
  http.StatusCode response = 304 ->
  Fetch' feed w = (Returned None, feed, w).
Proof.
  intros Hurl Hreq Hdo Hstatus. unfold Fetch.
  rewrite bool_decide_eq_false_2 by assumption.
  rewrite Hreq, Hdo, Hstatus. reflexivity.
Qed.

(** C5: after a [Fetch] that returns nil on a response other than 304, the
    items of the feed are the former ones and, of the parsed entries,
    exactly those whose date is not strictly before [feed.Refreshed] and not
    strictly after the clock's reading at their test; in particular an
    entry dated exactly at [feed.Refreshed] passes the test against the
    cutoff. *)
Theorem Fetch_accepts_by_date (feed feed' : Feed) (w w' : World)
  (request : http.Request) (response : http.Response) (parsedFeed : gofeed.Feed.t) :
  Feed.URL feed ≠ ""%string ->
  Fetch_request' feed = inr request ->
  client_Do request = (Some response, None) ->
  http.StatusCode response ≠ 304 ->
  gofeed_Parse (http.Body response) = inr parsedFeed ->
  Fetch' feed w = (Returned None, feed', w') ->
  Permutation (Feed.Items feed')
    (Feed.Items feed ++
     accepted Sanitize (Feed.Refreshed feed) (gofeed.Feed.Items parsedFeed) w)
  /\ (forall now date,
        accepts (Feed.Refreshed feed) now date = true <->
        ~ date < Feed.Refreshed feed /\ ~ now < date)
  /\ (forall now,
        ~ now < Feed.Refreshed feed ->
        accepts (Feed.Refreshed feed) now (Feed.Refreshed feed) = true).
Proof.
  intros Hurl Hreq Hdo Hstatus Hparse. unfold Fetch.
  rewrite bool_decide_eq_false_2 by assumption.
  rewrite Hreq, Hdo.
  destruct (304 =? http.StatusCode response) eqn:E; [apply Z.eqb_eq in E; congruence|].
  rewrite Hparse.
  pose proof (Fetch_range_accepted (gofeed.Feed.Items parsedFeed) feed w) as Hrange.
  destruct (Fetch_range Sanitize feed (gofeed.Feed.Items parsedFeed) w) as [feed1 w1].
  cbn [fst] in Hrange. intros Hfinish.
  apply Fetch_finish_Items in Hfinish. split; [|split].
  - rewrite Hfinish, Hrange. reflexivity.
  - intros now date. apply accepts_iff.
  - intros now Hnow. apply accepts_iff. lia.
Qed.

End FetchFacts.

Lemma Fetch_not_modified_witness :
  sample_Fetch (sample_Do 304) sample_cutoff_feed
  = (Returned None, sample_cutoff_feed, sample_world).
Proof.
  apply (Fetch_not_modified "bookmarks" (fun _ => None) (sample_Do 304) sample_Parse
           (fun text => text) (fun _ => "Mon, 01 Jan 0001 00:00:00 UTC"%string)
           sample_cutoff_feed sample_world sample_request (sample_response 304)).
  - discriminate.
  - reflexivity.
  - reflexivity.
  - reflexivity.
Defined.

(** C3: with a client whose [Do] reports a transport error, [Fetch] on a
    feed with a URL does not return that error: it panics on the nil
    response.  The feed is as it was. *)
Theorem Fetch_transport_error_panics :
  sample_Fetch sample_Do_unreachable sample_cutoff_feed
  = (Panicked, sample_cutoff_feed, sample_world).
Proof.
  apply (Fetch_transport_error "bookmarks" (fun _ => None) sample_Do_unreachable sample_Parse
           (fun text => text) (fun _ => "Mon, 01 Jan 0001 00:00:00 UTC"%string)
           sample_cutoff_feed sample_world sample_request
           (ErrExternal "dial tcp: lookup a: no such host")).
  - discriminate.
  - reflexivity.
  - reflexivity.
Qed.

Example Fetch_sample_items :
  FeedItem.Title <$> Feed.Items (snd (fst (sample_Fetch (sample_Do 200) sample_cutoff_feed)))
  = ["undated"; "new"; "edge"]%string.
Proof. vm_compute. reflexivity. Qed.

Lemma Fetch_accepts_by_date_witness :
  Permutation
    (Feed.Items (snd (fst (sample_Fetch (sample_Do 200) sample_cutoff_feed))))
    (Feed.Items sample_cutoff_feed ++
     accepted (fun text => text) (Feed.Refreshed sample_cutoff_feed)
       (gofeed.Feed.Items sample_parsed) sample_world)
  /\ (forall now date,
        accepts (Feed.Refreshed sample_cutoff_feed) now date = true <->
        ~ date < Feed.Refreshed sample_cutoff_feed /\ ~ now < date)
  /\ (forall now,
        ~ now < Feed.Refreshed sample_cutoff_feed ->
        accepts (Feed.Refreshed sample_cutoff_feed) now (Feed.Refreshed sample_cutoff_feed)
        = true).
Proof.
  apply (Fetch_accepts_by_date "bookmarks" (fun _ => None) (sample_Do 200) sample_Parse
           (fun text => text) (fun _ => "Mon, 01 Jan 0001 00:00:00 UTC"%string)
           sample_cutoff_feed _ sample_world
           (snd (sample_Fetch (sample_Do 200) sample_cutoff_feed))
           sample_request (sample_response 200) sample_parsed).
  - discriminate.
  - reflexivity.
  - reflexivity.
  - discriminate.
  - reflexivity.
  - vm_compute. reflexivity.
Defined.

(** ** [FeedDelete] *)

(** With only the URL to go by and no title, no condition is added. *)
Lemma FeedDelete_where_untitled (feed : Feed) :
  Feed.ID feed = ""%string -> Feed.Title feed = ""%string -> FeedDelete_where feed = [].
Proof. intros Hid Htitle. unfold FeedDelete_where. now rewrite Hid, Htitle. Qed.

Lemma FeedDelete_untitled (sql_like : string -> string -> bool)
  (sql_refreshed_before : Feed -> Time -> bool) (store : Store) (feed : Feed) :
  Feed.ID feed = ""%string -> Feed.URL feed ≠ ""%string -> Feed.Title feed = ""%string ->
  FeedDelete sql_like sql_refreshed_before store feed = (None, mkStore [] (journal store ++ [DeleteStmt []])).
Proof.
  intros Hid Hurl Htitle. unfold FeedDelete.
  rewrite (bool_decide_eq_false_2 (Feed.URL feed = ""%string)) by assumption.
  rewrite andb_false_r, FeedDelete_where_untitled by assumption.
  unfold exec_delete, with_feeds, issue. cbn.
  f_equal. f_equal. induction (feeds store) as [|r rows IH]; [reflexivity|].
  rewrite filter_cons. cbn. exact IH.
Qed.

(** C1: [FeedDelete] of a feed that carries a URL but neither ID nor title
    issues a DELETE without conditions: the row with another URL goes as
    well. *)
Theorem FeedDelete_by_url_deletes_all :
  FeedDelete sample_like sample_refreshed_before sample_store (sample_feed "" "http://a/feed.xml" "" [])
  = (None, mkStore [] [DeleteStmt []]).
Proof.
  apply (FeedDelete_untitled sample_like sample_refreshed_before sample_store
           (sample_feed "" "http://a/feed.xml" "" [])).
  - reflexivity.
  - discriminate.
  - reflexivity.
Qed.

Example FeedDelete_by_url_with_title :
  FeedDelete sample_like sample_refreshed_before sample_store (sample_feed "" "http://a/feed.xml" "A" [])
  = (None,
     mkStore [sample_row "r2" "http://b/feed.xml" ["tech"; "muted"];
              sample_row "r3" "http://c/feed.xml" []]%string
             [DeleteStmt [UrlIs "http://a/feed.xml"]]).
Proof. vm_compute. reflexivity. Qed.

Example FeedDelete_no_key :
  FeedDelete sample_like sample_refreshed_before sample_store (sample_feed "" "" "A" [])
  = (Some ErrNoFeedKey, sample_store).
Proof. reflexivity. Qed.

(** ** [FeedList] *)

Lemma FeedList_tag_unresolved (tag : string) :
  tag ≠ ""%string -> forallb (Cond_resolves "feeds") (FeedList_tag tag) = false.
Proof.
  intros Htag. unfold FeedList_tag.
  rewrite bool_decide_eq_false_2 by assumption.
  now destruct (HasPrefix tag "-").
Qed.

Lemma FeedList_where_unresolved (options : FeedListOptions) (tag : string) :
  tag ∈ tag_list (FeedListOptions.Tags options) -> tag ≠ ""%string ->
  forallb (Cond_resolves "feeds") (FeedList_where options) = false.
Proof.
  intros Hin Htag. unfold FeedList_where.
  rewrite !forallb_app.
  assert (forallb (Cond_resolves "feeds")
            (concat (map FeedList_tag (tag_list (FeedListOptions.Tags options)))) = false) as ->.
  { induction (tag_list (FeedListOptions.Tags options)) as [|t tags IH]; [inversion Hin|].
    cbn [map concat]. rewrite forallb_app.
    apply elem_of_cons in Hin as [<-|Hin].
    - now rewrite FeedList_tag_unresolved.
    - rewrite IH by assumption. apply andb_false_r. }
  now rewrite !andb_false_r.
Qed.

(** The conditions are built as the filter asks: the empty entry is
    skipped, ["-muted"] excludes and ["tech"] includes; only the table they
    read is not the one queried. *)
Example FeedList_where_muted_tech :
  FeedList_where (FeedListOptions.mk "" (Some ["-muted"; ""; "tech"]%string) 0 10 0)
  = [TagsLack "thoughts" "muted"; TagsContain "thoughts" "tech"].
Proof. reflexivity. Qed.

(** Any tag in the filter makes both statements of [FeedList] fail to
    prepare, and [FeedList] answers with no feed and a count of zero. *)
Lemma FeedList_tag_filter_fails (sql_like : string -> string -> bool)
  (sql_refreshed_before : Feed -> Time -> bool)
  (sql_page : Z -> Z -> list Feed -> list Feed) (sql_order : list Feed -> list Feed)
  (store : Store) (options : FeedListOptions) (tag : string) :
  tag ∈ tag_list (FeedListOptions.Tags options) -> tag ≠ ""%string ->
  fst (FeedList sql_like sql_refreshed_before sql_page sql_order store options) = ([], 0).
Proof.
  intros Hin Htag. unfold FeedList, exec_select.
  now rewrite (FeedList_where_unresolved options tag Hin Htag).
Qed.

(** C4: on a table with a row tagged "tech" and not "muted", [FeedList]
    with the tags ["-muted"; "tech"] returns no row: the conditions read
    [thoughts.tags], which a statement over [feeds] cannot resolve. *)
Theorem FeedList_muted_tech_returns_nothing :
  fst (FeedList sample_like sample_refreshed_before sample_page sample_order sample_store
         (FeedListOptions.mk "" (Some ["-muted"; "tech"]%string) 0 10 0))
  = ([], 0)
  /\ filter (fun r => "tech"%string ∈ tag_list (Feed.Tags r)
                      /\ "muted"%string ∉ tag_list (Feed.Tags r)) (feeds sample_store)
     = [sample_row "r1" "http://a/feed.xml" ["tech"]%string].
Proof.
  split.
  - apply (FeedList_tag_filter_fails sample_like sample_refreshed_before sample_page sample_order sample_store _ "tech").
    + cbn. set_solver.
    + discriminate.
  - vm_compute. reflexivity.
Qed.

(** ** [FeedPersist] *)

(** The defaults touch neither the ID nor the URL and only read the clock. *)
Lemma FeedPersist_defaults_frame (feed : Feed) (w : World) :
  Feed.ID (fst (FeedPersist_defaults feed w)) = Feed.ID feed
  /\ Feed.URL (fst (FeedPersist_defaults feed w)) = Feed.URL feed
  /\ Feed.Created (fst (FeedPersist_defaults feed w))
     = (if IsZero (Feed.Created feed) then wall w (reads w) else Feed.Created feed)
  /\ uuids (snd (FeedPersist_defaults feed w)) = uuids w
  /\ drawn (snd (FeedPersist_defaults feed w)) = drawn w.
Proof.
  unfold FeedPersist_defaults.
  destruct feed as [id created updated refreshed authored title url etag tags items].
  cbn -[IsZero].
  destruct (bool_decide (title = ""%string)); cbn -[IsZero];
    destruct (IsZero created); cbn -[IsZero];
    destruct (IsZero refreshed); cbn -[IsZero];
    destruct tags; cbn; repeat split; reflexivity.
Qed.

Lemma existsb_none {A} (P : A -> Prop) `{!forall x, Decision (P x)} (l : list A) :
  (forall x, x ∈ l -> ~ P x) -> existsb (fun x => bool_decide (P x)) l = false.
Proof.
  induction l as [|x l IH]; intros Hnone; [reflexivity|]. cbn.
  rewrite bool_decide_eq_false_2 by (apply Hnone, list_elem_of_here).
  apply IH. intros y Hy. apply Hnone. now apply list_elem_of_further.
Qed.

Section PersistFacts.

Variable sql_like : string -> string -> bool.
Variable sql_refreshed_before : Feed -> Time -> bool.

Local Abbreviation FeedPersist' := (FeedPersist sql_like sql_refreshed_before).

Lemma select_by_url (url : string) (rows : list Feed) :
  exec_select sql_like sql_refreshed_before [UrlIs url] rows = inr (filter (fun r => Feed.URL r = url) rows).
Proof.
  unfold exec_select. cbn [forallb Cond_resolves andb]. f_equal.
  apply list_filter_iff. intros r. unfold Where. cbn [forallb Cond_holds].
  rewrite andb_true_r. apply bool_decide_spec.
Qed.

Lemma FeedPersist_lookup_none (rows : list Feed) (feed : Feed) :
  (forall r, r ∈ rows -> Feed.URL r ≠ Feed.URL feed) ->
  FeedPersist_lookup sql_like sql_refreshed_before rows feed = feed.
Proof.
  intros Hmiss. unfold FeedPersist_lookup. rewrite select_by_url.
  destruct (filter (fun r => Feed.URL r = Feed.URL feed) rows) as [|r rest] eqn:E;
    [reflexivity|].
  assert (r ∈ filter (fun r => Feed.URL r = Feed.URL feed) rows) as Hin
      by (rewrite E; apply list_elem_of_here).
  apply list_elem_of_filter in Hin as [Hurl Hin]. now apply Hmiss in Hin.
Qed.

(** C9: with an empty URL, [FeedPersist] returns [ErrNoFeedURL] at once:
    the feed, the table, the journal of statements, the clock and the
    generator are as before the call. *)
Theorem FeedPersist_missing_URL (store : Store) (feed : Feed) (w : World) :
  Feed.URL feed = ""%string ->
  FeedPersist' store feed w = (Some ErrNoFeedURL, feed, store, w).
Proof. intros Hurl. unfold FeedPersist. now rewrite Hurl. Qed.


(** *** A call that finds no row with the feed's URL *)

Lemma exec_insert_fresh (record : Feed) (rows : list Feed) :
  (forall r, r ∈ rows -> Feed.ID r ≠ Feed.ID record) ->
  (forall r, r ∈ rows -> Feed.URL r ≠ Feed.URL record) ->
  exec_insert record rows = inr (rows ++ [record]).
Proof.
  intros Hid Hurl. unfold exec_insert.
  rewrite (existsb_none (fun r => Feed.ID r = Feed.ID record)) by exact Hid.
  now rewrite (existsb_none (fun r => Feed.URL r = Feed.URL record)) by exact Hurl.
Qed.

Lemma exec_insert_rows (record : Feed) (rows rows' : list Feed) :
  exec_insert record rows = inr rows' -> rows' = rows ++ [record].
Proof.
  unfold exec_insert.
  destruct (existsb _ _); [discriminate|]. destruct (existsb _ _); [discriminate|].
  congruence.
Qed.

(** Without ID: the generator is asked and an INSERT is issued. *)
Lemma FeedPersist_miss_insert (store : Store) (feed : Feed) (w : World) :
  Feed.URL feed ≠ ""%string ->
  (forall r, r ∈ feeds store -> Feed.URL r ≠ Feed.URL feed) ->
  Feed.ID feed = ""%string ->
  let feed1 := fst (FeedPersist_defaults feed w) in
  let w1 := snd (FeedPersist_defaults feed w) in
  let record := Feed.with_ID (uuids w (drawn w)) feed1 in
  let issued :=
    journal store ++ [SelectStmt ["id"; "created"]%string [UrlIs (Feed.URL feed)];
                      InsertStmt feeds_columns record] in
  FeedPersist' store feed w
  = match exec_insert record (feeds store) with
    | inl err => (Some err, record, mkStore (feeds store) issued, snd (generateUUID w1))
    | inr rows => (None, record, mkStore rows issued, snd (generateUUID w1))
    end.
Proof.
  intros Hurl Hmiss Hcase feed1 w1 record issued.
  destruct (FeedPersist_defaults_frame feed w) as (Hid & Hurl1 & _ & Huuids & Hdrawn).
  fold feed1 in Hid, Hurl1. fold w1 in Huuids, Hdrawn.
  unfold FeedPersist. rewrite bool_decide_eq_false_2 by assumption.
  rewrite (surjective_pairing (FeedPersist_defaults feed w)). fold feed1 w1.
  cbn [issue feeds journal]. rewrite Hurl1.
  rewrite FeedPersist_lookup_none by (intros r Hr; rewrite Hurl1; now apply Hmiss).
  rewrite bool_decide_eq_true_2 by congruence.
  cbn [generateUUID fst snd]. rewrite Huuids, Hdrawn. fold record.
  destruct (exec_insert record (feeds store));
    unfold with_feeds, issue, issued; cbn [feeds journal];
    rewrite <- app_assoc; reflexivity.
Qed.

(** With an ID: it is kept and an UPDATE keyed by it is issued. *)
Lemma FeedPersist_miss_update (store : Store) (feed : Feed) (w : World) :
  Feed.URL feed ≠ ""%string ->
  (forall r, r ∈ feeds store -> Feed.URL r ≠ Feed.URL feed) ->
  Feed.ID feed ≠ ""%string ->
  let feed1 := fst (FeedPersist_defaults feed w) in
  let w1 := snd (FeedPersist_defaults feed w) in
  let issued :=
    journal store ++ [SelectStmt ["id"; "created"]%string [UrlIs (Feed.URL feed)];
                      UpdateStmt update_columns feed1 [IdIs (Feed.ID feed)]] in
  FeedPersist' store feed w
  = match exec_update sql_like sql_refreshed_before feed1 [IdIs (Feed.ID feed)] (feeds store) with
    | inl err => (Some err, feed1, mkStore (feeds store) issued, w1)
    | inr rows => (None, feed1, mkStore rows issued, w1)
    end.
Proof.
  intros Hurl Hmiss Hcase feed1 w1 issued.
  destruct (FeedPersist_defaults_frame feed w) as (Hid & Hurl1 & _).
  fold feed1 in Hid, Hurl1.
  unfold FeedPersist. rewrite bool_decide_eq_false_2 by assumption.
  rewrite (surjective_pairing (FeedPersist_defaults feed w)). fold feed1 w1.
  cbn [issue feeds journal]. rewrite Hurl1.
  rewrite FeedPersist_lookup_none by (intros r Hr; rewrite Hurl1; now apply Hmiss).
  rewrite bool_decide_eq_false_2 by congruence. rewrite Hid.
  destruct (exec_update sql_like sql_refreshed_before feed1 [IdIs (Feed.ID feed)] (feeds store));
    unfold with_feeds, issue, issued; cbn [feeds journal];
    rewrite <- app_assoc; reflexivity.
Qed.

(** C7, as the code has it: when the lookup by URL finds no row, a call
    without ID draws an ID from the generator and issues an insert of all
    ten columns, which appends the row when that ID is not in use; a call
    that brings an ID keeps it and issues an update keyed by it. *)
Theorem FeedPersist_lookup_miss (store : Store) (feed : Feed) (w : World) :
  Feed.URL feed ≠ ""%string ->
  (forall r, r ∈ feeds store -> Feed.URL r ≠ Feed.URL feed) ->
  let feed1 := fst (FeedPersist_defaults feed w) in
  let w1 := snd (FeedPersist_defaults feed w) in
  let lookup := SelectStmt ["id"; "created"]%string [UrlIs (Feed.URL feed)] in
  (Feed.ID feed = ""%string ->
   let record := Feed.with_ID (uuids w (drawn w)) feed1 in
   exists err rows,
     FeedPersist' store feed w
     = (err, record,
        mkStore rows (journal store ++ [lookup; InsertStmt feeds_columns record]),
        snd (generateUUID w1))
     /\ ((forall r, r ∈ feeds store -> Feed.ID r ≠ Feed.ID record) ->
         err = None /\ rows = feeds store ++ [record]))
  /\ (Feed.ID feed ≠ ""%string ->
      exists err rows,
        FeedPersist' store feed w
        = (err, feed1,
           mkStore rows
             (journal store ++ [lookup; UpdateStmt update_columns feed1 [IdIs (Feed.ID feed)]]),
           w1)).
Proof.
  intros Hurl Hmiss feed1 w1 lookup. split; intros Hcase.
  - intros record.
    rewrite (FeedPersist_miss_insert store feed w Hurl Hmiss Hcase).
    fold feed1 w1 record lookup.
    destruct (exec_insert record (feeds store)) as [err|rows] eqn:E.
    + exists (Some err), (feeds store). split; [reflexivity|].
      intros Hfresh. rewrite exec_insert_fresh in E; [discriminate|exact Hfresh|].
      intros r Hr. unfold record, feed1.
      destruct (FeedPersist_defaults_frame feed w) as (_ & Hurl1 & _).
      destruct (FeedPersist_defaults feed w).1; cbn in *. subst. now apply Hmiss.
    + exists None, rows. split; [reflexivity|].
      intros _. split; [reflexivity|]. now apply exec_insert_rows.
  - rewrite (FeedPersist_miss_update store feed w Hurl Hmiss Hcase).
    fold feed1 w1 lookup.
    destruct (exec_update sql_like sql_refreshed_before feed1 [IdIs (Feed.ID feed)] (feeds store)) as [err|rows].
    + now exists (Some err), (feeds store).
    + now exists None, rows.
Qed.

(** *** Rows are told apart by a column without duplicates *)

Lemma NoDup_fmap_filter {A B} `{EqDecision B} (f : A -> B) (l : list A) (x : A) :
  NoDup (f <$> l) -> x ∈ l -> filter (fun y => f y = f x) l = [x].
Proof.
  induction l as [|a l IH]; intros Hnd Hin; [inversion Hin|].
  rewrite fmap_cons in Hnd. apply NoDup_cons in Hnd as [Hfresh Hnd].
  destruct (decide (f a = f x)) as [Heq|Hne].
  - rewrite filter_cons_True by exact Heq.
    assert (filter (fun y => f y = f x) l = []) as ->.
    { destruct (filter (fun y => f y = f x) l) as [|y rest] eqn:E; [reflexivity|].
      assert (y ∈ filter (fun y => f y = f x) l) as Hy by (rewrite E; apply list_elem_of_here).
      apply list_elem_of_filter in Hy as [Hfy Hy].
      exfalso. apply Hfresh. rewrite Heq, <- Hfy. now apply list_elem_of_fmap_2. }
    apply elem_of_cons in Hin as [->|Hin]; [reflexivity|].
    exfalso. apply Hfresh. rewrite Heq. now apply list_elem_of_fmap_2.
  - rewrite filter_cons_False by exact Hne.
    apply elem_of_cons in Hin as [->|Hin]; [congruence|]. now apply IH.
Qed.

Lemma NoDup_fmap_same {A B} `{EqDecision B} (f : A -> B) (l : list A) (x y : A) :
  NoDup (f <$> l) -> x ∈ l -> y ∈ l -> f y = f x -> y = x.
Proof.
  intros Hnd Hx Hy Hf.
  assert (y ∈ filter (fun z => f z = f x) l) as Hin by now apply list_elem_of_filter.
  rewrite (NoDup_fmap_filter f l x Hnd Hx) in Hin.
  now apply list_elem_of_singleton in Hin.
Qed.

Lemma fmap_map_same {A B} (g : A -> B) (upd : A -> A) (l : list A) :
  (forall x, x ∈ l -> g (upd x) = g x) -> g <$> map upd l = g <$> l.
Proof.
  induction l as [|a l IH]; intros Hsame; [reflexivity|].
  cbn [map]. rewrite !fmap_cons. f_equal.
  - apply Hsame, list_elem_of_here.
  - apply IH. intros x Hx. apply Hsame. now apply list_elem_of_further.
Qed.

Lemma elem_of_map {A} (upd : A -> A) (l : list A) (x : A) :
  x ∈ l -> upd x ∈ map upd l.
Proof. intros Hx. apply list_elem_of_In, in_map. now apply list_elem_of_In. Qed.

Lemma elem_of_map_inv {A} (upd : A -> A) (l : list A) (y : A) :
  y ∈ map upd l -> exists x, y = upd x /\ x ∈ l.
Proof.
  intros Hy. apply list_elem_of_In, in_map_iff in Hy as (x & <- & Hx).
  exists x. split; [reflexivity|]. now apply list_elem_of_In.
Qed.

(** *** A call that finds a row with the feed's URL *)

Lemma FeedPersist_lookup_found (rows : list Feed) (feed r : Feed) :
  feeds_ok rows -> r ∈ rows -> Feed.URL r = Feed.URL feed ->
  FeedPersist_lookup sql_like sql_refreshed_before rows feed
  = Feed.with_Created (Feed.Created r) (Feed.with_ID (Feed.ID r) feed).
Proof.
  intros (_ & Hurls & _) Hin Hurl. unfold FeedPersist_lookup.
  rewrite select_by_url, <- Hurl. now rewrite (NoDup_fmap_filter Feed.URL rows r).
Qed.

Lemma exec_update_by_id (rows : list Feed) (feed r : Feed) :
  feeds_ok rows -> r ∈ rows -> Feed.ID feed = Feed.ID r -> Feed.URL feed = Feed.URL r ->
  exists rows',
    exec_update sql_like sql_refreshed_before feed [IdIs (Feed.ID feed)] rows = inr rows'
    /\ feeds_ok rows'
    /\ set_columns feed r ∈ rows'.
Proof.
  intros (Hids & Hurls & Hnonempty) Hin Hid Hurl.
  set (upd := fun r0 => if Where sql_like sql_refreshed_before [IdIs (Feed.ID feed)] r0
                        then set_columns feed r0 else r0).
  assert (forall x, x ∈ rows -> Feed.ID (upd x) = Feed.ID x) as Hsame_id.
  { intros x _. unfold upd. now destruct (Where _ _ _ x). }
  assert (forall x, x ∈ rows -> Feed.URL (upd x) = Feed.URL x) as Hsame_url.
  { intros x Hx. unfold upd, Where. cbn [forallb Cond_holds]. rewrite andb_true_r.
    case_bool_decide as Hx_id; [|reflexivity].
    assert (x = r) as -> by (apply (NoDup_fmap_same Feed.ID rows); congruence).
    exact Hurl. }
  exists (map upd rows). split; [|split].
  - unfold exec_update. cbn [forallb Cond_resolves andb]. fold upd.
    rewrite (fmap_map_same Feed.URL upd rows Hsame_url).
    now rewrite bool_decide_eq_true_2.
  - repeat split.
    + now rewrite (fmap_map_same Feed.ID upd rows Hsame_id).
    + now rewrite (fmap_map_same Feed.URL upd rows Hsame_url).
    + intros y Hy. apply elem_of_map_inv in Hy as (x & -> & Hx).
      rewrite Hsame_id by exact Hx. now apply Hnonempty.
  - replace (set_columns feed r) with (upd r); [now apply elem_of_map|].
    unfold upd, Where. cbn [forallb Cond_holds].
    now rewrite bool_decide_eq_true_2.
Qed.

Lemma FeedPersist_existing (store : Store) (feed r : Feed) (w : World) :
  feeds_ok (feeds store) -> r ∈ feeds store -> Feed.URL r = Feed.URL feed ->
  Feed.URL feed ≠ ""%string ->
  exists feed' store' w',
    FeedPersist' store feed w = (None, feed', store', w')
    /\ Feed.ID feed' = Feed.ID r /\ Feed.Created feed' = Feed.Created r
    /\ feeds_ok (feeds store')
    /\ (exists r', r' ∈ feeds store' /\ Feed.URL r' = Feed.URL feed
                   /\ Feed.ID r' = Feed.ID r /\ Feed.Created r' = Feed.Created r).
Proof.
  intros Hok Hin Hurl Hpresent.
  destruct (FeedPersist_defaults_frame feed w) as (_ & Hurl1 & _).
  unfold FeedPersist. rewrite bool_decide_eq_false_2 by assumption.
  destruct (FeedPersist_defaults feed w) as [feed1 w1]. cbn [fst] in Hurl1.
  cbn [issue feeds journal].
  rewrite (FeedPersist_lookup_found (feeds store) feed1 r) by congruence.
  set (feed2 := Feed.with_Created (Feed.Created r) (Feed.with_ID (Feed.ID r) feed1)).
  assert (Feed.ID feed2 = Feed.ID r) as Hid2 by reflexivity.
  assert (Feed.URL feed2 = Feed.URL r) as Hurl2
      by (unfold feed2; destruct feed1; cbn in *; congruence).
  rewrite bool_decide_eq_false_2
    by (rewrite Hid2; destruct Hok as (_ & _ & Hne); now apply Hne).
  destruct (exec_update_by_id (feeds store) feed2 r Hok Hin Hid2 Hurl2)
    as (rows' & -> & Hok' & Hin').
  eexists _, _, _. split; [reflexivity|]. cbn [with_feeds feeds].
  repeat split; try apply Hok'.
  exists (set_columns feed2 r). repeat split; assumption.
Qed.

Lemma FeedPersist_new (store : Store) (feed : Feed) (w : World) :
  feeds_ok (feeds store) -> Feed.URL feed ≠ ""%string ->
  (forall r, r ∈ feeds store -> Feed.URL r ≠ Feed.URL feed) ->
  Feed.ID feed = ""%string ->
  uuids w (drawn w) ≠ ""%string ->
  (forall r, r ∈ feeds store -> Feed.ID r ≠ uuids w (drawn w)) ->
  exists feed' store' w',
    FeedPersist' store feed w = (None, feed', store', w')
    /\ feeds_ok (feeds store') /\ feed' ∈ feeds store' /\ Feed.URL feed' = Feed.URL feed.
Proof.
  intros (Hids & Hurls & Hnonempty) Hurl Hmiss Hcase Hgen Hfresh.
  rewrite (FeedPersist_miss_insert store feed w Hurl Hmiss Hcase).
  destruct (FeedPersist_defaults_frame feed w) as (_ & Hurl1 & _).
  set (record := Feed.with_ID (uuids w (drawn w)) (FeedPersist_defaults feed w).1).
  assert (Feed.ID record = uuids w (drawn w)) as Hrec_id by reflexivity.
  assert (Feed.URL record = Feed.URL feed) as Hrec_url
      by (unfold record; destruct (FeedPersist_defaults feed w).1; exact Hurl1).
  rewrite exec_insert_fresh.
  2:{ intros r Hr. rewrite Hrec_id. now apply Hfresh. }
  2:{ intros r Hr. rewrite Hrec_url. now apply Hmiss. }
  eexists _, _, _. split; [reflexivity|]. cbn [feeds].
  split; [|split].
  - repeat split.
    + rewrite fmap_app. apply NoDup_app. split; [exact Hids|]. split; [|apply NoDup_singleton].
      intros x Hx Hx'. apply list_elem_of_singleton in Hx'. subst x.
      apply list_elem_of_fmap_1 in Hx as (r & Hr & Hin). apply (Hfresh r Hin). congruence.
    + rewrite fmap_app. apply NoDup_app. split; [exact Hurls|]. split; [|apply NoDup_singleton].
      intros x Hx Hx'. apply list_elem_of_singleton in Hx'. subst x.
      apply list_elem_of_fmap_1 in Hx as (r & Hr & Hin). apply (Hmiss r Hin). congruence.
    + intros r Hr. apply elem_of_app in Hr as [Hr|Hr]; [now apply Hnonempty|].
      apply list_elem_of_singleton in Hr. subst r. now rewrite Hrec_id.
  - apply elem_of_app. right. apply list_elem_of_here.
  - exact Hrec_url.
Qed.

Lemma one_row_with_url (rows : list Feed) (r : Feed) :
  feeds_ok rows -> r ∈ rows -> length (rows_with_url (Feed.URL r) rows) = 1%nat.
Proof.
  intros (_ & Hurls & _) Hin. unfold rows_with_url.
  now rewrite (NoDup_fmap_filter Feed.URL rows r).
Qed.

End PersistFacts.

Lemma sample_store_ok : feeds_ok (feeds sample_store).
Proof.
  split; [|split].
  - apply (bool_decide_unpack _). vm_compute. exact I.
  - apply (bool_decide_unpack _). vm_compute. exact I.
  - intros r Hr. apply list_elem_of_In in Hr. cbn in Hr.
    intuition (subst; discriminate).
Qed.

Lemma sample_store_miss (r : Feed) :
  r ∈ feeds sample_store -> Feed.URL r ≠ "http://d/feed.xml"%string.
Proof.
  intros Hr. apply list_elem_of_In in Hr. cbn in Hr.
  intuition (subst; discriminate).
Qed.

Lemma sample_store_fresh (r : Feed) :
  r ∈ feeds sample_store -> Feed.ID r ≠ uuids sample_world (drawn sample_world).
Proof.
  intros Hr. apply list_elem_of_In in Hr. cbn in Hr.
  intuition (subst; discriminate).
Qed.

Lemma FeedPersist_missing_URL_witness :
  FeedPersist sample_like sample_refreshed_before sample_store (sample_feed "f" "" "A" []) sample_world
  = (Some ErrNoFeedURL, sample_feed "f" "" "A" [], sample_store, sample_world).
Proof.
  apply (FeedPersist_missing_URL sample_like sample_refreshed_before sample_store (sample_feed "f" "" "A" [])
           sample_world).
  reflexivity.
Defined.

(** The claim C7 fails where the caller brings an ID that no row has: no
    ID is drawn, no INSERT is issued, the table stays empty. *)
Lemma FeedPersist_supplied_ID_no_insert :
  match FeedPersist sample_like sample_refreshed_before empty_store (sample_feed "x" "http://a/feed.xml" "" [])
          sample_world with
  | (err, feed', store', w') =>
      rows_with_url "http://a/feed.xml" (feeds empty_store) = []
      /\ err = None
      /\ Feed.ID feed' = "x"%string
      /\ drawn w' = drawn sample_world
      /\ feeds store' = []
      /\ journal store'
         = [SelectStmt ["id"; "created"]%string [UrlIs "http://a/feed.xml"];
            UpdateStmt update_columns feed' [IdIs "x"]]
  end.
Proof. vm_compute. repeat split; reflexivity. Qed.

Lemma FeedPersist_lookup_miss_witness :
  exists err rows record,
    FeedPersist sample_like sample_refreshed_before sample_store (sample_feed "" "http://d/feed.xml" "" [])
      sample_world
    = (err, record,
       mkStore rows
         [SelectStmt ["id"; "created"]%string [UrlIs "http://d/feed.xml"];
          InsertStmt feeds_columns record],
       snd (generateUUID
              (snd (FeedPersist_defaults (sample_feed "" "http://d/feed.xml" "" [])
                      sample_world))))
    /\ Feed.ID record = "a"%string
    /\ err = None
    /\ rows = feeds sample_store ++ [record].
Proof.
  destruct (FeedPersist_lookup_miss sample_like sample_refreshed_before sample_store
              (sample_feed "" "http://d/feed.xml" "" []) sample_world) as [Hinsert _].
  - discriminate.
  - exact sample_store_miss.
  - destruct (Hinsert eq_refl) as (err & rows & Hcall & Hrows).
    destruct (Hrows sample_store_fresh) as [Herr Happ].
    eexists err, rows, _. split; [exact Hcall|]. split; [reflexivity|]. split; assumption.
Defined.

(** The claim C2 fails where the first call brings an ID that no row has:
    that call writes nothing, and the second call, without ID, inserts a row
    under a new ID and with its own Created time. *)
Lemma FeedPersist_twice_after_unknown_ID :
  match FeedPersist sample_like sample_refreshed_before empty_store (sample_feed "x" "http://a/feed.xml" "" [])
          sample_world with
  | (err1, f1, s1, w1) =>
      match FeedPersist sample_like sample_refreshed_before s1 (sample_feed "" "http://a/feed.xml" "" []) w1 with
      | (err2, f2, s2, w2) =>
          err1 = None /\ err2 = None
          /\ Feed.ID f1 = "x"%string /\ Feed.ID f2 = "a"%string
          /\ Feed.Created f1 = 1000 /\ Feed.Created f2 = 1003
          /\ feeds s1 = [] /\ feeds s2 = [f2]
      end
  end.
Proof. vm_compute. repeat split; reflexivity. Qed.

(** The scenario of the specification: the second call renames the row
    that the first one created. *)
Example FeedPersist_twice_renames :
  match FeedPersist sample_like sample_refreshed_before empty_store (sample_feed "" "http://a/feed.xml" "" [])
          sample_world with
  | (_, f1, s1, w1) =>
      match FeedPersist sample_like sample_refreshed_before s1 (sample_feed "" "http://a/feed.xml" "New" []) w1 with
      | (_, f2, s2, _) =>
          Feed.ID f1 = "a"%string /\ Feed.ID f2 = "a"%string
          /\ Feed.Title <$> feeds s1 = ["http://a/feed.xml"%string]
          /\ Feed.Title <$> feeds s2 = ["New"%string]
          /\ Feed.Created <$> feeds s2 = [1000]
      end
  end.
Proof. vm_compute. repeat split; reflexivity. Qed.

(** ** The full-text shadow tables *)

Section ShadowIndex.

Context {Row : Type}.
Variable text : Row -> list string.
Variable tr : Triggers Row.

Hypothesis after_insert_text : forall rowid new index,
  after_insert tr rowid new index = fts_insert rowid (text new) index.
Hypothesis after_delete_text : forall rowid old index,
  after_delete tr rowid old index = fts_delete rowid (text old) index.
Hypothesis after_update_text : forall old_rowid old new_rowid new index,
  after_update tr old_rowid old new_rowid new index
  = fts_insert new_rowid (text new) (fts_delete old_rowid (text old) index).

Lemma fts_delete_indexed (rowid : Z) (old : Row) (base : gmap Z Row) :
  base !! rowid = Some old ->
  fts_delete rowid (text old) (text <$> base) = text <$> delete rowid base.
Proof.
  intros Hold. unfold fts_delete.
  rewrite bool_decide_eq_true_2 by (now rewrite lookup_fmap, Hold).
  now rewrite fmap_delete.
Qed.

Lemma write_row_mirrors (op : Write Row) (state : gmap Z Row * Index) :
  mirrors text state -> mirrors text (write_row tr op state).
Proof.
  destruct state as [base index]. unfold mirrors. cbn [fst snd]. intros ->.
  destruct op as [rowid new|rowid new|rowid]; cbn [write_row];
    destruct (base !! rowid) as [old|] eqn:Hrow; cbn [fst snd]; try reflexivity.
  - rewrite after_insert_text. unfold fts_insert. now rewrite fmap_insert.
  - rewrite after_update_text, (fts_delete_indexed rowid old base Hrow).
    unfold fts_insert. rewrite <- fmap_insert. now rewrite insert_delete_eq.
  - rewrite after_delete_text. now apply fts_delete_indexed.
Qed.

Lemma write_rows_mirrors (ops : list (Write Row)) (state : gmap Z Row * Index) :
  mirrors text state -> mirrors text (write_rows tr ops state).
Proof.
  revert state. induction ops as [|op ops IH]; intros state Hstate; [exact Hstate|].
  cbn [write_rows foldl]. apply IH. now apply write_row_mirrors.
Qed.

Lemma mirrors_dom (state : gmap Z Row * Index) :
  mirrors text state -> dom (snd state) = dom (fst state).
Proof. unfold mirrors. intros ->. apply dom_fmap_L. Qed.

End ShadowIndex.

(** C8: for [bookmarks] and for [thoughts], whatever rows are inserted,
    updated and deleted, each write firing its trigger in the same step, an
    index that mirrors its base table still does afterwards: it has an entry
    for exactly the rowids of the table, each with the text columns of the
    current row. *)
Theorem shadow_index_mirrors_base
  (bookmark_writes : list (Write Bookmark.t)) (thought_writes : list (Write Thought.t))
  (bookmarks : gmap Z Bookmark.t * Index) (thoughts : gmap Z Thought.t * Index) :
  mirrors bookmark_text bookmarks ->
  mirrors thought_text thoughts ->
  (mirrors bookmark_text (write_rows bookmarks_triggers bookmark_writes bookmarks)
   /\ dom (snd (write_rows bookmarks_triggers bookmark_writes bookmarks))
      = dom (fst (write_rows bookmarks_triggers bookmark_writes bookmarks)))
  /\ (mirrors thought_text (write_rows thoughts_triggers thought_writes thoughts)
      /\ dom (snd (write_rows thoughts_triggers thought_writes thoughts))
         = dom (fst (write_rows thoughts_triggers thought_writes thoughts))).
Proof.
  intros Hbookmarks Hthoughts.
  assert (mirrors bookmark_text (write_rows bookmarks_triggers bookmark_writes bookmarks))
    as Hb by (apply write_rows_mirrors; [reflexivity..|exact Hbookmarks]).
  assert (mirrors thought_text (write_rows thoughts_triggers thought_writes thoughts))
    as Ht by (apply write_rows_mirrors; [reflexivity..|exact Hthoughts]).
  split; (split; [assumption|]).
  - exact (mirrors_dom bookmark_text _ Hb).
  - exact (mirrors_dom thought_text _ Ht).
Qed.

Lemma shadow_index_mirrors_base_witness :
  (mirrors bookmark_text (write_rows bookmarks_triggers sample_bookmark_writes (∅, ∅))
   /\ dom (snd (write_rows bookmarks_triggers sample_bookmark_writes (∅, ∅)))
      = dom (fst (write_rows bookmarks_triggers sample_bookmark_writes (∅, ∅))))
  /\ (mirrors thought_text (write_rows thoughts_triggers sample_thought_writes (∅, ∅))
      /\ dom (snd (write_rows thoughts_triggers sample_thought_writes (∅, ∅)))
         = dom (fst (write_rows thoughts_triggers sample_thought_writes (∅, ∅)))).
Proof.
  apply (shadow_index_mirrors_base sample_bookmark_writes sample_thought_writes (∅, ∅) (∅, ∅)).
  - unfold mirrors. cbn [fst snd]. now rewrite fmap_empty.
  - unfold mirrors. cbn [fst snd]. now rewrite fmap_empty.
Defined.

Example bookmarks_fts_after_writes :
  let index := snd (write_rows bookmarks_triggers sample_bookmark_writes (∅, ∅)) in
  index !! 1 = Some ["uno"; "http://a/1"; "body"]%string
  /\ index !! 2 = None
  /\ index !! 3 = Some ["three"; "http://a/3"; "body"]%string
  /\ index !! 9 = None.
Proof. vm_compute. repeat split; reflexivity. Qed.

Example thoughts_fts_after_writes :
  let index := snd (write_rows thoughts_triggers sample_thought_writes (∅, ∅)) in
  index !! 1 = None /\ index !! 2 = Some ["plan"; "third"]%string.
Proof. vm_compute. repeat split; reflexivity. Qed.

(** * Further properties of the feed and of the store *)

(** ** [GetItem] and [DeleteItem] *)

Lemma GetItem_range_first (ID : string) (l1 l2 : list FeedItem) (x : FeedItem) :
  Forall (fun y => FeedItem.ID y ≠ ID) l1 -> FeedItem.ID x = ID ->
  GetItem_range ID (l1 ++ x :: l2) = Some x.
Proof.
  intros Hl1 Hx. induction Hl1 as [|y l1 Hy _ IH]; cbn.
  - now rewrite bool_decide_eq_true_2.
  - now rewrite bool_decide_eq_false_2 by congruence.
Qed.

Lemma GetItem_range_none (ID : string) (l : list FeedItem) :
  Forall (fun y => FeedItem.ID y ≠ ID) l -> GetItem_range ID l = None.
Proof.
  intros Hl. induction Hl as [|y l Hy _ IH]; cbn; [reflexivity|].
  now rewrite bool_decide_eq_false_2 by congruence.
Qed.

(** X1: [GetItem] returns the first item that has the ID, and [DeleteItem]
    removes exactly that item; [GetItem] returns nil exactly when
    [DeleteItem] fails with [ErrNotExistingFeedItem]. *)
Theorem GetItem_agrees_with_DeleteItem (feed : Feed) (ID : string) :
  (exists l1 x l2,
      Feed.Items feed = l1 ++ x :: l2 /\ FeedItem.ID x = ID /\
      Forall (fun y => FeedItem.ID y ≠ ID) l1 /\
      GetItem feed ID = Some x /\
      DeleteItem feed ID = (None, Feed.with_Items (l1 ++ l2) feed))
  \/ (Forall (fun y => FeedItem.ID y ≠ ID) (Feed.Items feed) /\
      GetItem feed ID = None /\
      DeleteItem feed ID = (Some ErrNotExistingFeedItem, feed)).
Proof.
  unfold GetItem, DeleteItem.
  destruct (DeleteItem_range_found feed ID [] (Feed.Items feed) eq_refl (List.Forall_nil _))
    as [(l1 & x & l2 & Hsplit & Hx & Hl1 & Hdel)|[Hnone Hdel]].
  - left. exists l1, x, l2. repeat split; try assumption.
    rewrite Hsplit. now apply GetItem_range_first.
  - right. repeat split; try assumption. now apply GetItem_range_none.
Qed.

Lemma GetItem_range_other (ID ID' : string) (l1 l2 : list FeedItem) (x : FeedItem) :
  FeedItem.ID x = ID -> ID' ≠ ID ->
  GetItem_range ID' (l1 ++ l2) = GetItem_range ID' (l1 ++ x :: l2).
Proof.
  intros Hx Hne. induction l1 as [|y l1 IH]; cbn.
  - now rewrite (bool_decide_eq_false_2 (ID' = FeedItem.ID x)) by congruence.
  - now rewrite IH.
Qed.

(** X2: once [DeleteItem] has removed the item with an ID, looking up any
    other ID gives what it gave before, and, when the items of the feed had
    distinct IDs, looking up the removed ID gives nil. *)
Theorem GetItem_after_DeleteItem (feed feed' : Feed) (ID : string) :
  DeleteItem feed ID = (None, feed') ->
  (forall ID', ID' ≠ ID -> GetItem feed' ID' = GetItem feed ID')
  /\ (NoDup (FeedItem.ID <$> Feed.Items feed) -> GetItem feed' ID = None).
Proof.
  intros Hdel. unfold DeleteItem in Hdel.
  destruct (DeleteItem_range_found feed ID [] (Feed.Items feed) eq_refl (List.Forall_nil _))
    as [(l1 & x & l2 & Hsplit & Hx & Hl1 & Hdel')|[_ Hdel']];
    cbn [length] in Hdel'; rewrite Hdel' in Hdel; [|discriminate].
  injection Hdel as <-. unfold GetItem. cbn [Feed.with_Items Feed.Items]. rewrite Hsplit.
  split.
  - intros ID' Hne. exact (GetItem_range_other ID ID' l1 l2 x Hx Hne).
  - intros Hnodup. apply GetItem_range_none.
    rewrite fmap_app, fmap_cons in Hnodup.
    apply NoDup_app in Hnodup as (_ & Hdisjoint & Hright).
    apply NoDup_cons in Hright as [Hfresh _].
    apply Forall_app. split; [exact Hl1|].
    apply Forall_forall. intros y Hy Hid. apply Hfresh.
    rewrite Hx, <- Hid. now apply list_elem_of_fmap_2.
Qed.

Lemma GetItem_after_DeleteItem_witness :
  let feed := sample_feed "f" "http://a" "A"
                [sample_item "x" 1; sample_item "y" 2; sample_item "z" 3] in
  let feed' := sample_feed "f" "http://a" "A" [sample_item "x" 1; sample_item "z" 3] in
  (forall ID', ID' ≠ "y"%string -> GetItem feed' ID' = GetItem feed ID')
  /\ (NoDup (FeedItem.ID <$> Feed.Items feed) -> GetItem feed' "y" = None).
Proof.
  apply (GetItem_after_DeleteItem
           (sample_feed "f" "http://a" "A"
              [sample_item "x" 1; sample_item "y" 2; sample_item "z" 3])
           (sample_feed "f" "http://a" "A" [sample_item "x" 1; sample_item "z" 3]) "y").
  reflexivity.
Defined.

(** ** [sort.SliceStable] by a time, newest first *)

Section NewestFirst.

Context {A : Type}.
Variable key : A -> Time.

Local Abbreviation newer := (fun a b : A => After (key a) (key b)).
Local Abbreviation not_older := (fun a b : A => key b <= key a).

Lemma SliceStable_insert_sorted (x : A) (l : list A) :
  StronglySorted not_older l -> StronglySorted not_older (SliceStable_insert newer x l).
Proof.
  induction 1 as [|y l Hsorted IH Hy]; cbn [SliceStable_insert].
  - constructor; constructor.
  - destruct (After (key y) (key x)) eqn:E; unfold After in E.
    + apply Z.ltb_lt in E. constructor; [exact IH|].
      apply Forall_forall. intros z Hz.
      rewrite SliceStable_insert_Permutation in Hz.
      apply elem_of_cons in Hz as [->|Hz]; [lia|].
      rewrite Forall_forall in Hy. now apply Hy.
    + apply Z.ltb_ge in E. constructor; [now constructor|].
      constructor; [exact E|].
      apply Forall_forall. intros z Hz. rewrite Forall_forall in Hy.
      specialize (Hy z Hz). cbn in Hy. lia.
Qed.

Lemma SliceStable_sorted (l : list A) : StronglySorted not_older (SliceStable newer l).
Proof.
  induction l as [|x l IH]; cbn [SliceStable]; [constructor|].
  now apply SliceStable_insert_sorted.
Qed.

Lemma SliceStable_insert_stable (d : Time) (x : A) (l : list A) :
  filter (fun a => key a = d) (SliceStable_insert newer x l)
  = filter (fun a => key a = d) (x :: l).
Proof.
  induction l as [|y l IH]; cbn [SliceStable_insert]; [reflexivity|].
  destruct (After (key y) (key x)) eqn:E; [|reflexivity].
  unfold After in E. apply Z.ltb_lt in E.
  rewrite (filter_cons _ y), IH, !(filter_cons _ x), (filter_cons _ y).
  destruct (decide (key y = d)), (decide (key x = d)); try reflexivity. lia.
Qed.

Lemma SliceStable_stable (d : Time) (l : list A) :
  filter (fun a => key a = d) (SliceStable newer l) = filter (fun a => key a = d) l.
Proof.
  induction l as [|x l IH]; cbn [SliceStable]; [reflexivity|].
  now rewrite SliceStable_insert_stable, !(filter_cons _ x), IH.
Qed.

End NewestFirst.

(** ** [Fetch]: failures, frame and order *)

Section FetchMore.

Variable defaultUserAgent : string.
Variable url_error : string -> option error.
Variable client_Do : http.Request -> option http.Response * option error.
Variable gofeed_Parse : string -> error + gofeed.Feed.t.
Variable Sanitize : string -> string.
Variable Format_RFC1123 : Time -> string.

Local Abbreviation Fetch' :=
  (Fetch defaultUserAgent url_error client_Do gofeed_Parse Sanitize Format_RFC1123).
Local Abbreviation Fetch_request' := (Fetch_request defaultUserAgent url_error Format_RFC1123).

Lemma Fetch_finish_no_error (feed feed' : Feed) (response : http.Response)
  (parsedFeed : gofeed.Feed.t) (w w' : World) (err : error) :
  Fetch_finish feed response parsedFeed w ≠ (Returned (Some err), feed', w').
Proof.
  unfold Fetch_finish.
  destruct (bool_decide (gofeed.Feed.Updated parsedFeed ≠ ""%string));
    [destruct (gofeed.Feed.UpdatedParsed parsedFeed)|]; cbn [time_Now]; discriminate.
Qed.

(** Past the parser, [Fetch] is the loop followed by [Fetch_finish]. *)
Lemma Fetch_parsed (feed : Feed) (w : World) (request : http.Request)
  (response : http.Response) (parsedFeed : gofeed.Feed.t) :
  Feed.URL feed ≠ ""%string ->
  Fetch_request' feed = inr request ->
  client_Do request = (Some response, None) ->
  http.StatusCode response ≠ 304 ->
  gofeed_Parse (http.Body response) = inr parsedFeed ->
  Fetch' feed w
  = Fetch_finish
      (Feed.with_Items
         (Feed.Items feed
          ++ accepted Sanitize (Feed.Refreshed feed) (gofeed.Feed.Items parsedFeed) w) feed)
      response parsedFeed
      (snd (Fetch_range Sanitize feed (gofeed.Feed.Items parsedFeed) w)).
Proof.
  intros Hurl Hreq Hdo Hstatus Hparse. unfold Fetch.
  rewrite bool_decide_eq_false_2 by assumption. rewrite Hreq, Hdo.
  destruct (304 =? http.StatusCode response) eqn:E; [apply Z.eqb_eq in E; congruence|].
  rewrite Hparse, <- Fetch_range_accepted.
  now destruct (Fetch_range Sanitize feed (gofeed.Feed.Items parsedFeed) w).
Qed.

Lemma Fetch_success_has_URL (feed feed' : Feed) (w w' : World) :
  Fetch' feed w = (Returned None, feed', w') -> Feed.URL feed ≠ ""%string.
Proof. unfold Fetch. now case_bool_decide. Qed.

(** Either [Fetch] stops before the loop, with the feed and the world as
    they were, or it goes through the loop and [Fetch_finish]. *)
Lemma Fetch_cases (feed : Feed) (w : World) :
  (exists result, Fetch' feed w = (Returned result, feed, w))
  \/ Fetch' feed w = (Panicked, feed, w)
  \/ (exists request response parsedFeed,
        Feed.URL feed ≠ ""%string
        /\ Fetch_request' feed = inr request
        /\ client_Do request = (Some response, None)
        /\ http.StatusCode response ≠ 304
        /\ gofeed_Parse (http.Body response) = inr parsedFeed).
Proof.
  unfold Fetch. case_bool_decide as Hurl; [left; eexists; reflexivity|].
  destruct (Fetch_request' feed) as [e|request] eqn:Hreq;
    [left; eexists; reflexivity|].
  destruct (client_Do request) as [[response|] [e|]] eqn:Hdo;
    try (left; eexists; reflexivity);
    try (right; left; reflexivity).
  destruct (304 =? http.StatusCode response) eqn:Hstatus;
    [left; eexists; reflexivity|].
  apply Z.eqb_neq in Hstatus.
  destruct (gofeed_Parse (http.Body response)) as [e|parsedFeed] eqn:Hparse;
    [left; eexists; reflexivity|].
  right. right. exists request, response, parsedFeed. repeat split; congruence.
Qed.

(** X3: when [Fetch] returns an error (missing URL, a URL that is not
    one, a refused redirect, a body that does not parse), nothing has been
    written: the feed is the one passed in, and neither the clock nor the
    generator has been consulted. *)
Theorem Fetch_error_leaves_feed (feed feed' : Feed) (w w' : World) (err : error) :
  Fetch' feed w = (Returned (Some err), feed', w') -> feed' = feed /\ w' = w.
Proof.
  intros Hfetch.
  destruct (Fetch_cases feed w)
    as [(result & Hstop)|[Hstop|(request & response & parsedFeed & Hparsed)]].
  - rewrite Hstop in Hfetch. now injection Hfetch as _ <- <-.
  - rewrite Hstop in Hfetch. discriminate.
  - destruct Hparsed as (Hurl & Hreq & Hdo & Hstatus & Hparse).
    rewrite (Fetch_parsed feed w request response parsedFeed) in Hfetch by assumption.
    now apply Fetch_finish_no_error in Hfetch.
Qed.

(** The feed that a successful [Fetch_finish] hands back, field by field. *)
Lemma Fetch_finish_success (feed feed' : Feed) (response : http.Response)
  (parsedFeed : gofeed.Feed.t) (w w' : World) :
  Fetch_finish feed response parsedFeed w = (Returned None, feed', w') ->
  w' = snd (time_Now w)
  /\ Feed.Items feed'
     = SliceStable (fun a b => After (FeedItem.Date a) (FeedItem.Date b)) (Feed.Items feed)
  /\ Feed.Etag feed' = http.Header_Get "Etag" (http.RespHeader response)
  /\ Feed.Refreshed feed' = wall w (reads w)
  /\ Feed.Title feed'
     = (if bool_decide (Feed.Title feed = ""%string)
        then gofeed.Feed.Title parsedFeed else Feed.Title feed)
  /\ Feed.LastAuthored feed'
     = (if bool_decide (gofeed.Feed.Updated parsedFeed ≠ ""%string)
        then default (Feed.LastAuthored feed) (gofeed.Feed.UpdatedParsed parsedFeed)
        else Feed.LastAuthored feed)
  /\ Feed.ID feed' = Feed.ID feed /\ Feed.URL feed' = Feed.URL feed
  /\ Feed.Created feed' = Feed.Created feed /\ Feed.Updated feed' = Feed.Updated feed
  /\ Feed.Tags feed' = Feed.Tags feed.
Proof.
  unfold Fetch_finish. destruct feed as [id cr up re la ti ur et ta it].
  destruct (bool_decide (gofeed.Feed.Updated parsedFeed ≠ ""%string));
    [destruct (gofeed.Feed.UpdatedParsed parsedFeed); [|discriminate]|];
    cbn -[SliceStable]; destruct (bool_decide (ti = ""%string));
    intros [= <- <-]; cbn -[SliceStable]; repeat split; reflexivity.
Qed.

Lemma Fetch_finish_frame (feed : Feed) (response : http.Response)
  (parsedFeed : gofeed.Feed.t) (w : World) :
  let feed' := snd (fst (Fetch_finish feed response parsedFeed w)) in
  Feed.ID feed' = Feed.ID feed /\ Feed.URL feed' = Feed.URL feed
  /\ Feed.Created feed' = Feed.Created feed /\ Feed.Updated feed' = Feed.Updated feed
  /\ Feed.Tags feed' = Feed.Tags feed
  /\ (Feed.Title feed ≠ ""%string -> Feed.Title feed' = Feed.Title feed)
  /\ Permutation (Feed.Items feed') (Feed.Items feed).
Proof.
  destruct (Fetch_finish feed response parsedFeed w) as [[outcome feed'] w'] eqn:E.
  cbn [fst snd]. destruct outcome as [[err|]|].
  - now apply Fetch_finish_no_error in E.
  - apply Fetch_finish_success in E
      as (_ & Hitems & _ & _ & Htitle & _ & Hid & Hurl & Hcr & Hup & Htags).
    repeat split; try assumption.
    + intros Hne. now rewrite Htitle, bool_decide_eq_false_2.
    + rewrite Hitems. apply SliceStable_Permutation.
  - unfold Fetch_finish in E.
    destruct (bool_decide (gofeed.Feed.Updated parsedFeed ≠ ""%string));
      [destruct (gofeed.Feed.UpdatedParsed parsedFeed)|]; cbn [time_Now] in E;
      try discriminate.
    injection E as <- _. repeat split; reflexivity.
Qed.

(** X4: whatever [Fetch] does, return or panic, the feed keeps its ID,
    URL, Created and Updated times and Tags, a title that was set stays, and
    every item that was in the feed is still in it. *)
Theorem Fetch_frame (feed : Feed) (w : World) :
  let feed' := snd (fst (Fetch' feed w)) in
  Feed.ID feed' = Feed.ID feed /\ Feed.URL feed' = Feed.URL feed
  /\ Feed.Created feed' = Feed.Created feed /\ Feed.Updated feed' = Feed.Updated feed
  /\ Feed.Tags feed' = Feed.Tags feed
  /\ (Feed.Title feed ≠ ""%string -> Feed.Title feed' = Feed.Title feed)
  /\ (forall item, item ∈ Feed.Items feed -> item ∈ Feed.Items feed').
Proof.
  destruct (Fetch_cases feed w)
    as [(result & Hstop)|[Hstop|(request & response & parsedFeed & Hparsed)]].
  - rewrite Hstop. cbn. repeat split; trivial.
  - rewrite Hstop. cbn. repeat split; trivial.
  - destruct Hparsed as (Hurl & Hreq & Hdo & Hstatus & Hparse).
    rewrite (Fetch_parsed feed w request response parsedFeed) by assumption.
    match goal with |- context [Fetch_finish ?f ?r ?p ?v] =>
      destruct (Fetch_finish_frame f r p v)
        as (Hid & Hurl' & Hcr & Hup & Htags & Htitle & Hitems)
    end.
    cbn zeta. rewrite Hid, Hurl', Hcr, Hup, Htags.
    destruct feed as [id cr up re la ti ur et ta it]. cbn in *.
    repeat split; try reflexivity; [exact Htitle|].
    intros item Hitem. rewrite Hitems. apply elem_of_app. now left.
Qed.

(** X5: after a [Fetch] that returns nil on a response other than 304,
    the items of the feed are in order of date, newest first. *)
Theorem Fetch_items_newest_first (feed feed' : Feed) (w w' : World)
  (request : http.Request) (response : http.Response) (parsedFeed : gofeed.Feed.t) :
  Fetch_request' feed = inr request ->
  client_Do request = (Some response, None) ->
  http.StatusCode response ≠ 304 ->
  gofeed_Parse (http.Body response) = inr parsedFeed ->
  Fetch' feed w = (Returned None, feed', w') ->
  StronglySorted (fun a b => FeedItem.Date b <= FeedItem.Date a) (Feed.Items feed').
Proof.
  intros Hreq Hdo Hstatus Hparse Hfetch.
  pose proof (Fetch_success_has_URL feed feed' w w' Hfetch) as Hurl.
  rewrite (Fetch_parsed feed w request response parsedFeed) in Hfetch by assumption.
  apply Fetch_finish_success in Hfetch as (_ & -> & _).
  apply (SliceStable_sorted FeedItem.Date).
Qed.

(** X6: the sort is stable: among the items of one date, the former items
    come first, in the order they had, then the accepted entries of that
    date in the order of the document. *)
Theorem Fetch_items_stable (feed feed' : Feed) (w w' : World)
  (request : http.Request) (response : http.Response) (parsedFeed : gofeed.Feed.t) :
  Fetch_request' feed = inr request ->
  client_Do request = (Some response, None) ->
  http.StatusCode response ≠ 304 ->
  gofeed_Parse (http.Body response) = inr parsedFeed ->
  Fetch' feed w = (Returned None, feed', w') ->
  forall date,
    filter (fun item => FeedItem.Date item = date) (Feed.Items feed')
    = filter (fun item => FeedItem.Date item = date) (Feed.Items feed)
      ++ filter (fun item => FeedItem.Date item = date)
           (accepted Sanitize (Feed.Refreshed feed) (gofeed.Feed.Items parsedFeed) w).
Proof.
  intros Hreq Hdo Hstatus Hparse Hfetch date.
  pose proof (Fetch_success_has_URL feed feed' w w' Hfetch) as Hurl.
  rewrite (Fetch_parsed feed w request response parsedFeed) in Hfetch by assumption.
  apply Fetch_finish_success in Hfetch as (_ & -> & _).
  rewrite (SliceStable_stable FeedItem.Date). cbn [Feed.with_Items Feed.Items].
  apply filter_app.
Qed.

Lemma Fetch_range_wall (entries : list gofeed.Item.t) (feed : Feed) (w : World) :
  wall (snd (Fetch_range Sanitize feed entries w)) = wall w.
Proof.
  revert feed w. induction entries as [|item rest IH]; intros feed w; [reflexivity|].
  cbn [Fetch_range]. rewrite Fetch_entry_accepts, IH.
  unfold after_entry, new_feedItem. cbn [generateUUID time_Now].
  destruct (gofeed.Item.PublishedParsed item); [|destruct (gofeed.Item.UpdatedParsed item)];
    cbn [time_Now];
    match goal with |- context [Before ?d ?r] => destruct (Before d r) end; reflexivity.
Qed.

(** X7: after a [Fetch] that returns nil on a response other than 304,
    the Etag is the one of the response (empty when it has none), Refreshed
    is the last reading of the clock, a title is taken from the document only
    when the feed had none, and LastAuthored follows the document when it
    carries a date of update. *)
Theorem Fetch_metadata (feed feed' : Feed) (w w' : World)
  (request : http.Request) (response : http.Response) (parsedFeed : gofeed.Feed.t) :
  Fetch_request' feed = inr request ->
  client_Do request = (Some response, None) ->
  http.StatusCode response ≠ 304 ->
  gofeed_Parse (http.Body response) = inr parsedFeed ->
  Fetch' feed w = (Returned None, feed', w') ->
  Feed.Etag feed' = default ""%string (http.RespHeader response !! "Etag"%string)
  /\ Feed.Refreshed feed' = wall w (Nat.pred (reads w'))
  /\ Feed.Title feed'
     = (if bool_decide (Feed.Title feed = ""%string)
        then gofeed.Feed.Title parsedFeed else Feed.Title feed)
  /\ Feed.LastAuthored feed'
     = (if bool_decide (gofeed.Feed.Updated parsedFeed = ""%string)
        then Feed.LastAuthored feed
        else default (Feed.LastAuthored feed) (gofeed.Feed.UpdatedParsed parsedFeed)).
Proof.
  intros Hreq Hdo Hstatus Hparse Hfetch.
  pose proof (Fetch_success_has_URL feed feed' w w' Hfetch) as Hurl.
  rewrite (Fetch_parsed feed w request response parsedFeed) in Hfetch by assumption.
  apply Fetch_finish_success in Hfetch
    as (-> & _ & Hetag & Hrefreshed & Htitle & Hauthored & _).
  rewrite Hetag, Hrefreshed, Htitle, Hauthored. cbn [time_Now snd reads Nat.pred].
  rewrite Fetch_range_wall.
  destruct feed as [id cr up re la ti ur et ta it]. cbn.
  repeat split; try reflexivity.
  destruct (decide (gofeed.Feed.Updated parsedFeed = ""%string)) as [Hnone|Hsome].
  - now rewrite bool_decide_eq_false_2, bool_decide_eq_true_2 by (try congruence; auto).
  - now rewrite bool_decide_eq_true_2, bool_decide_eq_false_2 by assumption.
Qed.

(** X8: the request of [Fetch] is a GET of the feed's URL with the
    User-Agent of the package and at most one validator: If-None-Match with
    the Etag when the feed has one, otherwise If-Modified-Since with the
    Refreshed time when that is set. *)
Theorem Fetch_request_validators (feed : Feed) (request : http.Request) :
  Fetch_request' feed = inr request ->
  http.Method request = "GET"%string
  /\ http.URL request = Feed.URL feed
  /\ http.Header request !! "User-Agent"%string = Some defaultUserAgent
  /\ http.Header request !! "If-None-Match"%string
     = (if bool_decide (Feed.Etag feed = ""%string) then None else Some (Feed.Etag feed))
  /\ http.Header request !! "If-Modified-Since"%string
     = (if bool_decide (Feed.Etag feed = ""%string) && negb (Feed.Refreshed feed =? 0)
        then Some (Format_RFC1123 (Feed.Refreshed feed)) else None).
Proof.
  unfold Fetch_request, http_NewRequest.
  destruct (url_error (Feed.URL feed)); [discriminate|].
  destruct (decide (Feed.Etag feed = ""%string)) as [Hetag|Hetag].
  - rewrite (bool_decide_eq_false_2 (Feed.Etag feed ≠ ""%string)) by auto.
    rewrite (bool_decide_eq_true_2 (Feed.Etag feed = ""%string)) by assumption.
    unfold IsZero. destruct (Feed.Refreshed feed =? 0); cbn [negb andb];
      intros [= <-]; cbn; repeat split; reflexivity.
  - rewrite (bool_decide_eq_true_2 (Feed.Etag feed ≠ ""%string)) by assumption.
    rewrite (bool_decide_eq_false_2 (Feed.Etag feed = ""%string)) by assumption.
    intros [= <-]; cbn; repeat split; reflexivity.
Qed.

(** X9: when the document carries a date of update that the parser could
    not read, [Fetch] panics once the loop is done: the accepted entries
    have been appended, while Etag, Refreshed and the order of the items are
    as the loop left them. *)
Theorem Fetch_unparsed_update_panics (feed : Feed) (w : World)
  (request : http.Request) (response : http.Response) (parsedFeed : gofeed.Feed.t) :
  Feed.URL feed ≠ ""%string ->
  Fetch_request' feed = inr request ->
  client_Do request = (Some response, None) ->
  http.StatusCode response ≠ 304 ->
  gofeed_Parse (http.Body response) = inr parsedFeed ->
  gofeed.Feed.Updated parsedFeed ≠ ""%string ->
  gofeed.Feed.UpdatedParsed parsedFeed = None ->
  Fetch' feed w
  = (Panicked,
     Feed.with_Items
       (Feed.Items feed
        ++ accepted Sanitize (Feed.Refreshed feed) (gofeed.Feed.Items parsedFeed) w) feed,
     snd (Fetch_range Sanitize feed (gofeed.Feed.Items parsedFeed) w)).
Proof.
  intros Hurl Hreq Hdo Hstatus Hparse Hupdated Hnone.
  rewrite (Fetch_parsed feed w request response parsedFeed) by assumption.
  unfold Fetch_finish. now rewrite bool_decide_eq_true_2, Hnone by assumption.
Qed.

End FetchMore.

Lemma Fetch_error_leaves_feed_witness :
  sample_cutoff_feed = sample_cutoff_feed /\ sample_world = sample_world.
Proof.
  apply (Fetch_error_leaves_feed "bookmarks" (fun _ => None) (sample_Do 200)
           (fun _ => inl (ErrExternal "XML syntax error")) (fun text => text)
           (fun _ => "Mon, 01 Jan 0001 00:00:00 UTC"%string)
           sample_cutoff_feed sample_cutoff_feed sample_world sample_world
           (ErrExternal "XML syntax error")).
  reflexivity.
Defined.

Lemma Fetch_items_newest_first_witness :
  StronglySorted (fun a b => FeedItem.Date b <= FeedItem.Date a)
    (Feed.Items (snd (fst (sample_Fetch (sample_Do 200) sample_cutoff_feed)))).
Proof.
  apply (Fetch_items_newest_first "bookmarks" (fun _ => None) (sample_Do 200) sample_Parse
           (fun text => text) (fun _ => "Mon, 01 Jan 0001 00:00:00 UTC"%string)
           sample_cutoff_feed _ sample_world
           (snd (sample_Fetch (sample_Do 200) sample_cutoff_feed))
           sample_request (sample_response 200) sample_parsed).
  - reflexivity.
  - reflexivity.
  - discriminate.
  - reflexivity.
  - vm_compute. reflexivity.
Defined.

Lemma Fetch_items_stable_witness :
  filter (fun item => FeedItem.Date item = 600)
    (Feed.Items (snd (fst (sample_Fetch (sample_Do 200) sample_cutoff_feed))))
  = filter (fun item => FeedItem.Date item = 600) (Feed.Items sample_cutoff_feed)
    ++ filter (fun item => FeedItem.Date item = 600)
         (accepted (fun text => text) (Feed.Refreshed sample_cutoff_feed)
            (gofeed.Feed.Items sample_parsed) sample_world).
Proof.
  apply (Fetch_items_stable "bookmarks" (fun _ => None) (sample_Do 200) sample_Parse
           (fun text => text) (fun _ => "Mon, 01 Jan 0001 00:00:00 UTC"%string)
           sample_cutoff_feed _ sample_world
           (snd (sample_Fetch (sample_Do 200) sample_cutoff_feed))
           sample_request (sample_response 200) sample_parsed).
  - reflexivity.
  - reflexivity.
  - discriminate.
  - reflexivity.
  - vm_compute. reflexivity.
Defined.

Lemma Fetch_metadata_witness :
  let feed' := snd (fst (sample_Fetch (sample_Do 200) sample_cutoff_feed)) in
  let w' := snd (sample_Fetch (sample_Do 200) sample_cutoff_feed) in
  Feed.Etag feed'
  = default ""%string (http.RespHeader (sample_response 200) !! "Etag"%string)
  /\ Feed.Refreshed feed' = wall sample_world (Nat.pred (reads w'))
  /\ Feed.Title feed'
     = (if bool_decide (Feed.Title sample_cutoff_feed = ""%string)
        then gofeed.Feed.Title sample_parsed else Feed.Title sample_cutoff_feed)
  /\ Feed.LastAuthored feed'
     = (if bool_decide (gofeed.Feed.Updated sample_parsed = ""%string)
        then Feed.LastAuthored sample_cutoff_feed
        else default (Feed.LastAuthored sample_cutoff_feed)
               (gofeed.Feed.UpdatedParsed sample_parsed)).
Proof.
  apply (Fetch_metadata "bookmarks" (fun _ => None) (sample_Do 200) sample_Parse
           (fun text => text) (fun _ => "Mon, 01 Jan 0001 00:00:00 UTC"%string)
           sample_cutoff_feed _ sample_world _
           sample_request (sample_response 200) sample_parsed).
  - reflexivity.
  - reflexivity.
  - discriminate.
  - reflexivity.
  - vm_compute. reflexivity.
Defined.

Example Fetch_sample_metadata :
  let feed' := snd (fst (sample_Fetch (sample_Do 200) sample_cutoff_feed)) in
  Feed.Etag feed' = "def"%string /\ Feed.Title feed' = "A feed"%string
  /\ Feed.Refreshed feed' = 1015 /\ FeedItem.Date <$> Feed.Items feed' = [1013; 600; 500].
Proof. vm_compute. repeat split; reflexivity. Qed.

Lemma Fetch_request_validators_witness :
  http.Method sample_request = "GET"%string
  /\ http.URL sample_request = Feed.URL sample_cutoff_feed
  /\ http.Header sample_request !! "User-Agent"%string = Some "bookmarks"%string
  /\ http.Header sample_request !! "If-None-Match"%string
     = (if bool_decide (Feed.Etag sample_cutoff_feed = ""%string)
        then None else Some (Feed.Etag sample_cutoff_feed))
  /\ http.Header sample_request !! "If-Modified-Since"%string
     = (if bool_decide (Feed.Etag sample_cutoff_feed = ""%string)
           && negb (Feed.Refreshed sample_cutoff_feed =? 0)
        then Some "Mon, 01 Jan 0001 00:00:00 UTC"%string else None).
Proof.
  apply (Fetch_request_validators "bookmarks" (fun _ => None)
           (fun _ => "Mon, 01 Jan 0001 00:00:00 UTC"%string) sample_cutoff_feed sample_request).
  reflexivity.
Defined.

Lemma Fetch_unparsed_update_panics_witness :
  sample_Fetch_undated sample_cutoff_feed
  = (Panicked,
     Feed.with_Items
       (Feed.Items sample_cutoff_feed
        ++ accepted (fun text => text) (Feed.Refreshed sample_cutoff_feed)
             (gofeed.Feed.Items sample_parsed_undated) sample_world) sample_cutoff_feed,
     snd (Fetch_range (fun text => text) sample_cutoff_feed
            (gofeed.Feed.Items sample_parsed_undated) sample_world)).
Proof.
  apply (Fetch_unparsed_update_panics "bookmarks" (fun _ => None) (sample_Do 200)
           (fun _ => inr sample_parsed_undated) (fun text => text)
           (fun _ => "Mon, 01 Jan 0001 00:00:00 UTC"%string)
           sample_cutoff_feed sample_world sample_request (sample_response 200)
           sample_parsed_undated).
  - discriminate.
  - reflexivity.
  - reflexivity.
  - discriminate.
  - reflexivity.
  - discriminate.
  - reflexivity.
Defined.

(** ** The store: lookups, writes and what they keep *)

Lemma existsb_none_inv {A} (P : A -> Prop) `{!forall x, Decision (P x)} (l : list A) :
  existsb (fun x => bool_decide (P x)) l = false -> forall x, x ∈ l -> ~ P x.
Proof.
  induction l as [|y l IH]; intros Hnone x Hx; [inversion Hx|].
  cbn in Hnone. apply orb_false_iff in Hnone as [Hy Hl].
  apply elem_of_cons in Hx as [->|Hx].
  - now apply bool_decide_eq_false in Hy.
  - now apply IH.
Qed.

Lemma exec_insert_inv (record : Feed) (rows rows' : list Feed) :
  exec_insert record rows = inr rows' ->
  rows' = rows ++ [record]
  /\ (forall r, r ∈ rows -> Feed.ID r ≠ Feed.ID record)
  /\ (forall r, r ∈ rows -> Feed.URL r ≠ Feed.URL record).
Proof.
  unfold exec_insert.
  destruct (existsb (fun r => bool_decide (Feed.ID r = Feed.ID record)) rows) eqn:Hid;
    [discriminate|].
  destruct (existsb (fun r => bool_decide (Feed.URL r = Feed.URL record)) rows) eqn:Hurl;
    [discriminate|].
  intros [= <-]. split; [reflexivity|]. split.
  - exact (existsb_none_inv (fun r => Feed.ID r = Feed.ID record) rows Hid).
  - exact (existsb_none_inv (fun r => Feed.URL r = Feed.URL record) rows Hurl).
Qed.

Lemma feeds_ok_snoc (rows : list Feed) (record : Feed) :
  feeds_ok rows ->
  (forall r, r ∈ rows -> Feed.ID r ≠ Feed.ID record) ->
  (forall r, r ∈ rows -> Feed.URL r ≠ Feed.URL record) ->
  Feed.ID record ≠ ""%string ->
  feeds_ok (rows ++ [record]).
Proof.
  intros (Hids & Hurls & Hnonempty) Hid Hurl Hrecord. repeat split.
  - rewrite fmap_app. apply NoDup_app. split; [exact Hids|]. split; [|apply NoDup_singleton].
    intros x Hx Hx'. apply list_elem_of_singleton in Hx'. subst x.
    apply list_elem_of_fmap_1 in Hx as (r & Hr & Hin). now apply (Hid r Hin).
  - rewrite fmap_app. apply NoDup_app. split; [exact Hurls|]. split; [|apply NoDup_singleton].
    intros x Hx Hx'. apply list_elem_of_singleton in Hx'. subst x.
    apply list_elem_of_fmap_1 in Hx as (r & Hr & Hin). now apply (Hurl r Hin).
  - intros r Hr. apply elem_of_app in Hr as [Hr|Hr]; [now apply Hnonempty|].
    apply list_elem_of_singleton in Hr. now subst r.
Qed.

Lemma feeds_ok_filter (P : Feed -> Prop) `{!forall r, Decision (P r)} (rows : list Feed) :
  feeds_ok rows -> feeds_ok (filter P rows).
Proof.
  intros (Hids & Hurls & Hnonempty). repeat split.
  - clear Hurls Hnonempty. induction rows as [|r rows IH]; [constructor|].
    rewrite fmap_cons in Hids. apply NoDup_cons in Hids as [Hfresh Hids].
    rewrite filter_cons. destruct (decide (P r)); [|now apply IH].
    rewrite fmap_cons. apply NoDup_cons. split; [|now apply IH].
    intros Hin. apply Hfresh. apply list_elem_of_fmap_1 in Hin as (y & Hy & Hin).
    apply list_elem_of_filter in Hin as [_ Hin]. rewrite Hy. now apply list_elem_of_fmap_2.
  - clear Hids Hnonempty. induction rows as [|r rows IH]; [constructor|].
    rewrite fmap_cons in Hurls. apply NoDup_cons in Hurls as [Hfresh Hurls].
    rewrite filter_cons. destruct (decide (P r)); [|now apply IH].
    rewrite fmap_cons. apply NoDup_cons. split; [|now apply IH].
    intros Hin. apply Hfresh. apply list_elem_of_fmap_1 in Hin as (y & Hy & Hin).
    apply list_elem_of_filter in Hin as [_ Hin]. rewrite Hy. now apply list_elem_of_fmap_2.
  - intros r Hr. apply list_elem_of_filter in Hr as [_ Hr]. now apply Hnonempty.
Qed.

Section StoreMore.

Variable sql_like : string -> string -> bool.
Variable sql_refreshed_before : Feed -> Time -> bool.
Variable sql_page : Z -> Z -> list Feed -> list Feed.
Variable sql_order : list Feed -> list Feed.

Local Abbreviation FeedPersist' := (FeedPersist sql_like sql_refreshed_before).
Local Abbreviation FeedGet' := (FeedGet sql_like sql_refreshed_before).
Local Abbreviation FeedDelete' := (FeedDelete sql_like sql_refreshed_before).
Local Abbreviation FeedList' := (FeedList sql_like sql_refreshed_before sql_page sql_order).

Lemma select_by_id (id : string) (rows : list Feed) :
  exec_select sql_like sql_refreshed_before [IdIs id] rows = inr (filter (fun r => Feed.ID r = id) rows).
Proof.
  unfold exec_select. cbn [forallb Cond_resolves andb]. f_equal.
  apply list_filter_iff. intros r. unfold Where. cbn [forallb Cond_holds].
  rewrite andb_true_r. apply bool_decide_spec.
Qed.

Lemma exec_update_inv (feed : Feed) (rows rows' : list Feed) :
  exec_update sql_like sql_refreshed_before feed [IdIs (Feed.ID feed)] rows = inr rows' ->
  rows' = map (updated_row feed) rows /\ NoDup (Feed.URL <$> rows').
Proof.
  unfold exec_update. cbn [forallb Cond_resolves andb].
  assert (map (fun r => if Where sql_like sql_refreshed_before [IdIs (Feed.ID feed)] r
                        then set_columns feed r else r) rows
          = map (updated_row feed) rows) as ->.
  { apply map_ext. intros r. unfold Where, updated_row. cbn [forallb Cond_holds].
    now rewrite andb_true_r. }
  case_bool_decide as Hurls; [|discriminate]. intros [= <-]. now split.
Qed.

Lemma updated_row_ID (feed row : Feed) : Feed.ID (updated_row feed row) = Feed.ID row.
Proof. unfold updated_row. now case_bool_decide. Qed.

Lemma exec_update_ok (feed : Feed) (rows rows' : list Feed) :
  feeds_ok rows ->
  exec_update sql_like sql_refreshed_before feed [IdIs (Feed.ID feed)] rows = inr rows' ->
  feeds_ok rows'.
Proof.
  intros (Hids & _ & Hnonempty) Hupdate.
  apply exec_update_inv in Hupdate as [-> Hurls]. repeat split.
  - rewrite (fmap_map_same Feed.ID); [exact Hids|]. intros r _. apply updated_row_ID.
  - exact Hurls.
  - intros y Hy. apply elem_of_map_inv in Hy as (r & -> & Hr).
    rewrite updated_row_ID. now apply Hnonempty.
Qed.

(** *** [FeedPersist], path by path *)

Lemma FeedPersist_lookup_cases (rows : list Feed) (feed : Feed) :
  FeedPersist_lookup sql_like sql_refreshed_before rows feed = feed
  \/ exists r, r ∈ rows /\ Feed.URL r = Feed.URL feed
               /\ FeedPersist_lookup sql_like sql_refreshed_before rows feed
                  = Feed.with_Created (Feed.Created r) (Feed.with_ID (Feed.ID r) feed).
Proof.
  unfold FeedPersist_lookup. rewrite select_by_url.
  destruct (filter (fun r => Feed.URL r = Feed.URL feed) rows) as [|r rest] eqn:E;
    [now left|].
  right. exists r. split; [|split; [|reflexivity]].
  - eapply list_elem_of_filter. rewrite E. apply list_elem_of_here.
  - assert (r ∈ filter (fun r => Feed.URL r = Feed.URL feed) rows) as Hr
        by (rewrite E; apply list_elem_of_here).
    now apply list_elem_of_filter in Hr.
Qed.

(** The two ways a call with a URL ends: an INSERT of a new record, or an
    UPDATE keyed by the ID the feed has after the lookup. *)
Lemma FeedPersist_outcome (store : Store) (feed : Feed) (w : World) :
  Feed.URL feed ≠ ""%string ->
  let feed1 := fst (FeedPersist_defaults feed w) in
  let w1 := snd (FeedPersist_defaults feed w) in
  let feed2 := FeedPersist_lookup sql_like sql_refreshed_before (feeds store) feed1 in
  let lookup := SelectStmt ["id"; "created"]%string [UrlIs (Feed.URL feed)] in
  (Feed.ID feed2 = ""%string
   /\ let record := Feed.with_ID (uuids w (drawn w)) feed2 in
      exists err rows,
        FeedPersist' store feed w
        = (err, record,
           mkStore rows (journal store ++ [lookup; InsertStmt feeds_columns record]),
           snd (generateUUID w1))
        /\ ((err = None /\ exec_insert record (feeds store) = inr rows)
            \/ (err ≠ None /\ rows = feeds store)))
  \/ (Feed.ID feed2 ≠ ""%string
      /\ exists err rows,
        FeedPersist' store feed w
        = (err, feed2,
           mkStore rows
             (journal store ++ [lookup; UpdateStmt update_columns feed2 [IdIs (Feed.ID feed2)]]),
           w1)
        /\ ((err = None
             /\ exec_update sql_like sql_refreshed_before feed2 [IdIs (Feed.ID feed2)] (feeds store) = inr rows)
            \/ (err ≠ None /\ rows = feeds store))).
Proof.
  intros Hurl feed1 w1 feed2 lookup.
  destruct (FeedPersist_defaults_frame feed w) as (_ & Hurl1 & _ & Huuids & Hdrawn).
  fold feed1 in Hurl1. fold w1 in Huuids, Hdrawn.
  unfold FeedPersist. rewrite bool_decide_eq_false_2 by assumption.
  rewrite (surjective_pairing (FeedPersist_defaults feed w)). fold feed1 w1.
  cbn [issue feeds journal]. fold feed2. rewrite Hurl1. fold lookup.
  destruct (decide (Feed.ID feed2 = ""%string)) as [Hid|Hid].
  - left. split; [exact Hid|].
    set (record := Feed.with_ID (uuids w (drawn w)) feed2).
    rewrite bool_decide_eq_true_2 by assumption.
    cbn [generateUUID fst snd]. rewrite Huuids, Hdrawn. fold record.
    destruct (exec_insert record (feeds store)) as [err|rows] eqn:E.
    + exists (Some err), (feeds store). split; [|right; split; [discriminate|reflexivity]].
      unfold with_feeds, issue. cbn [feeds journal]. now rewrite <- app_assoc.
    + exists None, rows. split; [|left; split; reflexivity].
      unfold with_feeds, issue. cbn [feeds journal]. now rewrite <- app_assoc.
  - right. split; [exact Hid|].
    rewrite bool_decide_eq_false_2 by assumption.
    destruct (exec_update sql_like sql_refreshed_before feed2 [IdIs (Feed.ID feed2)] (feeds store))
      as [err|rows] eqn:E.
    + exists (Some err), (feeds store). split; [|right; split; [discriminate|reflexivity]].
      unfold with_feeds, issue. cbn [feeds journal]. now rewrite <- app_assoc.
    + exists None, rows. split; [|left; split; reflexivity].
      unfold with_feeds, issue. cbn [feeds journal]. now rewrite <- app_assoc.
Qed.

(** X10: [FeedPersist] keeps the table as the schema wants it (ids
    unique and not empty, urls unique), whatever the feed and whether the
    call succeeds, as long as the generator does not answer with the empty
    ID. *)
Theorem FeedPersist_keeps_feeds_ok (store : Store) (feed : Feed) (w : World) :
  feeds_ok (feeds store) ->
  uuids w (drawn w) ≠ ""%string ->
  feeds_ok (feeds (snd (fst (FeedPersist' store feed w)))).
Proof.
  intros Hok Hgen.
  destruct (decide (Feed.URL feed = ""%string)) as [Hurl|Hurl].
  { unfold FeedPersist. now rewrite bool_decide_eq_true_2. }
  destruct (FeedPersist_outcome store feed w Hurl)
    as [(_ & err & rows & -> & Hrows)|(_ & err & rows & -> & Hrows)]; cbn [fst snd feeds].
  - destruct Hrows as [(_ & Hinsert)|(_ & ->)]; [|exact Hok].
    apply exec_insert_inv in Hinsert as (-> & Hid & Hurl').
    now apply feeds_ok_snoc.
  - destruct Hrows as [(_ & Hupdate)|(_ & ->)]; [|exact Hok].
    now apply exec_update_ok in Hupdate.
Qed.

(** X11: [FeedPersist] never removes a row and never touches a row whose
    id is not the ID the feed ends with: such a row is in the table
    afterwards as it was, and the table has as many rows as before, or one
    more. *)
Theorem FeedPersist_frame (store : Store) (feed : Feed) (w : World) :
  let feed' := snd (fst (fst (FeedPersist' store feed w))) in
  let store' := snd (fst (FeedPersist' store feed w)) in
  (forall r, r ∈ feeds store -> Feed.ID r ≠ Feed.ID feed' -> r ∈ feeds store')
  /\ (length (feeds store) <= length (feeds store') <= S (length (feeds store)))%nat.
Proof.
  destruct (decide (Feed.URL feed = ""%string)) as [Hurl|Hurl].
  { unfold FeedPersist. rewrite bool_decide_eq_true_2 by assumption. cbn. split; [auto|lia]. }
  destruct (FeedPersist_outcome store feed w Hurl)
    as [(_ & err & rows & -> & Hrows)|(_ & err & rows & -> & Hrows)]; cbn [fst snd feeds].
  - destruct Hrows as [(_ & Hinsert)|(_ & ->)]; [|split; [auto|lia]].
    apply exec_insert_inv in Hinsert as (-> & _). split.
    + intros r Hr _. apply elem_of_app. now left.
    + rewrite length_app. cbn. lia.
  - destruct Hrows as [(_ & Hupdate)|(_ & ->)]; [|split; [auto|lia]].
    apply exec_update_inv in Hupdate as [-> _]. split.
    + intros r Hr Hid. replace r with (updated_row
        (FeedPersist_lookup sql_like sql_refreshed_before (feeds store) (FeedPersist_defaults feed w).1) r).
      * now apply elem_of_map.
      * unfold updated_row. now rewrite bool_decide_eq_false_2.
    + rewrite length_map. lia.
Qed.

Lemma FeedPersist_defaults_fields (feed : Feed) (w : World) :
  let feed1 := fst (FeedPersist_defaults feed w) in
  let w1 := snd (FeedPersist_defaults feed w) in
  Feed.Title feed1
  = (if bool_decide (Feed.Title feed = ""%string) then Feed.URL feed else Feed.Title feed)
  /\ Feed.Tags feed1 = Some (tag_list (Feed.Tags feed))
  /\ Feed.Refreshed feed1
     = (if IsZero (Feed.Refreshed feed)
        then wall w (reads w + (if IsZero (Feed.Created feed) then 1 else 0))%nat
             - 604800000000000
        else Feed.Refreshed feed)
  /\ Feed.Updated feed1 = wall w (Nat.pred (reads w1))
  /\ Feed.Items feed1 = Feed.Items feed /\ Feed.Etag feed1 = Feed.Etag feed
  /\ Feed.LastAuthored feed1 = Feed.LastAuthored feed.
Proof.
  unfold FeedPersist_defaults.
  destruct feed as [id created updated refreshed authored title url etag tags items].
  cbn -[IsZero].
  destruct (bool_decide (title = ""%string)); cbn -[IsZero];
    destruct (IsZero created); cbn -[IsZero];
    destruct (IsZero refreshed); cbn -[IsZero];
    destruct tags; cbn -[IsZero]; unfold Add, Hour;
    rewrite ?Nat.add_0_r, ?Nat.add_1_r; repeat split; reflexivity || lia.
Qed.

(** The lookup changes the ID and the Created time of the feed, nothing
    else. *)
Lemma FeedPersist_lookup_fields (rows : list Feed) (feed : Feed) :
  let feed2 := FeedPersist_lookup sql_like sql_refreshed_before rows feed in
  Feed.Title feed2 = Feed.Title feed /\ Feed.Tags feed2 = Feed.Tags feed
  /\ Feed.Refreshed feed2 = Feed.Refreshed feed /\ Feed.Updated feed2 = Feed.Updated feed
  /\ Feed.URL feed2 = Feed.URL feed /\ Feed.Items feed2 = Feed.Items feed
  /\ Feed.Etag feed2 = Feed.Etag feed /\ Feed.LastAuthored feed2 = Feed.LastAuthored feed.
Proof.
  cbn zeta. destruct (FeedPersist_lookup_cases rows feed) as [->|(r & _ & _ & ->)];
    destruct feed; cbn; repeat split; reflexivity.
Qed.

(** X12: a [FeedPersist] with a URL hands back the feed with its defaults
    filled in, whether the write succeeds or not: an empty title becomes the
    URL, nil tags become the empty list, a zero Refreshed becomes the clock's
    reading less seven days, Updated is the last reading of the clock; URL,
    Items, Etag and LastAuthored are the caller's. *)
Theorem FeedPersist_applies_defaults (store : Store) (feed : Feed) (w : World) :
  Feed.URL feed ≠ ""%string ->
  let feed' := snd (fst (fst (FeedPersist' store feed w))) in
  let w' := snd (FeedPersist' store feed w) in
  Feed.Title feed'
  = (if bool_decide (Feed.Title feed = ""%string) then Feed.URL feed else Feed.Title feed)
  /\ Feed.Tags feed' = Some (tag_list (Feed.Tags feed))
  /\ Feed.Refreshed feed'
     = (if IsZero (Feed.Refreshed feed)
        then wall w (reads w + (if IsZero (Feed.Created feed) then 1 else 0))%nat
             - 604800000000000
        else Feed.Refreshed feed)
  /\ Feed.Updated feed' = wall w (Nat.pred (reads w'))
  /\ Feed.URL feed' = Feed.URL feed
  /\ Feed.Items feed' = Feed.Items feed /\ Feed.Etag feed' = Feed.Etag feed
  /\ Feed.LastAuthored feed' = Feed.LastAuthored feed.
Proof.
  intros Hurl.
  destruct (FeedPersist_defaults_fields feed w)
    as (Htitle & Htags & Hrefreshed & Hupdated & Hitems & Hetag & Hauthored).
  destruct (FeedPersist_defaults_frame feed w) as (_ & Hurl1 & _).
  destruct (FeedPersist_lookup_fields (feeds store) (FeedPersist_defaults feed w).1)
    as (Htitle2 & Htags2 & Hrefreshed2 & Hupdated2 & Hurl2 & Hitems2 & Hetag2 & Hauthored2).
  destruct (FeedPersist_outcome store feed w Hurl)
    as [(_ & err & rows & -> & _)|(Hid & err & rows & -> & _)]; cbn [fst snd].
  - cbn [generateUUID snd reads].
    destruct (FeedPersist_lookup sql_like sql_refreshed_before (feeds store) (FeedPersist_defaults feed w).1).
    cbn in *. repeat split; congruence.
  - repeat split; congruence.
Qed.

(** *** [FeedGet] *)

Lemma FeedGet_found (store : Store) (probe r : Feed) :
  feeds_ok (feeds store) -> r ∈ feeds store ->
  (Feed.ID probe ≠ ""%string /\ Feed.ID r = Feed.ID probe)
  \/ (Feed.ID probe = ""%string /\ Feed.URL probe ≠ ""%string /\ Feed.URL r = Feed.URL probe) ->
  fst (FeedGet' store probe) = (None, r).
Proof.
  intros (Hids & Hurls & _) Hin [[Hid Hsame]|(Hid & Hurl & Hsame)]; unfold FeedGet.
  - rewrite bool_decide_eq_true_2 by assumption. cbn [issue feeds].
    rewrite select_by_id, <- Hsame, (NoDup_fmap_filter Feed.ID (feeds store) r) by assumption.
    reflexivity.
  - rewrite bool_decide_eq_false_2 by auto. rewrite bool_decide_eq_true_2 by assumption.
    cbn [issue feeds].
    rewrite select_by_url, <- Hsame, (NoDup_fmap_filter Feed.URL (feeds store) r)
      by assumption.
    reflexivity.
Qed.

(** X13: on a table with unique ids and urls, [FeedGet] loads the row
    with the feed's ID when the feed has one, whatever its URL says, and
    otherwise the row with the feed's URL; the table is not changed and one
    SELECT is issued. *)
Theorem FeedGet_finds_row (store : Store) (probe r : Feed) :
  feeds_ok (feeds store) -> r ∈ feeds store ->
  (Feed.ID probe ≠ ""%string /\ Feed.ID r = Feed.ID probe)
  \/ (Feed.ID probe = ""%string /\ Feed.URL probe ≠ ""%string /\ Feed.URL r = Feed.URL probe) ->
  exists conds,
    FeedGet' store probe = (None, r, mkStore (feeds store) (journal store ++ [SelectStmt [] conds]))
    /\ conds = (if bool_decide (Feed.ID probe = ""%string)
                then [UrlIs (Feed.URL probe)] else [IdIs (Feed.ID probe)]).
Proof.
  intros Hok Hin Hkey.
  pose proof (FeedGet_found store probe r Hok Hin Hkey) as Hfound.
  unfold FeedGet in *. destruct Hkey as [[Hid _]|(Hid & Hurl & _)].
  - rewrite bool_decide_eq_true_2 in * by assumption.
    rewrite (bool_decide_eq_false_2 (Feed.ID probe = ""%string)) by assumption.
    eexists. split; [|reflexivity].
    destruct (LoadValue _ probe) as [err feed']. cbn [fst] in Hfound.
    injection Hfound as -> ->. reflexivity.
  - rewrite (bool_decide_eq_false_2 (Feed.ID probe ≠ ""%string)) in * by auto.
    rewrite (bool_decide_eq_true_2 (Feed.URL probe ≠ ""%string)) in * by assumption.
    rewrite (bool_decide_eq_true_2 (Feed.ID probe = ""%string)) by assumption.
    eexists. split; [|reflexivity].
    destruct (LoadValue _ probe) as [err feed']. cbn [fst] in Hfound.
    injection Hfound as -> ->. reflexivity.
Qed.


(** *** [FeedPersist] followed by [FeedGet] *)

Lemma FeedPersist_existing_row (store : Store) (feed r : Feed) (w : World) :
  feeds_ok (feeds store) -> r ∈ feeds store -> Feed.URL r = Feed.URL feed ->
  Feed.URL feed ≠ ""%string ->
  exists feed' store' w',
    FeedPersist' store feed w = (None, feed', store', w')
    /\ feeds_ok (feeds store') /\ feed' ∈ feeds store'
    /\ Feed.URL feed' = Feed.URL feed /\ Feed.ID feed' = Feed.ID r
    /\ length (feeds store') = length (feeds store).
Proof.
  intros Hok Hin Hurl Hpresent.
  destruct (FeedPersist_defaults_frame feed w) as (_ & Hurl1 & _).
  destruct (FeedPersist_outcome store feed w Hpresent) as [(Hid & _)|(Hid & err & rows & Hcall & Hrows)];
    rewrite (FeedPersist_lookup_found sql_like sql_refreshed_before (feeds store) _ r) in * by congruence.
  { destruct Hok as (_ & _ & Hnonempty). now apply Hnonempty in Hin. }
  set (feed2 := Feed.with_Created (Feed.Created r)
                  (Feed.with_ID (Feed.ID r) (FeedPersist_defaults feed w).1)) in *.
  assert (Feed.URL feed2 = Feed.URL r) as Hurl2
      by (unfold feed2; destruct (FeedPersist_defaults feed w).1; cbn in *; congruence).
  destruct (exec_update_by_id sql_like sql_refreshed_before (feeds store) feed2 r Hok Hin eq_refl Hurl2)
    as (rows' & Hupdate & Hok' & Hin').
  destruct Hrows as [(-> & Hupdate')|(Herr & _)].
  - assert (rows = rows') as -> by congruence.
    eexists _, _, _. split; [exact Hcall|]. cbn [feeds].
    split; [exact Hok'|]. split; [|split; [congruence|split; [reflexivity|]]].
    + replace feed2 with (set_columns feed2 r); [exact Hin'|].
      unfold feed2. now destruct (FeedPersist_defaults feed w).1.
    + apply exec_update_inv in Hupdate as [-> _]. apply length_map.
  - exfalso. unfold FeedPersist in Hcall.
    rewrite bool_decide_eq_false_2 in Hcall by assumption.
    rewrite (surjective_pairing (FeedPersist_defaults feed w)) in Hcall.
    cbn [issue feeds journal] in Hcall.
    rewrite (FeedPersist_lookup_found sql_like sql_refreshed_before (feeds store) _ r) in Hcall by congruence.
    fold feed2 in Hcall. rewrite bool_decide_eq_false_2 in Hcall by exact Hid.
    cbn [issue feeds] in Hcall. rewrite Hupdate in Hcall. now injection Hcall as <-.
Qed.

(** X15: what [FeedPersist] has stored, [FeedGet] gives back: after a
    call that brings no ID or finds a row with its URL, on a table as the
    schema keeps it and with an unused generator ID, a [FeedGet] by the
    resulting ID, or by the URL alone, loads exactly the feed that
    [FeedPersist] handed back. *)
Theorem FeedPersist_then_FeedGet (store : Store) (feed : Feed) (w : World) :
  feeds_ok (feeds store) ->
  Feed.URL feed ≠ ""%string ->
  (Feed.ID feed = ""%string \/ exists r, r ∈ feeds store /\ Feed.URL r = Feed.URL feed) ->
  uuids w (drawn w) ≠ ""%string ->
  (forall r, r ∈ feeds store -> Feed.ID r ≠ uuids w (drawn w)) ->
  exists feed' store' w',
    FeedPersist' store feed w = (None, feed', store', w')
    /\ forall probe,
         Feed.ID probe = Feed.ID feed'
         \/ (Feed.ID probe = ""%string /\ Feed.URL probe = Feed.URL feed) ->
         fst (FeedGet' store' probe) = (None, feed').
Proof.
  intros Hok Hurl Hfirst Hgen Hfresh.
  assert (exists feed' store' w',
             FeedPersist' store feed w = (None, feed', store', w')
             /\ feeds_ok (feeds store') /\ feed' ∈ feeds store'
             /\ Feed.URL feed' = Feed.URL feed)
    as (feed' & store' & w' & Hcall & Hok' & Hin' & Hurl').
  { destruct (rows_with_url (Feed.URL feed) (feeds store)) as [|r rest] eqn:E.
    - assert (forall r, r ∈ feeds store -> Feed.URL r ≠ Feed.URL feed) as Hmiss.
      { intros r Hr Hr_url. now apply (filter_nil_not_elem_of _ _ r E). }
      destruct Hfirst as [Hcase|(r & Hr & Hr_url)]; [|now apply Hmiss in Hr].
      exact (FeedPersist_new sql_like sql_refreshed_before store feed w Hok Hurl Hmiss Hcase Hgen Hfresh).
    - assert (r ∈ rows_with_url (Feed.URL feed) (feeds store)) as Hr
          by (rewrite E; apply list_elem_of_here).
      apply list_elem_of_filter in Hr as [Hr_url Hr].
      destruct (FeedPersist_existing_row store feed r w Hok Hr Hr_url Hurl)
        as (feed' & store' & w' & Hcall & Hok' & Hin' & Hurl' & _).
      now exists feed', store', w'. }
  exists feed', store', w'. split; [exact Hcall|].
  intros probe Hprobe. apply FeedGet_found; [exact Hok'|exact Hin'|].
  destruct Hprobe as [Hid|[Hid Hsame]].
  - left. split; [|congruence]. rewrite Hid.
    destruct Hok' as (_ & _ & Hnonempty). now apply Hnonempty.
  - right. repeat split; congruence.
Qed.

(** *** [FeedDelete] *)

Lemma FeedDelete_where_resolves (feed : Feed) :
  forallb (Cond_resolves "feeds") (FeedDelete_where feed) = true.
Proof.
  unfold FeedDelete_where.
  destruct (bool_decide (Feed.ID feed ≠ ""%string)),
    (bool_decide (Feed.Title feed ≠ ""%string)); reflexivity.
Qed.

Lemma FeedDelete_where_holds (feed r : Feed) :
  Where sql_like sql_refreshed_before (FeedDelete_where feed) r
  <-> (Feed.ID feed ≠ ""%string -> Feed.ID r = Feed.ID feed)
      /\ (Feed.Title feed ≠ ""%string -> Feed.URL r = Feed.URL feed).
Proof.
  unfold Where, FeedDelete_where.
  case_bool_decide as Hid; case_bool_decide as Htitle;
    cbn [app forallb Cond_holds]; rewrite ?andb_true_r, ?andb_True, ?bool_decide_spec;
    intuition.
Qed.

(** X16: as soon as the feed has an ID or a URL, [FeedDelete] returns
    nil, also when no row matches, and removes exactly the rows that meet
    every condition it has added, keeping the others in their order: the
    id is the feed's ID when that is set, and the url is the feed's URL
    when the feed's title is set. *)
Theorem FeedDelete_rows (store : Store) (feed : Feed) :
  Feed.ID feed ≠ ""%string \/ Feed.URL feed ≠ ""%string ->
  FeedDelete' store feed
  = (None,
     mkStore
       (filter (fun r => ~ ((Feed.ID feed ≠ ""%string -> Feed.ID r = Feed.ID feed)
                            /\ (Feed.Title feed ≠ ""%string -> Feed.URL r = Feed.URL feed)))
          (feeds store))
       (journal store ++ [DeleteStmt (FeedDelete_where feed)])).
Proof.
  intros Hkey. unfold FeedDelete.
  assert (bool_decide (Feed.ID feed = ""%string) && bool_decide (Feed.URL feed = ""%string)
          = false) as ->.
  { destruct Hkey as [Hid|Hurl].
    - now rewrite (bool_decide_eq_false_2 (Feed.ID feed = ""%string)).
    - rewrite (bool_decide_eq_false_2 (Feed.URL feed = ""%string)) by assumption.
      apply andb_false_r. }
  unfold exec_delete. rewrite FeedDelete_where_resolves.
  unfold with_feeds, issue. cbn [feeds journal]. do 2 f_equal.
  apply list_filter_iff. intros r.
  rewrite <- FeedDelete_where_holds. apply negb_True.
Qed.

Lemma filter_none {A} (P : A -> Prop) `{!forall x, Decision (P x)} (l : list A) :
  (forall x, x ∈ l -> ~ P x) -> filter P l = [].
Proof.
  induction l as [|x l IH]; intros Hnone; [reflexivity|].
  rewrite filter_cons_False by (apply Hnone, list_elem_of_here).
  apply IH. intros y Hy. apply Hnone. now apply list_elem_of_further.
Qed.

Lemma filter_twice {A} (P : A -> Prop) `{!forall x, Decision (P x)} (l : list A) :
  filter P (filter P l) = filter P l.
Proof.
  induction l as [|x l IH]; [reflexivity|].
  rewrite (filter_cons _ x l). destruct (decide (P x)) as [HP|HP]; [|exact IH].
  now rewrite filter_cons_True, IH.
Qed.

Lemma FeedDelete_feeds (store : Store) (feed : Feed) :
  feeds (snd (FeedDelete' store feed))
  = if bool_decide (Feed.ID feed = ""%string) && bool_decide (Feed.URL feed = ""%string)
    then feeds store
    else filter (fun r => negb (Where sql_like sql_refreshed_before (FeedDelete_where feed) r)) (feeds store).
Proof.
  unfold FeedDelete.
  destruct (bool_decide (Feed.ID feed = ""%string) && bool_decide (Feed.URL feed = ""%string));
    [reflexivity|].
  unfold exec_delete. now rewrite FeedDelete_where_resolves.
Qed.

(** X17: [FeedDelete] only takes rows away: every row of the table
    afterwards was in it before, a table with unique ids and urls stays
    one, and a second call with the same feed deletes nothing more. *)
Theorem FeedDelete_only_removes (store : Store) (feed : Feed) :
  let store' := snd (FeedDelete' store feed) in
  (forall r, r ∈ feeds store' -> r ∈ feeds store)
  /\ (feeds_ok (feeds store) -> feeds_ok (feeds store'))
  /\ feeds (snd (FeedDelete' store' feed)) = feeds store'.
Proof.
  cbn zeta. rewrite (FeedDelete_feeds (snd (FeedDelete' store feed)) feed).
  rewrite (FeedDelete_feeds store feed).
  destruct (bool_decide (Feed.ID feed = ""%string) && bool_decide (Feed.URL feed = ""%string)).
  - split; [auto|split; [auto|reflexivity]].
  - split; [|split].
    + intros r Hr. now apply list_elem_of_filter in Hr.
    + intros Hok. now apply feeds_ok_filter.
    + apply filter_twice.
Qed.

(** X18: after a [FeedDelete] by ID alone (no title), or by URL alone
    (no ID, a title), a [FeedGet] with the same feed finds no row. *)
Theorem FeedDelete_then_FeedGet (store : Store) (feed : Feed) :
  (Feed.ID feed ≠ ""%string /\ Feed.Title feed = ""%string)
  \/ (Feed.ID feed = ""%string /\ Feed.URL feed ≠ ""%string /\ Feed.Title feed ≠ ""%string) ->
  fst (FeedGet' (snd (FeedDelete' store feed)) feed) = (Some ErrNoRows, feed).
Proof.
  intros Hkey.
  assert (forall r, r ∈ feeds (snd (FeedDelete' store feed)) ->
                    ~ Where sql_like sql_refreshed_before (FeedDelete_where feed) r) as Hkept.
  { intros r Hr. rewrite FeedDelete_feeds in Hr.
    assert (bool_decide (Feed.ID feed = ""%string) && bool_decide (Feed.URL feed = ""%string)
            = false) as Hguard.
    { destruct Hkey as [[Hid _]|(_ & Hurl & _)].
      - now rewrite (bool_decide_eq_false_2 (Feed.ID feed = ""%string)).
      - rewrite (bool_decide_eq_false_2 (Feed.URL feed = ""%string)) by assumption.
        apply andb_false_r. }
    rewrite Hguard in Hr. apply list_elem_of_filter in Hr as [Hr _]. now apply negb_True. }
  unfold FeedGet. cbn [issue feeds].
  destruct Hkey as [[Hid Htitle]|(Hid & Hurl & Htitle)].
  - rewrite bool_decide_eq_true_2 by assumption. rewrite select_by_id.
    rewrite filter_none; [reflexivity|]. intros r Hr Hsame.
    apply (Hkept r Hr), FeedDelete_where_holds. split; [auto|].
    intros Hne. now destruct Hne.
  - rewrite (bool_decide_eq_false_2 (Feed.ID feed ≠ ""%string)) by auto.
    rewrite bool_decide_eq_true_2 by assumption. rewrite select_by_url.
    rewrite filter_none; [reflexivity|]. intros r Hr Hsame.
    apply (Hkept r Hr), FeedDelete_where_holds. split; [|auto].
    intros Hne. now destruct Hne.
Qed.

(** *** [FeedList] *)



End StoreMore.

Lemma FeedPersist_keeps_feeds_ok_witness :
  feeds_ok
    (feeds (snd (fst (FeedPersist sample_like sample_refreshed_before sample_store
                        (sample_feed "r2" "http://a/feed.xml" "" []) sample_world)))).
Proof.
  apply (FeedPersist_keeps_feeds_ok sample_like sample_refreshed_before sample_store
           (sample_feed "r2" "http://a/feed.xml" "" []) sample_world).
  - exact sample_store_ok.
  - discriminate.
Defined.

Lemma FeedPersist_applies_defaults_witness :
  let feed := sample_feed "" "http://d/feed.xml" "" [] in
  let feed' := snd (fst (fst (FeedPersist sample_like sample_refreshed_before sample_store feed sample_world))) in
  let w' := snd (FeedPersist sample_like sample_refreshed_before sample_store feed sample_world) in
  Feed.Title feed'
  = (if bool_decide (Feed.Title feed = ""%string) then Feed.URL feed else Feed.Title feed)
  /\ Feed.Tags feed' = Some (tag_list (Feed.Tags feed))
  /\ Feed.Refreshed feed'
     = (if IsZero (Feed.Refreshed feed)
        then wall sample_world
               (reads sample_world + (if IsZero (Feed.Created feed) then 1 else 0))%nat
             - 604800000000000
        else Feed.Refreshed feed)
  /\ Feed.Updated feed' = wall sample_world (Nat.pred (reads w'))
  /\ Feed.URL feed' = Feed.URL feed
  /\ Feed.Items feed' = Feed.Items feed /\ Feed.Etag feed' = Feed.Etag feed
  /\ Feed.LastAuthored feed' = Feed.LastAuthored feed.
Proof.
  apply (FeedPersist_applies_defaults sample_like sample_refreshed_before sample_store
           (sample_feed "" "http://d/feed.xml" "" []) sample_world).
  discriminate.
Defined.

Example FeedPersist_sample_defaults :
  let feed' :=
    snd (fst (fst (FeedPersist sample_like sample_refreshed_before sample_store
                     (sample_feed "" "http://d/feed.xml" "" []) sample_world))) in
  Feed.Title feed' = "http://d/feed.xml"%string /\ Feed.Tags feed' = Some []
  /\ Feed.Created feed' = 1000 /\ Feed.Refreshed feed' = 1001 - 604800000000000
  /\ Feed.Updated feed' = 1002.
Proof. vm_compute. repeat split; reflexivity. Qed.

Lemma sample_store_r2 : sample_row "r2" "http://b/feed.xml" ["tech"; "muted"] ∈ feeds sample_store.
Proof. apply list_elem_of_In. cbn. auto. Qed.

Lemma FeedGet_finds_row_witness :
  exists conds,
    FeedGet sample_like sample_refreshed_before sample_store (sample_feed "r2" "http://a/feed.xml" "" [])
    = (None, sample_row "r2" "http://b/feed.xml" ["tech"; "muted"],
       mkStore (feeds sample_store) (journal sample_store ++ [SelectStmt [] conds]))
    /\ conds = (if bool_decide (Feed.ID (sample_feed "r2" "http://a/feed.xml" "" []) = ""%string)
                then [UrlIs (Feed.URL (sample_feed "r2" "http://a/feed.xml" "" []))]
                else [IdIs (Feed.ID (sample_feed "r2" "http://a/feed.xml" "" []))]).
Proof.
  apply (FeedGet_finds_row sample_like sample_refreshed_before sample_store
           (sample_feed "r2" "http://a/feed.xml" "" [])
           (sample_row "r2" "http://b/feed.xml" ["tech"; "muted"])).
  - exact sample_store_ok.
  - exact sample_store_r2.
  - left. split; [discriminate|reflexivity].
Defined.


Lemma FeedPersist_then_FeedGet_witness :
  exists feed' store' w',
    FeedPersist sample_like sample_refreshed_before sample_store (sample_feed "" "http://d/feed.xml" "" [])
      sample_world = (None, feed', store', w')
    /\ forall probe,
         Feed.ID probe = Feed.ID feed'
         \/ (Feed.ID probe = ""%string
             /\ Feed.URL probe = Feed.URL (sample_feed "" "http://d/feed.xml" "" [])) ->
         fst (FeedGet sample_like sample_refreshed_before store' probe) = (None, feed').
Proof.
  apply (FeedPersist_then_FeedGet sample_like sample_refreshed_before sample_store
           (sample_feed "" "http://d/feed.xml" "" []) sample_world).
  - exact sample_store_ok.
  - discriminate.
  - left. reflexivity.
  - discriminate.
  - exact sample_store_fresh.
Defined.

Lemma FeedDelete_rows_witness :
  let feed := sample_feed "r2" "" "" [] in
  FeedDelete sample_like sample_refreshed_before sample_store feed
  = (None,
     mkStore
       (filter (fun r => ~ ((Feed.ID feed ≠ ""%string -> Feed.ID r = Feed.ID feed)
                            /\ (Feed.Title feed ≠ ""%string -> Feed.URL r = Feed.URL feed)))
          (feeds sample_store))
       (journal sample_store ++ [DeleteStmt (FeedDelete_where feed)])).
Proof.
  apply (FeedDelete_rows sample_like sample_refreshed_before sample_store (sample_feed "r2" "" "" [])).
  left. discriminate.
Defined.

Example FeedDelete_by_id :
  feeds (snd (FeedDelete sample_like sample_refreshed_before sample_store (sample_feed "r2" "" "" [])))
  = [sample_row "r1" "http://a/feed.xml" ["tech"]; sample_row "r3" "http://c/feed.xml" []]
  /\ feeds (snd (FeedDelete sample_like sample_refreshed_before sample_store
                   (sample_feed "r2" "http://a/feed.xml" "A" [])))
     = feeds sample_store.
Proof. vm_compute. split; reflexivity. Qed.

Lemma FeedDelete_then_FeedGet_witness :
  fst (FeedGet sample_like sample_refreshed_before
         (snd (FeedDelete sample_like sample_refreshed_before sample_store (sample_feed "r2" "" "" [])))
         (sample_feed "r2" "" "" []))
  = (Some ErrNoRows, sample_feed "r2" "" "" []).
Proof.
  apply (FeedDelete_then_FeedGet sample_like sample_refreshed_before sample_store (sample_feed "r2" "" "" [])).
  left. split; [discriminate|reflexivity].
Defined.


(** Of four rows, two pass the search for "news" and the cutoff 500; the
    count is 2 and the second page of one row holds the older of the two. *)
Example FeedList_news_second_page :
  fst (FeedList sample_contains sample_refreshed_before sample_window sample_order sample_news_store
         (FeedListOptions.mk "news" (Some [""%string]) 500 1 1))
  = ([sample_news_row "n1" "go news" "http://a/feed.xml" 100 300], 2).
Proof. vm_compute. reflexivity. Qed.

Example FeedList_all :
  fst (FeedList sample_like sample_refreshed_before sample_page sample_order sample_store
         (FeedListOptions.mk "" None 0 10 0))
  = (feeds sample_store, 3).
Proof. vm_compute. reflexivity. Qed.

(** ** [FeedRefresh]: [Fetch], then [FeedPersist] *)

Section RefreshMore.

Variable defaultUserAgent : string.
Variable url_error : string -> option error.
Variable client_Do : http.Request -> option http.Response * option error.
Variable gofeed_Parse : string -> error + gofeed.Feed.t.
Variable Sanitize : string -> string.
Variable Format_RFC1123 : Time -> string.
Variable sql_like : string -> string -> bool.
Variable sql_refreshed_before : Feed -> Time -> bool.

Local Abbreviation Fetch' :=
  (Fetch defaultUserAgent url_error client_Do gofeed_Parse Sanitize Format_RFC1123).
Local Abbreviation FeedRefresh' :=
  (FeedRefresh defaultUserAgent url_error client_Do gofeed_Parse Sanitize Format_RFC1123
     sql_like sql_refreshed_before).

Lemma Fetch_keeps_URL (feed : Feed) (w : World) :
  Feed.URL (snd (fst (Fetch' feed w))) = Feed.URL feed.
Proof.
  destruct (Fetch_cases defaultUserAgent url_error client_Do gofeed_Parse Sanitize
              Format_RFC1123 feed w)
    as [(result & ->)|[->|(request & response & parsedFeed & Hparsed)]]; try reflexivity.
  destruct Hparsed as (Hurl & Hreq & Hdo & Hstatus & Hparse).
  rewrite (Fetch_parsed defaultUserAgent url_error client_Do gofeed_Parse Sanitize
             Format_RFC1123 feed w request response parsedFeed) by assumption.
  match goal with |- context [Fetch_finish ?f ?r ?p ?v] =>
    destruct (Fetch_finish_frame f r p v) as (_ & -> & _)
  end.
  now destruct feed.
Qed.

Lemma FeedPersist_keeps_content (store : Store) (feed : Feed) (w : World) :
  Feed.URL feed ≠ ""%string ->
  let feed' := snd (fst (fst (FeedPersist sql_like sql_refreshed_before store feed w))) in
  Feed.Items feed' = Feed.Items feed /\ Feed.Etag feed' = Feed.Etag feed.
Proof.
  intros Hurl.
  destruct (FeedPersist_defaults_fields feed w) as (_ & _ & _ & _ & Hitems & Hetag & _).
  destruct (FeedPersist_lookup_fields sql_like sql_refreshed_before (feeds store) (FeedPersist_defaults feed w).1)
    as (_ & _ & _ & _ & _ & Hitems2 & Hetag2 & _).
  destruct (FeedPersist_outcome sql_like sql_refreshed_before store feed w Hurl)
    as [(_ & err & rows & -> & _)|(Hid & err & rows & -> & _)]; cbn [fst snd].
  - destruct (FeedPersist_lookup sql_like sql_refreshed_before (feeds store) (FeedPersist_defaults feed w).1).
    cbn in *. split; congruence.
  - split; congruence.
Qed.

(** X20: a [Fetch] that fails or panics stops the refresh: [FeedRefresh]
    ends the way [Fetch] did and no statement is issued; when [Fetch]
    returned an error, the feed, the clock and the generator are untouched
    as well. *)
Theorem FeedRefresh_fetch_failure (store : Store) (feed feed1 : Feed) (w w1 : World)
  (failure : Outcome) :
  Fetch' feed w = (failure, feed1, w1) ->
  failure ≠ Returned None ->
  FeedRefresh' store feed w = (failure, feed1, store, w1)
  /\ (failure ≠ Panicked -> feed1 = feed /\ w1 = w).
Proof.
  intros Hfetch Hfailure. split.
  - unfold FeedRefresh. rewrite Hfetch. now destruct failure as [[err|]|].
  - intros Hreturned.
    destruct (Fetch_cases defaultUserAgent url_error client_Do gofeed_Parse Sanitize
                Format_RFC1123 feed w)
      as [(result & Hstop)|[Hstop|(request & response & parsedFeed & Hparsed)]].
    + rewrite Hstop in Hfetch. now injection Hfetch as _ <- <-.
    + rewrite Hstop in Hfetch. now injection Hfetch as <- _ _.
    + destruct Hparsed as (Hurl & Hreq & Hdo & Hstatus & Hparse).
      rewrite (Fetch_parsed defaultUserAgent url_error client_Do gofeed_Parse Sanitize
                 Format_RFC1123 feed w request response parsedFeed) in Hfetch by assumption.
      destruct failure as [[err|]|]; try congruence.
      now apply Fetch_finish_no_error in Hfetch.
Qed.

(** X21: refreshing a feed whose URL has a row, on a table as the schema
    keeps it: when [Fetch] returns nil, so does [FeedRefresh]; no row is
    added; the feed handed back is in the table, under the id of the row
    that was there, with the items and the Etag that [Fetch] produced. *)
Theorem FeedRefresh_existing (store : Store) (feed feed1 r : Feed) (w w1 : World) :
  feeds_ok (feeds store) -> r ∈ feeds store -> Feed.URL r = Feed.URL feed ->
  Fetch' feed w = (Returned None, feed1, w1) ->
  exists feed' store' w',
    FeedRefresh' store feed w = (Returned None, feed', store', w')
    /\ feeds_ok (feeds store') /\ length (feeds store') = length (feeds store)
    /\ feed' ∈ feeds store' /\ Feed.ID feed' = Feed.ID r
    /\ Feed.Items feed' = Feed.Items feed1 /\ Feed.Etag feed' = Feed.Etag feed1.
Proof.
  intros Hok Hin Hurl Hfetch.
  pose proof (Fetch_success_has_URL defaultUserAgent url_error client_Do gofeed_Parse
                Sanitize Format_RFC1123 feed feed1 w w1 Hfetch) as Hpresent.
  pose proof (Fetch_keeps_URL feed w) as Hurl1. rewrite Hfetch in Hurl1. cbn [fst snd] in Hurl1.
  destruct (FeedPersist_existing_row sql_like sql_refreshed_before store feed1 r w1 Hok Hin)
    as (feed' & store' & w' & Hcall & Hok' & Hin' & _ & Hid & Hlength);
    [congruence|congruence|].
  pose proof (FeedPersist_keeps_content store feed1 w1) as Hcontent.
  rewrite Hcall in Hcontent. cbn [fst snd] in Hcontent.
  destruct Hcontent as [Hitems Hetag]; [congruence|].
  exists feed', store', w'. unfold FeedRefresh. rewrite Hfetch, Hcall.
  split; [reflexivity|]. split; [exact Hok'|]. repeat split; assumption.
Qed.

End RefreshMore.

Lemma FeedRefresh_fetch_failure_witness :
  FeedRefresh "bookmarks" (fun _ => None) sample_Do_unreachable sample_Parse
    (fun text => text) (fun _ => "Mon, 01 Jan 0001 00:00:00 UTC"%string) sample_like sample_refreshed_before
    sample_store sample_cutoff_feed sample_world
  = (Panicked, sample_cutoff_feed, sample_store, sample_world)
  /\ (Panicked ≠ Panicked -> sample_cutoff_feed = sample_cutoff_feed /\ sample_world = sample_world).
Proof.
  apply (FeedRefresh_fetch_failure "bookmarks" (fun _ => None) sample_Do_unreachable
           sample_Parse (fun text => text) (fun _ => "Mon, 01 Jan 0001 00:00:00 UTC"%string)
           sample_like sample_refreshed_before sample_store sample_cutoff_feed sample_cutoff_feed
           sample_world sample_world Panicked).
  - reflexivity.
  - discriminate.
Defined.

Lemma sample_store_r1 : sample_row "r1" "http://a/feed.xml" ["tech"] ∈ feeds sample_store.
Proof. apply list_elem_of_In. cbn. auto. Qed.

Lemma FeedRefresh_existing_witness :
  exists feed' store' w',
    FeedRefresh "bookmarks" (fun _ => None) (sample_Do 200) sample_Parse
      (fun text => text) (fun _ => "Mon, 01 Jan 0001 00:00:00 UTC"%string) sample_like sample_refreshed_before
      sample_store sample_cutoff_feed sample_world
    = (Returned None, feed', store', w')
    /\ feeds_ok (feeds store') /\ length (feeds store') = length (feeds sample_store)
    /\ feed' ∈ feeds store' /\ Feed.ID feed' = Feed.ID (sample_row "r1" "http://a/feed.xml" ["tech"])
    /\ Feed.Items feed'
       = Feed.Items (snd (fst (sample_Fetch (sample_Do 200) sample_cutoff_feed)))
    /\ Feed.Etag feed'
       = Feed.Etag (snd (fst (sample_Fetch (sample_Do 200) sample_cutoff_feed))).
Proof.
  apply (FeedRefresh_existing "bookmarks" (fun _ => None) (sample_Do 200) sample_Parse
           (fun text => text) (fun _ => "Mon, 01 Jan 0001 00:00:00 UTC"%string) sample_like sample_refreshed_before
           sample_store sample_cutoff_feed _ (sample_row "r1" "http://a/feed.xml" ["tech"])
           sample_world (snd (sample_Fetch (sample_Do 200) sample_cutoff_feed))).
  - exact sample_store_ok.
  - exact sample_store_r1.
  - reflexivity.
  - vm_compute. reflexivity.
Defined.

(** ** The handler of the embedded assets *)

Lemma substring_all (s : string) : String.substring 0 (String.length s) s = s.
Proof. induction s as [|a s IH]; cbn; [reflexivity|]. now rewrite IH. Qed.

Lemma TrimPrefix_slash (name : string) : TrimPrefix ("/" +:+ name) "/" = name.
Proof.
  change ("/" +:+ name)%string
    with (String (Ascii.Ascii true true true true false true false false) name).
  unfold TrimPrefix, HasPrefix. cbn [String.prefix String.length].
  destruct (Ascii.ascii_dec _ _) as [_|Hne]; [|congruence].
  cbn. rewrite ?Nat.sub_0_r.
  assert (String.prefix "" name = true) as -> by now destruct name.
  apply substring_all.
Qed.

Section AssetFacts.

Variable Asset : string -> option string.
Variable TypeByExtension : string -> string.
Variable Ext : string -> string.

Local Abbreviation handler := (bindataAssetHandler Asset TypeByExtension Ext).

(** X22: [bindataAssetHandler] serves the asset named by the path without
    its leading slash, and [index.html] for the root.  To a writer that has
    sent nothing it answers 404 with no header and no body when there is no
    such asset, and otherwise 200 with the bytes of the asset as the body and
    the Content-Type of the file's extension as the only header, or no header
    when the extension has no known type. *)
Theorem bindataAssetHandler_serves (w : ResponseWriter.t) (name : string) :
  handler w "/" = handler w "/index.html"
  /\ handler w "" = handler w "/index.html"
  /\ handler ResponseWriter.fresh ("/" +:+ name)
     = let file := if bool_decide (name = ""%string) then "index.html"%string else name in
       match Asset file with
       | None => ResponseWriter.mk ∅ (Some (404, ∅)) ""
       | Some asset =>
           let headers : gmap string string :=
             if bool_decide (TypeByExtension (Ext file) = ""%string) then ∅
             else {[ "Content-Type"%string := TypeByExtension (Ext file) ]} in
           ResponseWriter.mk headers (Some (200, headers)) asset
       end.
Proof.
  split; [reflexivity|]. split; [reflexivity|].
  unfold bindataAssetHandler. rewrite TrimPrefix_slash. cbn zeta.
  set (file := if bool_decide (name = ""%string) then "index.html"%string else name).
  destruct (Asset file) as [asset|]; [|reflexivity].
  set (mime := TypeByExtension (Ext file)).
  destruct (decide (mime = ""%string)) as [Hmime|Hmime].
  - rewrite (bool_decide_eq_false_2 (mime ≠ ""%string)) by auto.
    rewrite (bool_decide_eq_true_2 (mime = ""%string)) by assumption. reflexivity.
  - rewrite (bool_decide_eq_true_2 (mime ≠ ""%string)) by assumption.
    rewrite (bool_decide_eq_false_2 (mime = ""%string)) by assumption. reflexivity.
Qed.

End AssetFacts.

Example bindataAssetHandler_samples :
  let handler := bindataAssetHandler sample_Asset sample_TypeByExtension sample_Ext in
  handler ResponseWriter.fresh "/"
  = ResponseWriter.mk {[ "Content-Type"%string := "text/html; charset=utf-8"%string ]}
      (Some (200, {[ "Content-Type"%string := "text/html; charset=utf-8"%string ]}))
      "<html></html>"
  /\ handler ResponseWriter.fresh "/LICENSE" = ResponseWriter.mk ∅ (Some (200, ∅)) "MIT"
  /\ handler ResponseWriter.fresh "/missing.png" = ResponseWriter.mk ∅ (Some (404, ∅)) ""
  /\ handler ResponseWriter.fresh "//js/app.js" = ResponseWriter.mk ∅ (Some (404, ∅)) "".
Proof. vm_compute. repeat split; reflexivity. Qed.

(** ** [Fetch] lets no stale item in *)

Lemma accepted_not_before (Sanitize : string -> string) (refreshed : Time)
  (entries : list gofeed.Item.t) (w : World) (item : FeedItem) :
  item ∈ accepted Sanitize refreshed entries w -> refreshed <= FeedItem.Date item.
Proof.
  revert w. induction entries as [|entry rest IH]; intros w Hitem; [inversion Hitem|].
  cbn [accepted] in Hitem.
  destruct (new_feedItem Sanitize entry w) as [feedItem w1].
  apply elem_of_app in Hitem as [Hitem|Hitem]; [|now apply IH in Hitem].
  destruct (accepts refreshed (wall w1 (reads w1)) (FeedItem.Date feedItem)) eqn:E;
    [|inversion Hitem].
  apply list_elem_of_singleton in Hitem. subst item.
  apply accepts_iff in E. lia.
Qed.

(** X23: however [Fetch] ends, an item of the feed afterwards either was
    in the feed before or is dated at or after the Refreshed time the feed
    had when [Fetch] was called. *)
Theorem Fetch_no_stale_item (defaultUserAgent : string) (url_error : string -> option error)
  (client_Do : http.Request -> option http.Response * option error)
  (gofeed_Parse : string -> error + gofeed.Feed.t) (Sanitize : string -> string)
  (Format_RFC1123 : Time -> string) (feed : Feed) (w : World) (item : FeedItem) :
  item ∈ Feed.Items
           (snd (fst (Fetch defaultUserAgent url_error client_Do gofeed_Parse Sanitize
                        Format_RFC1123 feed w))) ->
  item ∈ Feed.Items feed \/ Feed.Refreshed feed <= FeedItem.Date item.
Proof.
  destruct (Fetch_cases defaultUserAgent url_error client_Do gofeed_Parse Sanitize
              Format_RFC1123 feed w)
    as [(result & ->)|[->|(request & response & parsedFeed & Hparsed)]]; try (now left).
  destruct Hparsed as (Hurl & Hreq & Hdo & Hstatus & Hparse).
  rewrite (Fetch_parsed defaultUserAgent url_error client_Do gofeed_Parse Sanitize
             Format_RFC1123 feed w request response parsedFeed) by assumption.
  match goal with |- context [Fetch_finish ?f ?r ?p ?v] =>
    destruct (Fetch_finish_frame f r p v) as (_ & _ & _ & _ & _ & _ & Hitems)
  end.
  intros Hitem. rewrite Hitems in Hitem. cbn [Feed.with_Items Feed.Items] in Hitem.
  apply elem_of_app in Hitem as [Hitem|Hitem]; [now left|right].
  now apply accepted_not_before in Hitem.
Qed.

Lemma Fetch_no_stale_item_witness :
  FeedItem.mk "a" 1000 1001 "title" "http://a/1" 600 "text"
  ∈ Feed.Items (sample_feed "f" "http://a/feed.xml" "A" [])
  \/ Feed.Refreshed (sample_feed "f" "http://a/feed.xml" "A" [])
     <= FeedItem.Date (FeedItem.mk "a" 1000 1001 "title" "http://a/1" 600 "text").
Proof.
  apply (Fetch_no_stale_item "bookmarks" (fun _ => None) (sample_Do 200)
           (fun _ => inr (gofeed.Feed.mk "A feed" "" None
                            [gofeed.Item.mk "title" "" "text" "http://a/1" None (Some 600)]))
           (fun text => text) (fun _ => "Mon, 01 Jan 0001 00:00:00 UTC"%string)
           (sample_feed "f" "http://a/feed.xml" "A" []) sample_world
           (FeedItem.mk "a" 1000 1001 "title" "http://a/1" 600 "text")).
  vm_compute. apply list_elem_of_here.
Defined.

(** ** Two [FeedPersist] calls with one URL *)

Lemma map_same {A} (f : A -> A) (l : list A) :
  (forall x, x ∈ l -> f x = x) -> map f l = l.
Proof.
  induction l as [|a l IH]; intros Hsame; [reflexivity|]. cbn [map].
  rewrite Hsame by apply list_elem_of_here.
  rewrite IH; [reflexivity|]. intros x Hx. apply Hsame. now apply list_elem_of_further.
Qed.

Section PersistTwice.

Variable sql_like : string -> string -> bool.
Variable sql_refreshed_before : Feed -> Time -> bool.

Local Abbreviation FeedPersist' := (FeedPersist sql_like sql_refreshed_before).

(** A call that finds a row with its URL: the feed handed back is that row
    as it now stands, under the row's id and Created time. *)
Lemma FeedPersist_on_row (store : Store) (feed r : Feed) (w : World) :
  feeds_ok (feeds store) -> r ∈ feeds store -> Feed.URL r = Feed.URL feed ->
  Feed.URL feed ≠ ""%string ->
  exists feed' store' w',
    FeedPersist' store feed w = (None, feed', store', w')
    /\ feeds_ok (feeds store') /\ feed' ∈ feeds store'
    /\ Feed.URL feed' = Feed.URL feed
    /\ Feed.ID feed' = Feed.ID r /\ Feed.Created feed' = Feed.Created r.
Proof.
  intros Hok Hin Hurl Hpresent.
  destruct (FeedPersist_existing sql_like sql_refreshed_before store feed r w Hok Hin Hurl Hpresent)
    as (feed' & store' & w' & Hcall & Hid & Hcreated & _).
  destruct (FeedPersist_existing_row sql_like sql_refreshed_before store feed r w Hok Hin Hurl Hpresent)
    as (feed'' & store'' & w'' & Hcall' & Hok' & Hin' & Hurl' & _).
  rewrite Hcall in Hcall'. injection Hcall' as <- <- <-.
  exists feed', store', w'. repeat split; try assumption; apply Hok'.
Qed.

(** The URLs stay distinct when the row with the feed's id, if any, takes a
    URL that no row has. *)
Lemma updated_row_urls (feed : Feed) (rows : list Feed) :
  NoDup (Feed.ID <$> rows) -> NoDup (Feed.URL <$> rows) ->
  (forall r, r ∈ rows -> Feed.URL r ≠ Feed.URL feed) ->
  NoDup (Feed.URL <$> map (updated_row feed) rows).
Proof.
  induction rows as [|r rows IH]; intros Hids Hurls Hmiss; [constructor|].
  rewrite fmap_cons in Hids, Hurls.
  apply NoDup_cons in Hids as [Hid_fresh Hids]. apply NoDup_cons in Hurls as [Hurl_fresh Hurls].
  cbn [map]. rewrite fmap_cons. apply NoDup_cons. split.
  - intros Hin. apply list_elem_of_fmap_1 in Hin as (y & Hy & Hin).
    apply elem_of_map_inv in Hin as (x & -> & Hx).
    assert (Feed.URL x ≠ Feed.URL feed) as Hx_miss
        by (apply Hmiss; now apply list_elem_of_further).
    assert (Feed.URL r ≠ Feed.URL feed) as Hr_miss by (apply Hmiss, list_elem_of_here).
    unfold updated_row in Hy.
    destruct (bool_decide (Feed.ID r = Feed.ID feed)) eqn:Er;
      destruct (bool_decide (Feed.ID x = Feed.ID feed)) eqn:Ex; cbn in Hy.
    + apply bool_decide_eq_true in Er, Ex. apply Hid_fresh.
      rewrite Er, <- Ex. now apply list_elem_of_fmap_2.
    + congruence.
    + congruence.
    + apply Hurl_fresh. rewrite Hy. now apply list_elem_of_fmap_2.
  - apply IH; try assumption. intros x Hx. apply Hmiss. now apply list_elem_of_further.
Qed.

(** A call that brings an ID and finds no row with its URL: the UPDATE
    keyed by that ID goes through; it renames the row with that id when there
    is one and writes nothing otherwise; the generator is not asked. *)
Lemma FeedPersist_by_id_miss (store : Store) (feed : Feed) (w : World) :
  feeds_ok (feeds store) -> Feed.URL feed ≠ ""%string ->
  (forall r, r ∈ feeds store -> Feed.URL r ≠ Feed.URL feed) ->
  Feed.ID feed ≠ ""%string ->
  exists feed' store' w',
    FeedPersist' store feed w = (None, feed', store', w')
    /\ feeds_ok (feeds store') /\ Feed.ID feed' = Feed.ID feed
    /\ uuids w' = uuids w /\ drawn w' = drawn w
    /\ ((forall r, r ∈ feeds store -> Feed.ID r ≠ Feed.ID feed) -> feeds store' = feeds store)
    /\ (forall r, r ∈ feeds store -> Feed.ID r = Feed.ID feed ->
          exists r', r' ∈ feeds store' /\ Feed.URL r' = Feed.URL feed
                     /\ Feed.ID r' = Feed.ID r /\ Feed.Created r' = Feed.Created r).
Proof.
  intros Hok Hurl Hmiss Hid.
  rewrite (FeedPersist_miss_update sql_like sql_refreshed_before store feed w Hurl Hmiss Hid).
  destruct (FeedPersist_defaults_frame feed w) as (Hid1 & Hurl1 & _ & Huuids & Hdrawn).
  set (feed1 := (FeedPersist_defaults feed w).1) in *.
  set (upd := updated_row feed1).
  assert (exec_update sql_like sql_refreshed_before feed1 [IdIs (Feed.ID feed)] (feeds store)
          = inr (map upd (feeds store))) as ->.
  { unfold exec_update. cbn [forallb Cond_resolves andb].
    assert (map (fun r => if Where sql_like sql_refreshed_before [IdIs (Feed.ID feed)] r
                          then set_columns feed1 r else r) (feeds store)
            = map upd (feeds store)) as ->.
    { apply map_ext. intros r. unfold Where, upd, updated_row. cbn [forallb Cond_holds].
      now rewrite andb_true_r, Hid1. }
    rewrite bool_decide_eq_true_2; [reflexivity|].
    destruct Hok as (Hids & Hurls & _). apply updated_row_urls; try assumption.
    intros r Hr. rewrite Hurl1. now apply Hmiss. }
  assert (forall x, x ∈ feeds store -> Feed.ID (upd x) = Feed.ID x) as Hsame_id
      by (intros x _; apply updated_row_ID).
  eexists _, _, _. split; [reflexivity|]. cbn [feeds].
  split; [|split; [exact Hid1|split; [exact Huuids|split; [exact Hdrawn|split]]]].
  - destruct Hok as (Hids & Hurls & Hnonempty). repeat split.
    + now rewrite (fmap_map_same Feed.ID upd (feeds store) Hsame_id).
    + apply updated_row_urls; try assumption. intros r Hr. rewrite Hurl1. now apply Hmiss.
    + intros y Hy. apply elem_of_map_inv in Hy as (x & -> & Hx).
      rewrite Hsame_id by exact Hx. now apply Hnonempty.
  - intros Hnone. apply map_same. intros x Hx. unfold upd, updated_row.
    rewrite bool_decide_eq_false_2; [reflexivity|]. rewrite Hid1. now apply Hnone.
  - intros r Hr Hr_id. exists (upd r). split; [now apply elem_of_map|].
    unfold upd, updated_row. rewrite bool_decide_eq_true_2 by congruence.
    cbn. repeat split. exact Hurl1.
Qed.

(** C2, as the code has it: on a table as the schema keeps it, with a
    generator that gives an unused, non-empty ID, two calls with the same
    non-empty URL, the second without ID, both return nil and leave exactly
    one row with that URL: the feed the second call hands back.  The second
    call ends with the ID and the Created time the first ended with when the
    first brought no ID or found a row with the URL; when the first brought
    the id of a row and no row had the URL, the second ends with that id and
    with the Created time of that row. *)
Theorem FeedPersist_twice_one_row (store : Store) (feed1 feed2 : Feed) (w : World) :
  feeds_ok (feeds store) ->
  Feed.URL feed1 ≠ ""%string ->
  Feed.URL feed2 = Feed.URL feed1 ->
  Feed.ID feed2 = ""%string ->
  uuids w (drawn w) ≠ ""%string ->
  (forall r, r ∈ feeds store -> Feed.ID r ≠ uuids w (drawn w)) ->
  exists f1 s1 w1 f2 s2 w2,
    FeedPersist' store feed1 w = (None, f1, s1, w1)
    /\ FeedPersist' s1 feed2 w1 = (None, f2, s2, w2)
    /\ rows_with_url (Feed.URL feed1) (feeds s2) = [f2]
    /\ (Feed.ID feed1 = ""%string \/ (exists r, r ∈ feeds store /\ Feed.URL r = Feed.URL feed1) ->
        Feed.ID f2 = Feed.ID f1 /\ Feed.Created f2 = Feed.Created f1)
    /\ (forall r, r ∈ feeds store -> Feed.ID r = Feed.ID feed1 ->
          Feed.ID f2 = Feed.ID f1
          /\ ((forall r', r' ∈ feeds store -> Feed.URL r' ≠ Feed.URL feed1) ->
              Feed.Created f2 = Feed.Created r)).
Proof.
  intros Hok Hurl Hsame Hsecond Hgen Hfresh.
  (* the second call, once a row with the URL is in the table *)
  assert (forall s1 w1 r1,
             feeds_ok (feeds s1) -> r1 ∈ feeds s1 -> Feed.URL r1 = Feed.URL feed1 ->
             exists f2 s2 w2,
               FeedPersist' s1 feed2 w1 = (None, f2, s2, w2)
               /\ rows_with_url (Feed.URL feed1) (feeds s2) = [f2]
               /\ Feed.ID f2 = Feed.ID r1 /\ Feed.Created f2 = Feed.Created r1) as Hthen.
  { intros s1 w1 r1 Hok1 Hin1 Hurl1.
    destruct (FeedPersist_on_row s1 feed2 r1 w1 Hok1 Hin1)
      as (f2 & s2 & w2 & Hcall2 & Hok2 & Hin2 & Hurl2 & Hid2 & Hcreated2);
      [congruence|congruence|].
    exists f2, s2, w2. repeat split; try assumption.
    unfold rows_with_url. rewrite <- Hsame, <- Hurl2.
    destruct Hok2 as (_ & Hurls2 & _). now apply NoDup_fmap_filter. }
  destruct (rows_with_url (Feed.URL feed1) (feeds store)) as [|r rest] eqn:E.
  - assert (forall r, r ∈ feeds store -> Feed.URL r ≠ Feed.URL feed1) as Hmiss.
    { intros r Hr Hr_url. now apply (filter_nil_not_elem_of _ _ r E). }
    destruct (decide (Feed.ID feed1 = ""%string)) as [Hfirst|Hfirst].
    + (* no ID, no row: the first call inserts *)
      destruct (FeedPersist_new sql_like sql_refreshed_before store feed1 w Hok Hurl Hmiss Hfirst Hgen
                  Hfresh) as (f1 & s1 & w1 & Hcall1 & Hok1 & Hin1 & Hurl1).
      destruct (Hthen s1 w1 f1 Hok1 Hin1 Hurl1)
        as (f2 & s2 & w2 & Hcall2 & Hone & Hid2 & Hcreated2).
      exists f1, s1, w1, f2, s2, w2. split; [exact Hcall1|]. split; [exact Hcall2|].
      split; [exact Hone|]. split.
      * intros _. split; assumption.
      * intros r Hr Hr_id. exfalso. destruct Hok as (_ & _ & Hnonempty).
        apply (Hnonempty r Hr). congruence.
    + (* an ID, no row with the URL: the first call updates by id *)
      destruct (FeedPersist_by_id_miss store feed1 w Hok Hurl Hmiss Hfirst)
        as (f1 & s1 & w1 & Hcall1 & Hok1 & Hid1 & Huuids & Hdrawn & Hnone & Hsome).
      destruct (filter (fun r => Feed.ID r = Feed.ID feed1) (feeds store)) as [|r rest] eqn:Eid.
      * (* no row has the id either: nothing was written, the second call inserts *)
        assert (forall r, r ∈ feeds store -> Feed.ID r ≠ Feed.ID feed1) as Hno_id.
        { intros r Hr Hr_id. now apply (filter_nil_not_elem_of _ _ r Eid). }
        specialize (Hnone Hno_id).
        destruct (FeedPersist_new sql_like sql_refreshed_before s1 feed2 w1)
          as (f2 & s2 & w2 & Hcall2 & Hok2 & Hin2 & Hurl2); try assumption.
        { congruence. }
        { rewrite Hnone, Hsame. exact Hmiss. }
        { now rewrite Huuids, Hdrawn. }
        { rewrite Hnone, Huuids, Hdrawn. exact Hfresh. }
        exists f1, s1, w1, f2, s2, w2. split; [exact Hcall1|]. split; [exact Hcall2|].
        split; [|split].
        -- unfold rows_with_url. rewrite <- Hsame, <- Hurl2.
           destruct Hok2 as (_ & Hurls2 & _). now apply NoDup_fmap_filter.
        -- intros [Hcase|(r & Hr & Hr_url)]; [contradiction|now apply Hmiss in Hr].
        -- intros r Hr Hr_id. now apply Hno_id in Hr.
      * (* the row with the id was renamed: the second call finds it *)
        assert (r ∈ filter (fun r => Feed.ID r = Feed.ID feed1) (feeds store)) as Hr
            by (rewrite Eid; apply list_elem_of_here).
        apply list_elem_of_filter in Hr as [Hr_id Hr].
        destruct (Hsome r Hr Hr_id) as (r1 & Hin1 & Hurl1 & Hid_r1 & Hcreated_r1).
        destruct (Hthen s1 w1 r1 Hok1 Hin1 Hurl1)
          as (f2 & s2 & w2 & Hcall2 & Hone & Hid2 & Hcreated2).
        exists f1, s1, w1, f2, s2, w2. split; [exact Hcall1|]. split; [exact Hcall2|].
        split; [exact Hone|]. split.
        -- intros [Hcase|(r' & Hr' & Hr'_url)]; [contradiction|now apply Hmiss in Hr'].
        -- intros r' Hr' Hr'_id.
           assert (r' = r) as ->.
           { destruct Hok as (Hids & _). apply (NoDup_fmap_same Feed.ID (feeds store));
               try assumption. congruence. }
           split; [congruence|]. intros _. congruence.
  - (* a row has the URL: both calls find it *)
    assert (r ∈ rows_with_url (Feed.URL feed1) (feeds store)) as Hr
        by (rewrite E; apply list_elem_of_here).
    apply list_elem_of_filter in Hr as [Hr_url Hr].
    destruct (FeedPersist_on_row store feed1 r w Hok Hr Hr_url Hurl)
      as (f1 & s1 & w1 & Hcall1 & Hok1 & Hin1 & Hurl1 & Hid1 & Hcreated1).
    destruct (Hthen s1 w1 f1 Hok1 Hin1 Hurl1)
      as (f2 & s2 & w2 & Hcall2 & Hone & Hid2 & Hcreated2).
    exists f1, s1, w1, f2, s2, w2. split; [exact Hcall1|]. split; [exact Hcall2|].
    split; [exact Hone|]. split.
    + intros _. split; assumption.
    + intros r' Hr' Hr'_id. split; [assumption|].
      intros Hmiss. now apply Hmiss in Hr.
Qed.

End PersistTwice.

Lemma FeedPersist_twice_one_row_witness :
  (exists f1 s1 w1 f2 s2 w2,
     FeedPersist sample_like sample_refreshed_before sample_store
       (sample_feed "" "http://d/feed.xml" "" []) sample_world = (None, f1, s1, w1)
     /\ FeedPersist sample_like sample_refreshed_before s1
          (sample_feed "" "http://d/feed.xml" "New" []) w1 = (None, f2, s2, w2)
     /\ rows_with_url "http://d/feed.xml" (feeds s2) = [f2]
     /\ (""%string = ""%string
         \/ (exists r, r ∈ feeds sample_store /\ Feed.URL r = "http://d/feed.xml"%string) ->
         Feed.ID f2 = Feed.ID f1 /\ Feed.Created f2 = Feed.Created f1)
     /\ (forall r, r ∈ feeds sample_store -> Feed.ID r = ""%string ->
           Feed.ID f2 = Feed.ID f1
           /\ ((forall r', r' ∈ feeds sample_store ->
                           Feed.URL r' ≠ "http://d/feed.xml"%string) ->
               Feed.Created f2 = Feed.Created r)))
  /\ (exists f1 s1 w1 f2 s2 w2,
        FeedPersist sample_like sample_refreshed_before sample_store
          (sample_feed "r2" "http://d/feed.xml" "" []) sample_world = (None, f1, s1, w1)
        /\ FeedPersist sample_like sample_refreshed_before s1
             (sample_feed "" "http://d/feed.xml" "New" []) w1 = (None, f2, s2, w2)
        /\ rows_with_url "http://d/feed.xml" (feeds s2) = [f2]
        /\ ("r2"%string = ""%string
            \/ (exists r, r ∈ feeds sample_store /\ Feed.URL r = "http://d/feed.xml"%string) ->
            Feed.ID f2 = Feed.ID f1 /\ Feed.Created f2 = Feed.Created f1)
        /\ (forall r, r ∈ feeds sample_store -> Feed.ID r = "r2"%string ->
              Feed.ID f2 = Feed.ID f1
              /\ ((forall r', r' ∈ feeds sample_store ->
                              Feed.URL r' ≠ "http://d/feed.xml"%string) ->
                  Feed.Created f2 = Feed.Created r))).
Proof.
  split.
  - apply (FeedPersist_twice_one_row sample_like sample_refreshed_before sample_store
             (sample_feed "" "http://d/feed.xml" "" [])
             (sample_feed "" "http://d/feed.xml" "New" []) sample_world).
    + exact sample_store_ok.
    + discriminate.
    + reflexivity.
    + reflexivity.
    + discriminate.
    + exact sample_store_fresh.
  - apply (FeedPersist_twice_one_row sample_like sample_refreshed_before sample_store
             (sample_feed "r2" "http://d/feed.xml" "" [])
             (sample_feed "" "http://d/feed.xml" "New" []) sample_world).
    + exact sample_store_ok.
    + discriminate.
    + reflexivity.
    + reflexivity.
    + discriminate.
    + exact sample_store_fresh.
Defined.

(** A first call that brings the id of a row and a URL that no row has
    renames that row; the second call, without ID, finds it by the URL and
    keeps its id and Created time: the table still has its three rows. *)
Example FeedPersist_twice_after_rename :
  match FeedPersist sample_like sample_refreshed_before sample_store
          (sample_feed "r2" "http://d/feed.xml" "" []) sample_world with
  | (err1, f1, s1, w1) =>
      match FeedPersist sample_like sample_refreshed_before s1
              (sample_feed "" "http://d/feed.xml" "New" []) w1 with
      | (err2, f2, s2, _) =>
          err1 = None /\ err2 = None
          /\ Feed.ID f1 = "r2"%string /\ Feed.ID f2 = "r2"%string
          /\ Feed.Created f1 = 1000 /\ Feed.Created f2 = 100
          /\ Feed.ID <$> feeds s2 = ["r1"; "r2"; "r3"]%string
          /\ Feed.URL <$> feeds s2
             = ["http://a/feed.xml"; "http://d/feed.xml"; "http://c/feed.xml"]%string
          /\ rows_with_url "http://d/feed.xml" (feeds s2) = [f2]
      end
  end.
Proof. vm_compute. repeat split; reflexivity. Qed.

(** A first call that brings an ID no row has writes nothing; the second
    call, without ID, inserts the one row with the URL. *)
Example FeedPersist_twice_unknown_ID_inserts_once :
  match FeedPersist sample_like sample_refreshed_before sample_store
          (sample_feed "x" "http://d/feed.xml" "" []) sample_world with
  | (err1, f1, s1, w1) =>
      match FeedPersist sample_like sample_refreshed_before s1
              (sample_feed "" "http://d/feed.xml" "New" []) w1 with
      | (err2, f2, s2, _) =>
          err1 = None /\ err2 = None
          /\ feeds s1 = feeds sample_store
          /\ Feed.ID <$> feeds s2 = ["r1"; "r2"; "r3"; "a"]%string
          /\ rows_with_url "http://d/feed.xml" (feeds s2) = [f2]
      end
  end.
Proof. vm_compute. repeat split; reflexivity. Qed.
